(** * Marketing KPI toolkit: a shallow embedding of [marketing_kpi_toolkit.py]

    The tables of the program are pandas data frames.  A frame is modelled by
    its ordered list of column names and its rows, each row a finite map from
    column names to cells.  Frames that the program names and updates in
    place ([df[c] = ...]) live in a store of objects; the functions of the
    source are written in a state-and-exception monad over that store, one
    statement of the source per line.

    Numbers are exact rationals: a numeric cell holds a finite value or is
    missing (NaN).  Rounding and overflow of binary floating point are outside
    the embedding.  File input, charts and the CSV writer are outside it too. *)

From Stdlib Require Import QArith Qcanon.
From stdpp Require Import sorting numbers gmap strings list.

Local Open Scope Qc_scope.

(** ** Cells, errors *)

(** A cell: a finite number, a missing value (NaN, None and NaT alike), a
    text, or a calendar date counted in days. *)
Inductive value :=
  | VNum (q : Qc)
  | VNaN
  | VStr (s : string)
  | VDate (d : Z).

Global Instance value_eq_dec : EqDecision value.
Proof. solve_decision. Defined.

Global Instance value_inhabited : Inhabited value := populate VNaN.

(** The exceptions the modelled code can raise.  [OverflowError] is the
    embedding's own: a column that would hold an infinity is not a table of
    this model. *)
Inductive error :=
  | KeyError (c : string)
  | TypeError
  | ValueError
  | AttributeError
  | NameError
  | OverflowError.

Global Instance error_eq_dec : EqDecision error.
Proof. solve_decision. Defined.

Inductive result (A : Type) :=
  | Ok (a : A)
  | Err (e : error).
Arguments Ok {A} a.
Arguments Err {A} e.

Global Instance result_eq_dec {A} `{EqDecision A} : EqDecision (result A).
Proof. solve_decision. Defined.

Global Instance result_ret : MRet result := λ A, Ok.
Global Instance result_bind : MBind result := λ A B f m,
  match m with Ok a => f a | Err e => Err e end.
Global Instance result_fmap : FMap result := λ A B f m,
  match m with Ok a => Ok (f a) | Err e => Err e end.

Definition is_ok {A} (r : result A) : Prop :=
  match r with Ok _ => True | Err _ => False end.

(** [mapM] of the exception monad, left to right. *)
Fixpoint map_res {A B} (f : A → result B) (l : list A) : result (list B) :=
  match l with
  | [] => Ok []
  | x :: l => y ← f x; ys ← map_res f l; Ok (y :: ys)
  end.

Definition qz (z : Z) : Qc := Q2Qc (inject_Z z).

Definition notna (v : value) : bool :=
  match v with VNaN => false | _ => true end.

Definition isna (v : value) : bool := negb (notna v).

(** ** Data frames *)

Abbreviation row := (gmap string value).

Record frame := Frame { columns : list string; rows : list row }.

Global Instance frame_eq_dec : EqDecision frame.
Proof. solve_decision. Defined.

(** A pandas Series aligned with the rows of the frame it was taken from. *)
Abbreviation series := (list value).

(** What [DataFrame.get(c, default)] can return: a column or the default. *)
Inductive pyobj :=
  | Series (vs : series)
  | Scalar (v : value).

Definition col (df : frame) (c : string) : series :=
  map (λ r : row, r !!! c) (rows df).

(** [c in df.columns] *)
Definition has_column (df : frame) (c : string) : bool :=
  bool_decide (c ∈ columns df).

(** [df[c]] *)
Definition getitem (df : frame) (c : string) : result series :=
  if has_column df c then Ok (col df c) else Err (KeyError c).

(** [df.get(c, default)] *)
Definition df_get (df : frame) (c : string) (default : pyobj) : pyobj :=
  if has_column df c then Series (col df c) else default.

Definition add_column (cs : list string) (c : string) : list string :=
  if bool_decide (c ∈ cs) then cs else cs ++ [c].

(** [df[c] = vs] for a series [vs] *)
Definition setitem (df : frame) (c : string) (vs : series) : result frame :=
  if bool_decide (length vs = length (rows df)) then
    Ok {| columns := add_column (columns df) c;
          rows := zip_with (λ (r : row) v, <[c := v]> r) (rows df) vs |}
  else Err ValueError.

(** [df[c] = v] for a scalar [v] *)
Definition setitem_scalar (df : frame) (c : string) (v : value) : frame :=
  {| columns := add_column (columns df) c;
     rows := map (λ r : row, <[c := v]> r) (rows df) |}.

(** [x.fillna(v)] on one cell *)
Definition fillna_value (v x : value) : value :=
  match x with VNaN => v | _ => x end.

(** [x.fillna(v)] where [x] came from [DataFrame.get]: a float has no
    [fillna]. *)
Definition obj_fillna (o : pyobj) (v : value) : result series :=
  match o with
  | Series vs => Ok (map (fillna_value v) vs)
  | Scalar _ => Err AttributeError
  end.

(** [df.fillna({c: v, ...})] *)
Definition fillna_row (cs : list string) (d : list (string * value)) (r : row) : row :=
  foldl (λ (acc : row) '(c, v),
           if bool_decide (c ∈ cs) then <[c := fillna_value v (acc !!! c)]> acc
           else acc) r d.

Definition fillna (d : list (string * value)) (df : frame) : frame :=
  {| columns := columns df; rows := map (fillna_row (columns df) d) (rows df) |}.

(** [df.rename(columns={old: new})] *)
Definition rename_row (old new : string) (r : row) : row :=
  match r !! old with
  | Some v => <[new := v]> (delete old r)
  | None => r
  end.

Definition rename (old new : string) (df : frame) : frame :=
  {| columns := map (λ c, if bool_decide (c = old) then new else c) (columns df);
     rows := map (rename_row old new) (rows df) |}.

(** [df.dropna(subset=cs)] *)
Definition dropna (cs : list string) (df : frame) : result frame :=
  _ ← map_res (getitem df) cs;
  Ok {| columns := columns df;
        rows := filter (λ r : row, forallb (λ c, notna (r !!! c)) cs = true) (rows df) |}.

(** ** Aggregation: [groupby(keys, as_index=False).agg(...)] *)

Inductive aggfun := AggSum | AggNunique.

(** A numeric cell as a float: [None] is NaN; text and dates are not
    numbers. *)
Definition as_float (v : value) : result (option Qc) :=
  match v with
  | VNum q => Ok (Some q)
  | VNaN => Ok None
  | _ => Err TypeError
  end.

(** Sum of a column that skips missing values; the sum of nothing is 0. *)
Fixpoint nansum (vs : series) : result Qc :=
  match vs with
  | [] => Ok 0
  | v :: vs =>
      x ← as_float v;
      s ← nansum vs;
      Ok (match x with Some q => q + s | None => s end)
  end.

(** [nunique]: the number of distinct values, missing ones not counted. *)
Definition nunique (vs : series) : nat :=
  length (remove_dups (filter (λ v, notna v = true) vs)).

Definition agg_apply (fn : aggfun) (vs : series) : result value :=
  match fn with
  | AggSum => VNum <$> nansum vs
  | AggNunique => Ok (VNum (qz (Z.of_nat (nunique vs))))
  end.

Definition key_of (keys : list string) (r : row) : list value :=
  map (λ k, r !!! k) keys.

(** The order in which group keys are listed.  Cells of one kind compare as
    numbers, texts (by code point) or dates; across kinds the order is by
    kind, a choice of the embedding that no property below observes. *)
Definition value_rank (v : value) : nat :=
  match v with VNum _ => 0 | VNaN => 1 | VStr _ => 2 | VDate _ => 3 end.

Definition value_leb (a b : value) : bool :=
  match a, b with
  | VNum x, VNum y => bool_decide (x ≤ y)
  | VStr x, VStr y => String.leb x y
  | VDate x, VDate y => bool_decide (x ≤ y)%Z
  | _, _ => bool_decide (value_rank a ≤ value_rank b)%nat
  end.

Fixpoint key_leb (a b : list value) : bool :=
  match a, b with
  | [], _ => true
  | _ :: _, [] => false
  | x :: a, y :: b => if decide (x = y) then key_leb a b else value_leb x y
  end.

Definition key_le (a b : list value) : Prop := key_leb a b = true.

Global Instance key_le_dec : RelDecision key_le.
Proof. intros a b. unfold key_le. apply _. Defined.

Definition valid_key (keys : list string) (r : row) : Prop :=
  forallb notna (key_of keys r) = true.

Global Instance valid_key_dec keys r : Decision (valid_key keys r).
Proof. unfold valid_key. apply _. Defined.

(** Rows whose key has a missing part belong to no group. *)
Definition group_keys (keys : list string) (rs : list row) : list (list value) :=
  merge_sort key_le (remove_dups (key_of keys <$> filter (valid_key keys) rs)).

Definition group_rows (keys : list string) (k : list value) (rs : list row) : list row :=
  filter (λ r : row, key_of keys r = k) rs.

Definition agg_cell (grp : list row) (a : string * (string * aggfun))
    : result (string * value) :=
  v ← agg_apply a.2.2 ((λ r : row, r !!! a.2.1) <$> grp);
  Ok (a.1, v).

Definition agg_row (keys : list string) (aggs : list (string * (string * aggfun)))
    (rs : list row) (k : list value) : result row :=
  cells ← map_res (agg_cell (group_rows keys k rs)) aggs;
  Ok (list_to_map (zip keys k ++ cells)).

Definition groupby_agg (keys : list string)
    (aggs : list (string * (string * aggfun))) (df : frame) : result frame :=
  _ ← map_res (getitem df) keys;
  _ ← map_res (λ a : string * (string * aggfun), getitem df a.2.1) aggs;
  rs ← map_res (agg_row keys aggs (rows df)) (group_keys keys (rows df));
  Ok {| columns := keys ++ aggs.*1; rows := rs |}.

(** ** [pd.merge(l, r, on=keys, how="left")] *)

Definition right_columns (on : list string) (r : frame) : list string :=
  filter (λ c, c ∉ on) (columns r).

Definition join_row (rcols : list string) (lr : row) (rr : option row) : row :=
  foldr (λ c (acc : row),
           <[c := match rr with Some m => m !!! c | None => VNaN end]> acc)
        lr rcols.

Definition matches (on : list string) (lr : row) (r : frame) : list row :=
  filter (λ rr : row, key_of on rr = key_of on lr) (rows r).

(** Columns of both sides other than the keys would be renamed with suffixes;
    the embedding covers the case where there are none. *)
Definition merge_left (on : list string) (l r : frame) : result frame :=
  _ ← map_res (getitem l) on;
  _ ← map_res (getitem r) on;
  let rcols := right_columns on r in
  if bool_decide (Exists (λ c, c ∈ columns l) rcols) then Err ValueError
  else
    Ok {| columns := columns l ++ rcols;
          rows := lr ← rows l;
                  match matches on lr r with
                  | [] => [join_row rcols lr None]
                  | ms => (λ rr, join_row rcols lr (Some rr)) <$> ms
                  end |}.

(** ** [df.sort_values(c, ascending=False)] *)

Definition num_key (c : string) (r : row) : Qc :=
  match r !!! c with VNum q => q | _ => 0 end.

Definition num_key_le (c : string) (a b : row) : Prop := num_key c a ≤ num_key c b.

Global Instance num_key_le_dec c : RelDecision (num_key_le c).
Proof. intros a b. unfold num_key_le. apply _. Defined.

(** pandas sorts the rows that have a value in ascending order, taken from
    the reversed table and reversed again, and puts the rows without a value
    last in their original order.  The order among equal values depends on
    the sorting algorithm and is not part of any property below. *)
Definition sort_values_desc (c : string) (df : frame) : result frame :=
  vs ← getitem df c;
  _ ← map_res as_float vs;
  let non_nans := filter (λ r : row, notna (r !!! c) = true) (rows df) in
  let nans := filter (λ r : row, isna (r !!! c) = true) (rows df) in
  Ok {| columns := columns df;
        rows := reverse (merge_sort (num_key_le c) (reverse non_nans)) ++ nans |}.

(** ** Element-wise arithmetic of numpy *)

(** A float computed by numpy: dividing by zero gives an infinity or NaN and
    raises nothing. *)
Inductive npfloat :=
  | FNum (q : Qc)
  | FNaN
  | FInf (negative : bool).

Definition float_div (a b : option Qc) : npfloat :=
  match a, b with
  | Some x, Some y =>
      if decide (y = 0) then
        if decide (x = 0) then FNaN else FInf (bool_decide (x < 0))
      else FNum (x / y)
  | _, _ => FNaN
  end.

(** [a / b] *)
Definition series_div (a b : series) : result (list npfloat) :=
  xs ← map_res as_float a;
  ys ← map_res as_float b;
  Ok (zip_with float_div xs ys).

(** [a > t]; a comparison with NaN is false. *)
Definition float_gt (t : Qc) (x : option Qc) : bool :=
  match x with Some q => bool_decide (t < q) | None => false end.

Definition series_gt (a : series) (t : Qc) : result (list bool) :=
  xs ← map_res as_float a;
  Ok (map (float_gt t) xs).

(** [np.where(mask, x, y)] with a scalar [y] *)
Definition np_where (mask : list bool) (x : list npfloat) (y : npfloat) : list npfloat :=
  zip_with (λ (b : bool) v, if b then v else y) mask x.

Definition to_cell (f : npfloat) : result value :=
  match f with
  | FNum q => Ok (VNum q)
  | FNaN => Ok VNaN
  | FInf _ => Err OverflowError
  end.

(** [df[out] = np.where(df[den] > 0, df[num] / df[den], np.nan)] *)
Definition assign_ratio (out num den : string) (df : frame) : result frame :=
  d ← getitem df den;
  mask ← series_gt d 0;
  n ← getitem df num;
  d' ← getitem df den;
  q ← series_div n d';
  vs ← map_res to_cell (np_where mask q FNaN);
  setitem df out vs.

(** ** The store of table objects *)

Abbreviation loc := positive.
Abbreviation store := (gmap loc frame).

(** A computation reads and updates the store and returns a value or raises;
    the store it leaves is kept in both cases. *)
Definition M (A : Type) : Type := store → result A * store.

Global Instance M_ret : MRet M := λ A a σ, (Ok a, σ).
Global Instance M_bind : MBind M := λ A B f m σ,
  match m σ with
  | (Ok a, σ') => f a σ'
  | (Err e, σ') => (Err e, σ')
  end.

Definition lift {A} (r : result A) : M A := λ σ, (r, σ).

Definition read (l : loc) : M frame := λ σ,
  match σ !! l with
  | Some f => (Ok f, σ)
  | None => (Err NameError, σ)
  end.

(** A new object, at an address no object of the store has. *)
Definition alloc (f : frame) : M loc := λ σ,
  let l := fresh (dom σ) in (Ok l, <[l := f]> σ).

Definition write (l : loc) (f : frame) : M unit := λ σ, (Ok (), <[l := f]> σ).

(** [df.copy()] *)
Definition copy (l : loc) : M loc := f ← read l; alloc f.

(** An update in place of the object at [l]. *)
Definition update (l : loc) (g : frame → result frame) : M unit :=
  f ← read l; f' ← lift (g f); write l f'.

(** [c in df.columns] for the object at [l] *)
Definition in_columns (l : loc) (c : string) : M bool :=
  f ← read l; mret (has_column f c).

Fixpoint for_each {A} (l : list A) (body : A → M unit) : M unit :=
  match l with
  | [] => mret ()
  | x :: l => _ ← body x; for_each l body
  end.

(** [df[c] = g(df[c])], cell by cell *)
Definition map_column (g : value → result value) (c : string) (df : frame) : result frame :=
  vs ← getitem df c;
  vs' ← map_res g vs;
  setitem df c vs'.

(** ** Text *)

(** ASCII white space, what [str.strip] removes at both ends (the white
    space of Unicode beyond ASCII is not covered). *)
Definition is_space (a : Ascii.ascii) : bool :=
  let n := Ascii.nat_of_ascii a in
  bool_decide (9 ≤ n ≤ 13 ∨ 28 ≤ n ≤ 32)%nat.

Fixpoint lstrip (s : string) : string :=
  match s with
  | EmptyString => EmptyString
  | String a s' => if is_space a then lstrip s' else s
  end.

Fixpoint rstrip (s : string) : string :=
  match s with
  | EmptyString => EmptyString
  | String a s' =>
      match rstrip s' with
      | EmptyString => if is_space a then EmptyString else String a EmptyString
      | t => String a t
      end
  end.

Definition strip (s : string) : string := rstrip (lstrip s).

Section Toolkit.

(** The parsers and the printer of the libraries, taken as they are:
    [parse_date] is [pd.to_datetime] on a cell that is not yet a date ([None]
    when pandas raises), [parse_float] is the number [pd.to_numeric] reads in
    a cell that is not yet a number ([None] when there is none), [py_repr] is
    [str] of a cell that is not a text. *)
Variable parse_date : value → option Z.
Variable parse_float : value → option Qc.
Variable py_repr : value → string.

(** [pd.to_datetime(x).dt.date] on one cell *)
Definition to_date (v : value) : result value :=
  match v with
  | VDate d => Ok (VDate d)
  | VNaN => Ok VNaN
  | _ => match parse_date v with
         | Some d => Ok (VDate d)
         | None => Err ValueError
         end
  end.

(** [pd.to_numeric(x, errors="coerce")] on one cell *)
Definition to_numeric (v : value) : result value :=
  match v with
  | VNum q => Ok (VNum q)
  | VNaN => Ok VNaN
  | _ => match parse_float v with
         | Some q => Ok (VNum q)
         | None => Ok VNaN
         end
  end.

(** [x.astype(str).str.strip()] on one cell *)
Definition astype_str_strip (v : value) : result value :=
  Ok (VStr (strip (match v with VStr s => s | _ => py_repr v end))).

(** *** Cleaning *)

Definition clean_column (df : loc) (g : value → result value) (c : string) : M unit :=
  has ← in_columns df c;
  if has : bool then update df (map_column g c) else mret ().

Definition clean_sessions (df : loc) : M loc :=
  df ← copy df;
  _ ← clean_column df to_date "Date";
  _ ← for_each ["Sessions"; "Clicks"; "Spend_gbp"; "Adj_spend_gbp"; "CTR"; "CPC"]
        (clean_column df to_numeric);
  _ ← for_each ["Channel"; "Source"; "Medium"; "Campaign"; "Department"]
        (clean_column df astype_str_strip);
  mret df.

Definition clean_orders (df : loc) : M loc :=
  df ← copy df;
  has ← in_columns df "Order_date";
  _ ← (if has : bool then
         _ ← update df (map_column to_date "Order_date");
         update df (λ f, d ← getitem f "Order_date"; setitem f "Date" d)
       else mret ());
  _ ← clean_column df to_numeric "Revenue_gbp";
  _ ← clean_column df to_numeric "Items";
  _ ← for_each ["Channel_ft"; "Channel"] (clean_column df astype_str_strip);
  mret df.

(** *** KPI assembly *)

(** [s.get("Adj_spend_gbp", s.get("Spend_gbp", 0.0)).fillna(0.0)] *)
Definition effective_spend (s : frame) : result series :=
  obj_fillna (df_get s "Adj_spend_gbp" (df_get s "Spend_gbp" (Scalar (VNum 0))))
             (VNum 0).

Definition assign_spend (s : frame) : result frame :=
  spend ← effective_spend s; setitem s "Spend" spend.

Definition sessions_aggs : list (string * (string * aggfun)) :=
  [("Sessions", ("Sessions", AggSum));
   ("Clicks", ("Clicks", AggSum));
   ("Spend", ("Spend", AggSum))].

Definition orders_aggs : list (string * (string * aggfun)) :=
  [("Orders", ("Order_id", AggNunique));
   ("Revenue", ("Revenue_gbp", AggSum))].

(** ["Channel_ft" if "Channel_ft" in o.columns else ("Channel" if "Channel"
    in o.columns else None)] *)
Definition chan_col_of (o : frame) : option string :=
  if has_column o "Channel_ft" then Some "Channel_ft"
  else if has_column o "Channel" then Some "Channel"
  else None.

Definition compute_daily_channel_kpis (sessions orders : loc) : M loc :=
  s ← copy sessions;
  _ ← update s assign_spend;
  _ ← update s (map_column to_date "Date");
  s_agg ← (f ← read s; lift (groupby_agg ["Date"; "Channel"] sessions_aggs f));
  o ← copy orders;
  chan_col ← (f ← read o; mret (chan_col_of f));
  chan_col ← match chan_col with
             | Some c => mret c
             | None =>
                 _ ← update o (λ f, Ok (setitem_scalar f "Channel_ft" (VStr "All")));
                 mret "Channel_ft"
             end;
  has_date ← in_columns o "Date";
  _ ← (if has_date : bool then mret ()
       else update o (λ f, d ← getitem f "Order_date";
                           d' ← map_res to_date d;
                           setitem f "Date" d'));
  o_agg ← (f ← read o;
           g ← lift (groupby_agg ["Date"; chan_col] orders_aggs f);
           mret (rename chan_col "Channel" g));
  df ← (m ← lift (merge_left ["Date"; "Channel"] s_agg o_agg);
        alloc (fillna [("Orders", VNum 0); ("Revenue", VNum 0)] m));
  _ ← update df (assign_ratio "CVR" "Orders" "Clicks");
  _ ← update df (assign_ratio "CPC_calc" "Spend" "Clicks");
  _ ← update df (assign_ratio "CAC" "Spend" "Orders");
  _ ← update df (assign_ratio "AOV" "Revenue" "Orders");
  _ ← update df (assign_ratio "ROAS" "Revenue" "Spend");
  mret df.

Definition summary_aggs : list (string * (string * aggfun)) :=
  [("Sessions", ("Sessions", AggSum));
   ("Clicks", ("Clicks", AggSum));
   ("Spend", ("Spend", AggSum));
   ("Orders", ("Orders", AggSum));
   ("Revenue", ("Revenue", AggSum))].

Definition channel_summary (df : loc) : M loc :=
  agg ← (f ← read df; g ← lift (groupby_agg ["Channel"] summary_aggs f); alloc g);
  _ ← update agg (assign_ratio "CVR" "Orders" "Clicks");
  _ ← update agg (assign_ratio "CPC" "Spend" "Clicks");
  _ ← update agg (assign_ratio "CAC" "Spend" "Orders");
  _ ← update agg (assign_ratio "AOV" "Revenue" "Orders");
  _ ← update agg (assign_ratio "ROAS" "Revenue" "Spend");
  f ← read agg;
  sorted ← lift (sort_values_desc "ROAS" f);
  alloc sorted.

(** *** Simple response curve *)

Definition qsum (l : list Qc) : Qc := foldr Qcplus 0 l.

(** The values of a column handed to numpy as an array of floats. *)
Definition float_values (vs : series) : result (list Qc) :=
  map_res (λ v, match v with
                | VNum q => Ok q
                | VNaN => Err ValueError
                | _ => Err TypeError
                end) vs.

(** [np.polyfit(x, y, 1)] in exact arithmetic, highest degree first: the
    least-squares line through the points.  When all [x] are equal the
    system has rank one; numpy then returns the solution of least norm in
    its scaled coordinates (each column of the design matrix divided by its
    Euclidean norm): slope [mean y / (2 x)] and intercept [mean y / 2].  An
    empty [x] is refused, and a column of zeros cannot be scaled. *)
Definition polyfit1 (xs ys : list Qc) : result (Qc * Qc) :=
  let n := qz (Z.of_nat (length xs)) in
  let sx := qsum xs in
  let sy := qsum ys in
  let sxx := qsum (zip_with Qcmult xs xs) in
  let sxy := qsum (zip_with Qcmult xs ys) in
  let det := n * sxx - sx * sx in
  if bool_decide (length xs = 0%nat) then Err TypeError
  else if bool_decide (length xs ≠ length ys) then Err TypeError
  else if bool_decide (det = 0) then
    if bool_decide (sx = 0) then Err ValueError
    else Ok (sy / (2 * sx), sy / (2 * n))
  else
    let b := (n * sxy - sx * sy) / det in
    Ok (b, (sy - b * sx) / n).

Definition date_totals (daily_df : frame) : result frame :=
  g ← groupby_agg ["Date"]
        [("Revenue", ("Revenue", AggSum)); ("Spend", ("Spend", AggSum))] daily_df;
  dropna ["Revenue"; "Spend"] g.

(** The fit [(a, b)] of [Revenue ≈ a + b·Spend], or [None] where the source
    returns [None, None, None].  The chart it draws is left out. *)
Definition response_fit (daily_df : frame) : result (option (Qc * Qc)) :=
  df ← date_totals daily_df;
  degenerate ← (if bool_decide (length (rows df) < 2)%nat then Ok true
                else spend ← getitem df "Spend";
                     total ← nansum spend;
                     Ok (bool_decide (total = 0)));
  if degenerate : bool then Ok None
  else
    spend ← getitem df "Spend";
    xs ← float_values spend;
    revenue ← getitem df "Revenue";
    ys ← float_values revenue;
    '(b, a) ← polyfit1 xs ys;
    Ok (Some (a, b)).

Definition simple_response_curve (daily_df : loc) : M (option (Qc * Qc)) :=
  f ← read daily_df; lift (response_fit f).

(** *** The pipeline of [main], from the two sheets as read to the daily
    table, the channel table and the fit. *)
Definition main (sessions_raw orders_raw : loc) : M (loc * loc * option (Qc * Qc)) :=
  sessions ← clean_sessions sessions_raw;
  orders ← clean_orders orders_raw;
  daily ← compute_daily_channel_kpis sessions orders;
  chan ← channel_summary daily;
  fit ← simple_response_curve daily;
  mret (daily, chan, fit).

(** ** The tables as functions of the input tables

    What each function of the source computes from the contents of the
    objects it is given; the run lemmas below relate the programs to them. *)

Definition sessions_prepared (sessions : frame) : result frame :=
  s ← assign_spend sessions;
  map_column to_date "Date" s.

Definition sessions_agg (sessions : frame) : result frame :=
  s ← sessions_prepared sessions;
  groupby_agg ["Date"; "Channel"] sessions_aggs s.

Definition orders_channel (orders : frame) : string * frame :=
  match chan_col_of orders with
  | Some c => (c, orders)
  | None => ("Channel_ft", setitem_scalar orders "Channel_ft" (VStr "All"))
  end.

Definition orders_dated (o : frame) : result frame :=
  if has_column o "Date" then Ok o
  else d ← getitem o "Order_date"; d' ← map_res to_date d; setitem o "Date" d'.

Definition orders_prepared (orders : frame) : result frame :=
  orders_dated (orders_channel orders).2.

Definition orders_groups (orders : frame) : result frame :=
  o ← orders_prepared orders;
  groupby_agg ["Date"; (orders_channel orders).1] orders_aggs o.

Definition orders_agg (orders : frame) : result frame :=
  g ← orders_groups orders;
  Ok (rename (orders_channel orders).1 "Channel" g).

Definition merged (sessions orders : frame) : result frame :=
  s_agg ← sessions_agg sessions;
  o_agg ← orders_agg orders;
  m ← merge_left ["Date"; "Channel"] s_agg o_agg;
  Ok (fillna [("Orders", VNum 0); ("Revenue", VNum 0)] m).

Definition daily_ratios (df : frame) : result frame :=
  df ← assign_ratio "CVR" "Orders" "Clicks" df;
  df ← assign_ratio "CPC_calc" "Spend" "Clicks" df;
  df ← assign_ratio "CAC" "Spend" "Orders" df;
  df ← assign_ratio "AOV" "Revenue" "Orders" df;
  assign_ratio "ROAS" "Revenue" "Spend" df.

Definition daily_kpis (sessions orders : frame) : result frame :=
  m ← merged sessions orders; daily_ratios m.

Definition summary_ratios (df : frame) : result frame :=
  df ← assign_ratio "CVR" "Orders" "Clicks" df;
  df ← assign_ratio "CPC" "Spend" "Clicks" df;
  df ← assign_ratio "CAC" "Spend" "Orders" df;
  df ← assign_ratio "AOV" "Revenue" "Orders" df;
  assign_ratio "ROAS" "Revenue" "Spend" df.

Definition summary_totals (daily : frame) : result frame :=
  groupby_agg ["Channel"] summary_aggs daily.

Definition summary (daily : frame) : result frame :=
  g ← summary_totals daily;
  g ← summary_ratios g;
  sort_values_desc "ROAS" g.

(** ** The formulas of the specification *)

(** A ratio guarded by its denominator: the quotient when the denominator is
    positive, missing otherwise. *)
Definition kpi_ratio (num den : Qc) : value :=
  if decide (0 < den) then VNum (num / den) else VNaN.

(** The same on two cells of a row; a missing cell gives a missing ratio. *)
Definition ratio_of (num den : string) (r : row) : value :=
  match r !!! num, r !!! den with
  | VNum n, VNum d => kpi_ratio n d
  | _, _ => VNaN
  end.

(** The column the spend of a sessions table is taken from. *)
Definition spend_column (s : frame) : option string :=
  if has_column s "Adj_spend_gbp" then Some "Adj_spend_gbp"
  else if has_column s "Spend_gbp" then Some "Spend_gbp"
  else None.

(** The date of a cell, where it has one. *)
Definition date_cell (v : value) : value :=
  match to_date v with Ok d => d | Err _ => VNaN end.

(** A row of the sessions table as it is grouped: with its effective spend
    and its date. *)
Definition session_row (c : string) (r : row) : row :=
  <["Date" := date_cell (r !!! "Date")]>
    (<["Spend" := fillna_value (VNum 0) (r !!! c)]> r).

(** A row of the orders table as it is grouped: with the channel ["All"]
    when the table has no channel column, and with its date. *)
Definition order_row (o : frame) (r : row) : row :=
  let r1 := match chan_col_of o with
            | Some _ => r
            | None => <["Channel_ft" := VStr "All"]> r
            end in
  if has_column o "Date" then r1
  else <["Date" := date_cell (r1 !!! "Order_date")]> r1.

(** A row of the joined table: the row of the sessions side, with the orders
    and the revenue of the order group of its key, or 0. *)
Definition merged_row (oa : frame) (lr : row) : row :=
  fillna_row ["Date"; "Channel"; "Sessions"; "Clicks"; "Spend"; "Orders"; "Revenue"]
    [("Orders", VNum 0); ("Revenue", VNum 0)]
    (join_row ["Orders"; "Revenue"] lr (head (matches ["Date"; "Channel"] lr oa))).

(** A row with its five ratios; [cpc] is the name of the cost-per-click
    column, ["CPC_calc"] in the daily table and ["CPC"] in the summary. *)
Definition with_ratios (cpc : string) (r : row) : row :=
  <["ROAS" := ratio_of "Revenue" "Spend" r]>
    (<["AOV" := ratio_of "Revenue" "Orders" r]>
       (<["CAC" := ratio_of "Spend" "Orders" r]>
          (<[cpc := ratio_of "Spend" "Clicks" r]>
             (<["CVR" := ratio_of "Orders" "Clicks" r]> r)))).

(** A row whose four counters are numbers and whose five ratios are the
    guarded quotients of the specification. *)
Definition kpi_row (cpc : string) (r : row) : Prop :=
  ∃ clicks spend orders revenue : Qc,
    r !!! "Clicks" = VNum clicks ∧ r !!! "Spend" = VNum spend
    ∧ r !!! "Orders" = VNum orders ∧ r !!! "Revenue" = VNum revenue
    ∧ r !!! "CVR" = kpi_ratio orders clicks
    ∧ r !!! cpc = kpi_ratio spend clicks
    ∧ r !!! "CAC" = kpi_ratio spend orders
    ∧ r !!! "AOV" = kpi_ratio revenue orders
    ∧ r !!! "ROAS" = kpi_ratio revenue spend.

(** The order of a table sorted on column [c], largest first and the rows
    without a value last: what holds between a row and every row after it. *)
Definition desc_nan_last (c : string) (a b : row) : Prop :=
  match a !!! c, b !!! c with
  | VNum x, VNum y => y ≤ x
  | VNaN, VNum _ => False
  | _, _ => True
  end.

(** The spend of a row as the specification words it, row by row: the
    adjusted spend when the row has one, else its raw spend when it has one,
    else 0. *)
Definition coalesce_spend (s : frame) (r : row) : value :=
  if has_column s "Adj_spend_gbp" && notna (r !!! "Adj_spend_gbp")
  then r !!! "Adj_spend_gbp"
  else if has_column s "Spend_gbp" && notna (r !!! "Spend_gbp")
  then r !!! "Spend_gbp"
  else VNum 0.

(** The (Date, Channel) pair of a row of the sessions table. *)
Definition session_key (r : row) : list value :=
  [date_cell (r !!! "Date"); r !!! "Channel"].

(** The channel of a row of the orders table, by the priority of the
    specification: column "Channel_ft", else column "Channel", else "All". *)
Definition resolved_channel (o : frame) (x : row) : value :=
  if has_column o "Channel_ft" then x !!! "Channel_ft"
  else if has_column o "Channel" then x !!! "Channel"
  else VStr "All".

(** The date of a row of the orders table: its "Date" when the table has
    that column, else the date of its "Order_date". *)
Definition order_date (o : frame) (x : row) : value :=
  if has_column o "Date" then x !!! "Date" else date_cell (x !!! "Order_date").

(** The (Date, resolved channel) pair of a row of the orders table. *)
Definition order_key (o : frame) (x : row) : list value :=
  [order_date o x; resolved_channel o x].

(** The (Date, Channel) pair of a row of the daily table. *)
Definition daily_key : row → list value := key_of ["Date"; "Channel"].

(** A pair whose two parts are both there. *)
Definition present (k : list value) : Prop := Forall (λ v, v ≠ VNaN) k.

(** [q] is the total of column [c] over the rows [rs], missing cells
    skipped. *)
Definition column_total (c : string) (rs : list row) (q : Qc) : Prop :=
  nansum ((λ x : row, x !!! c) <$> rs) = Ok q.



(** The sum of squared residuals of the line [a + b x] on the points. *)
Definition ssr (xs ys : list Qc) (a b : Qc) : Qc :=
  qsum (zip_with (λ x y, (y - (a + b * x)) * (y - (a + b * x))) xs ys).

(** The first four statements of [main]: the two tables. *)
Definition kpi_tables (sessions_raw orders_raw : loc) : M (loc * loc) :=
  sessions ← clean_sessions sessions_raw;
  orders ← clean_orders orders_raw;
  daily ← compute_daily_channel_kpis sessions orders;
  chan ← channel_summary daily;
  mret (daily, chan).

(** The column of the orders table that holds the channel of a row as it is
    grouped. *)
Definition order_chan (o : frame) : string := (orders_channel o).1.


(** * Properties *)

(** ** The exception monad *)

Lemma map_res_ok {A B} (f : A → result B) (g : A → B) (l : list A) :
  (∀ x, x ∈ l → f x = Ok (g x)) → map_res f l = Ok (map g l).
Proof.
  induction l as [|x l IH]; intros H; [done|].
  cbn. rewrite (H x) by left. cbn.
  rewrite IH; [done|]. intros y Hy. apply H. by right.
Qed.

Lemma map_res_Forall2 {A B} (f : A → result B) (l : list A) (ys : list B) :
  map_res f l = Ok ys ↔ Forall2 (λ x y, f x = Ok y) l ys.
Proof.
  revert ys. induction l as [|x l IH]; intros ys; cbn.
  - split; [intros [= <-]; constructor | by inversion 1].
  - destruct (f x) as [y|e] eqn:E; cbn.
    + destruct (map_res f l) as [ys'|e] eqn:E'; cbn.
      * split.
        -- intros [= <-]. constructor; [done|]. by apply IH.
        -- inversion 1 as [|? y' ? ys'' Hy Hys]; subst.
           apply IH in Hys. congruence.
      * split; [done|]. inversion 1 as [|? y' ? ys'' Hy Hys]; subst.
        apply IH in Hys. congruence.
    + split; [done|]. inversion 1; congruence.
Qed.

Lemma map_res_length {A B} (f : A → result B) (l : list A) (ys : list B) :
  map_res f l = Ok ys → length ys = length l.
Proof. intros H%map_res_Forall2. symmetry. by eapply Forall2_length. Qed.

Lemma map_res_map {A B C} (f : B → result C) (g : A → B) (l : list A) :
  map_res f (map g l) = map_res (f ∘ g) l.
Proof. induction l as [|x l IH]; [done|]. cbn. by rewrite IH. Qed.

(** ** Running a program on a store *)

Lemma run_bind {A B} (m : M A) (k : A → M B) (σ : store) :
  (m ≫= k) σ =
  match m σ with
  | (Ok a, σ') => k a σ'
  | (Err e, σ') => (Err e, σ')
  end.
Proof. reflexivity. Qed.

Lemma fresh_lookup (σ : store) : σ !! fresh (dom σ) = None.
Proof. apply not_elem_of_dom, is_fresh. Qed.

Lemma fresh_subseteq (σ : store) (f : frame) : σ ⊆ <[fresh (dom σ) := f]> σ.
Proof. apply insert_subseteq, fresh_lookup. Qed.

Lemma read_eq (σ : store) l f : σ !! l = Some f → read l σ = (Ok f, σ).
Proof. intros H. unfold read. by rewrite H. Qed.

Lemma copy_eq (σ : store) l f :
  σ !! l = Some f → copy l σ = (Ok (fresh (dom σ)), <[fresh (dom σ) := f]> σ).
Proof. intros H. unfold copy. by rewrite run_bind, (read_eq _ _ _ H). Qed.

Lemma copy_none (σ : store) l : σ !! l = None → copy l σ = (Err NameError, σ).
Proof. intros H. unfold copy, read. rewrite run_bind. by rewrite H. Qed.

Lemma update_eq (σ : store) l f (g : frame → result frame) :
  σ !! l = Some f →
  update l g σ =
  match g f with
  | Ok f' => (Ok (), <[l := f']> σ)
  | Err e => (Err e, σ)
  end.
Proof.
  intros H. unfold update. rewrite run_bind, (read_eq _ _ _ H).
  rewrite run_bind. unfold lift. by destruct (g f).
Qed.

Lemma update_top (σ : store) l f (g : frame → result frame) :
  update l g (<[l := f]> σ) =
  match g f with
  | Ok f' => (Ok (), <[l := f']> σ)
  | Err e => (Err e, <[l := f]> σ)
  end.
Proof.
  rewrite (update_eq _ l f) by apply lookup_insert_eq.
  destruct (g f); [|done]. by rewrite insert_insert_eq.
Qed.

Lemma in_columns_top (σ : store) l f c :
  in_columns l c (<[l := f]> σ) = (Ok (has_column f c), <[l := f]> σ).
Proof.
  unfold in_columns. rewrite run_bind, (read_eq _ l f) by apply lookup_insert_eq.
  done.
Qed.

Lemma read_top (σ : store) l f : read l (<[l := f]> σ) = (Ok f, <[l := f]> σ).
Proof. apply read_eq, lookup_insert_eq. Qed.

(** ** Reasoning about runs: weakest preconditions

    [wp m σ Q] says that the outcome of running [m] on [σ], the value or the
    exception together with the store left, satisfies [Q]. *)

Definition wp {A} (m : M A) (σ : store) (Q : result A → store → Prop) : Prop :=
  Q (m σ).1 (m σ).2.

Lemma wp_run {A} (m : M A) (σ : store) (Q : result A → store → Prop) r σ' :
  wp m σ Q → m σ = (r, σ') → Q r σ'.
Proof. unfold wp. intros H E. by rewrite E in H. Qed.

Lemma wp_mono {A} (m : M A) (σ : store) (Q Q' : result A → store → Prop) :
  wp m σ Q → (∀ r σ', Q r σ' → Q' r σ') → wp m σ Q'.
Proof. unfold wp. auto. Qed.

Lemma wp_bind {A B} (m : M A) (k : A → M B) σ (Q : result B → store → Prop) :
  wp m σ (λ r σ1, match r with
                  | Ok a => wp (k a) σ1 Q
                  | Err e => Q (Err e) σ1
                  end) →
  wp (m ≫= k) σ Q.
Proof. unfold wp. rewrite run_bind. by destruct (m σ) as [[a|e] σ1]. Qed.

Lemma wp_ret {A} (a : A) σ (Q : result A → store → Prop) :
  Q (Ok a) σ → wp (mret a) σ Q.
Proof. done. Qed.

Lemma wp_lift {A} (r : result A) σ (Q : result A → store → Prop) :
  Q r σ → wp (lift r) σ Q.
Proof. done. Qed.

Lemma wp_read σ l (Q : result frame → store → Prop) :
  match σ !! l with Some f => Q (Ok f) σ | None => Q (Err NameError) σ end →
  wp (read l) σ Q.
Proof. unfold wp, read. by destruct (σ !! l). Qed.

Lemma wp_alloc σ f (Q : result loc → store → Prop) :
  Q (Ok (fresh (dom σ))) (<[fresh (dom σ) := f]> σ) → wp (alloc f) σ Q.
Proof. done. Qed.

Lemma wp_copy σ l (Q : result loc → store → Prop) :
  match σ !! l with
  | Some f => Q (Ok (fresh (dom σ))) (<[fresh (dom σ) := f]> σ)
  | None => Q (Err NameError) σ
  end →
  wp (copy l) σ Q.
Proof.
  intros H. apply wp_bind, wp_read. destruct (σ !! l); [|done]. by apply wp_alloc.
Qed.

Lemma wp_update σ l f (g : frame → result frame) (Q : result () → store → Prop) :
  match g f with
  | Ok f' => Q (Ok ()) (<[l := f']> σ)
  | Err e => Q (Err e) (<[l := f]> σ)
  end →
  wp (update l g) (<[l := f]> σ) Q.
Proof.
  intros H. unfold wp. rewrite update_top. by destruct (g f).
Qed.

Lemma wp_in_columns σ l f c (Q : result bool → store → Prop) :
  Q (Ok (has_column f c)) (<[l := f]> σ) → wp (in_columns l c) (<[l := f]> σ) Q.
Proof. intros H. unfold wp. by rewrite in_columns_top. Qed.

Lemma wp_read_top σ l f (Q : result frame → store → Prop) :
  Q (Ok f) (<[l := f]> σ) → wp (read l) (<[l := f]> σ) Q.
Proof. intros H. unfold wp. by rewrite read_top. Qed.

(** ** The programs and the tables they compute *)

Lemma compute_daily_channel_kpis_run (σ : store) ls lo s o :
  σ !! ls = Some s → σ !! lo = Some o →
  wp (compute_daily_channel_kpis ls lo) σ (λ r σ',
    σ ⊆ σ' ∧
    match daily_kpis s o with
    | Ok d => ∃ l, r = Ok l ∧ σ !! l = None ∧ σ' !! l = Some d
    | Err e => r = Err e
    end).
Proof.
  intros Hs Ho.
  unfold compute_daily_channel_kpis, daily_kpis, merged, sessions_agg,
    sessions_prepared.
  apply wp_bind, wp_copy. rewrite Hs.
  pose proof (fresh_lookup σ) as Hl1. set (l1 := fresh (dom σ)) in *.
  assert (∀ f, σ ⊆ <[l1 := f]> σ) as Hσ1 by (intros; by apply insert_subseteq).
  apply wp_bind, wp_update.
  destruct (assign_spend s) as [s1|e]; cbn [mbind result_bind]; [|done].
  apply wp_bind, wp_update.
  destruct (map_column to_date "Date" s1) as [s2|e]; cbn [mbind result_bind]; [|done].
  apply wp_bind, wp_bind, wp_read_top, wp_lift.
  destruct (groupby_agg _ sessions_aggs s2) as [s_agg|e]; cbn [mbind result_bind]; [|done].
  set (σ1 := <[l1 := s2]> σ) in *.
  assert (σ1 !! lo = Some o) as Ho1 by (eapply lookup_weaken; eauto).
  apply wp_bind, wp_copy. rewrite Ho1.
  pose proof (fresh_lookup σ1) as Hl2. set (l2 := fresh (dom σ1)) in *.
  assert (∀ f, σ ⊆ <[l2 := f]> σ1) as Hσ2.
  { intros f. etrans; [apply Hσ1|]. by apply insert_subseteq. }
  apply wp_bind, wp_bind, wp_read_top, wp_ret.
  unfold orders_agg, orders_groups, orders_prepared, orders_channel.
  apply wp_bind.
  apply (wp_mono _ _ (λ r σ', r = Ok (match chan_col_of o with
                                     | Some c => (c, o)
                                     | None => ("Channel_ft", setitem_scalar o "Channel_ft" (VStr "All"))
                                     end).1
                             ∧ σ' = <[l2 := (match chan_col_of o with
                                     | Some c => (c, o)
                                     | None => ("Channel_ft", setitem_scalar o "Channel_ft" (VStr "All"))
                                     end).2]> σ1)).
  { destruct (chan_col_of o) as [c|]; [done|].
    by apply wp_bind, wp_update. }
  intros r σ' [-> ->].
  set (oc := match chan_col_of o with Some c => (c, o) | None => _ end).
  clearbody oc. destruct oc as [chan_col o1]. cbn [fst snd].
  apply wp_bind, wp_in_columns, wp_bind. unfold orders_dated.
  destruct (has_column o1 "Date").
  - apply wp_ret. cbn [mbind result_bind].
    apply wp_bind, wp_bind, wp_read_top, wp_bind, wp_lift.
    destruct (groupby_agg _ orders_aggs o1) as [g|e]; cbn [mbind result_bind]; [|done].
    apply wp_ret, wp_bind, wp_bind, wp_lift.
    destruct (merge_left _ s_agg _) as [m|e]; cbn [mbind result_bind]; [|done].
    apply wp_alloc.
    set (σ2 := <[l2 := o1]> σ1) in *.
    pose proof (fresh_lookup σ2) as Hl3. set (l3 := fresh (dom σ2)) in *.
    assert (∀ f, σ ⊆ <[l3 := f]> σ2) as Hσ4.
    { intros f. etrans; [apply Hσ2|]. by apply insert_subseteq. }
    assert (σ !! l3 = None) as Hl3σ.
    { eapply lookup_weaken_None; [exact Hl3|apply Hσ2]. }
    unfold daily_ratios. set (m0 := fillna _ m). clearbody m0.
    do 5 (apply wp_bind, wp_update;
          match goal with
          | |- context [assign_ratio ?a ?b ?c ?f] =>
              destruct (assign_ratio a b c f) as [?|e]; cbn [mbind result_bind]; [|done]
          end).
    apply wp_ret. split; [done|]. eexists. split; [done|]. split; [done|].
    apply lookup_insert_eq.
  - apply wp_update.
    destruct (d ← getitem o1 "Order_date"; d' ← map_res to_date d; setitem o1 "Date" d')
      as [o2|e]; cbn [mbind result_bind]; [|done].
    apply wp_bind, wp_bind, wp_read_top, wp_bind, wp_lift.
    destruct (groupby_agg _ orders_aggs o2) as [g|e]; cbn [mbind result_bind]; [|done].
    apply wp_ret, wp_bind, wp_bind, wp_lift.
    destruct (merge_left _ s_agg _) as [m|e]; cbn [mbind result_bind]; [|done].
    apply wp_alloc.
    set (σ2 := <[l2 := o2]> σ1) in *.
    pose proof (fresh_lookup σ2) as Hl3. set (l3 := fresh (dom σ2)) in *.
    assert (∀ f, σ ⊆ <[l3 := f]> σ2) as Hσ4.
    { intros f. etrans; [apply Hσ2|]. by apply insert_subseteq. }
    assert (σ !! l3 = None) as Hl3σ.
    { eapply lookup_weaken_None; [exact Hl3|apply Hσ2]. }
    unfold daily_ratios. set (m0 := fillna _ m). clearbody m0.
    do 5 (apply wp_bind, wp_update;
          match goal with
          | |- context [assign_ratio ?a ?b ?c ?f] =>
              destruct (assign_ratio a b c f) as [?|e]; cbn [mbind result_bind]; [|done]
          end).
    apply wp_ret. split; [done|]. eexists. split; [done|]. split; [done|].
    apply lookup_insert_eq.
Qed.

Lemma channel_summary_run (σ : store) ld d :
  σ !! ld = Some d →
  wp (channel_summary ld) σ (λ r σ',
    σ ⊆ σ' ∧
    match summary d with
    | Ok out => ∃ l, r = Ok l ∧ σ !! l = None ∧ σ' !! l = Some out
    | Err e => r = Err e
    end).
Proof.
  intros Hd. unfold channel_summary, summary, summary_totals.
  apply wp_bind, wp_bind, wp_read. rewrite Hd.
  apply wp_bind, wp_lift.
  destruct (groupby_agg _ summary_aggs d) as [g|e]; cbn [mbind result_bind]; [|done].
  apply wp_alloc.
  pose proof (fresh_lookup σ) as Hl1. set (l1 := fresh (dom σ)) in *.
  assert (∀ f, σ ⊆ <[l1 := f]> σ) as Hσ1 by (intros; by apply insert_subseteq).
  unfold summary_ratios.
  do 5 (apply wp_bind, wp_update;
        match goal with
        | |- context [assign_ratio ?a ?b ?c ?f] =>
            destruct (assign_ratio a b c f) as [?|e]; cbn [mbind result_bind]; [|done]
        end).
  apply wp_bind, wp_read_top, wp_bind, wp_lift.
  destruct (sort_values_desc "ROAS" _) as [out|e]; [|done].
  apply wp_alloc.
  match goal with |- context [<[l1 := ?f]> σ] => set (σ1 := <[l1 := f]> σ) end.
  pose proof (fresh_lookup σ1) as Hl2. set (l2 := fresh (dom σ1)) in *.
  split.
  { etrans; [apply Hσ1|]. by apply insert_subseteq. }
  exists l2. split; [done|]. split; [|apply lookup_insert_eq].
  eapply lookup_weaken_None; [exact Hl2|apply Hσ1].
Qed.

Lemma simple_response_curve_run (σ : store) ld d :
  σ !! ld = Some d → simple_response_curve ld σ = (response_fit d, σ).
Proof.
  intros Hd. unfold simple_response_curve.
  by rewrite run_bind, (read_eq _ _ _ Hd).
Qed.

(** *** Programs that only touch an object of their own *)

(** The store [σ'] is [σ] with a new object at the address [l]. *)
Definition owns (σ : store) (l : loc) (σ' : store) : Prop :=
  ∃ f, σ' = <[l := f]> σ.

Lemma owns_subseteq (σ σ' : store) l : σ !! l = None → owns σ l σ' → σ ⊆ σ'.
Proof. intros Hl [f ->]. by apply insert_subseteq. Qed.

Lemma clean_column_owns (σ : store) l f (g : value → result value) c :
  wp (clean_column l g c) (<[l := f]> σ) (λ _ σ', owns σ l σ').
Proof.
  unfold clean_column. apply wp_bind, wp_in_columns.
  destruct (has_column f c).
  - apply wp_update. destruct (map_column g c f); by eexists.
  - apply wp_ret. by eexists.
Qed.

Lemma for_each_owns {A} (σ : store) l (xs : list A) (body : A → M ()) :
  (∀ x f, wp (body x) (<[l := f]> σ) (λ _ σ', owns σ l σ')) →
  ∀ f, wp (for_each xs body) (<[l := f]> σ) (λ _ σ', owns σ l σ').
Proof.
  intros Hbody. induction xs as [|x xs IH]; intros f; cbn [for_each].
  - apply wp_ret. by eexists.
  - apply wp_bind. eapply wp_mono; [apply Hbody|].
    intros [[]|e] σ' [f' ->]; [apply IH|by eexists].
Qed.

(** What a stage does to the store: the objects it had are as they were,
    and the table returned is a new object. *)
Definition stage_post (σ : store) (r : result loc) (σ' : store) : Prop :=
  σ ⊆ σ' ∧ ∀ l, r = Ok l → σ !! l = None ∧ is_Some (σ' !! l).

Lemma clean_sessions_stage (σ : store) l : wp (clean_sessions l) σ (stage_post σ).
Proof.
  unfold clean_sessions. apply wp_bind, wp_copy.
  destruct (σ !! l) as [f|]; [|split; [done|intros ? [=]]].
  pose proof (fresh_lookup σ) as Hl1. set (l1 := fresh (dom σ)) in *.
  apply wp_bind. eapply wp_mono; [apply clean_column_owns|].
  intros r1 σ1 [f1 ->]. destruct r1 as [[]|e].
  2: { split; [by apply insert_subseteq|intros ? [=]]. }
  apply wp_bind. eapply wp_mono.
  { apply for_each_owns. intros. apply clean_column_owns. }
  intros r2 σ2 [f2 ->]. destruct r2 as [[]|e].
  2: { split; [by apply insert_subseteq|intros ? [=]]. }
  apply wp_bind. eapply wp_mono.
  { apply for_each_owns. intros. apply clean_column_owns. }
  intros r3 σ3 [f3 ->]. destruct r3 as [[]|e].
  2: { split; [by apply insert_subseteq|intros ? [=]]. }
  apply wp_ret. split; [by apply insert_subseteq|].
  intros ? [= <-]. split; [done|]. rewrite lookup_insert_eq. by eexists.
Qed.

Lemma clean_orders_stage (σ : store) l : wp (clean_orders l) σ (stage_post σ).
Proof.
  unfold clean_orders. apply wp_bind, wp_copy.
  destruct (σ !! l) as [f|]; [|split; [done|intros ? [=]]].
  pose proof (fresh_lookup σ) as Hl1. set (l1 := fresh (dom σ)) in *.
  apply wp_bind, wp_in_columns, wp_bind.
  apply (wp_mono _ _ (λ _ σ', owns σ l1 σ')).
  { destruct (has_column f "Order_date"); [|apply wp_ret; by eexists].
    apply wp_bind, wp_update.
    destruct (map_column to_date "Order_date" f) as [f1|e]; [|by eexists].
    apply wp_update.
    destruct (d ← getitem f1 "Order_date"; setitem f1 "Date" d); by eexists. }
  intros r1 σ1 [f1 ->]. destruct r1 as [[]|e].
  2: { split; [by apply insert_subseteq|intros ? [=]]. }
  apply wp_bind. eapply wp_mono; [apply clean_column_owns|].
  intros r2 σ2 [f2 ->]. destruct r2 as [[]|e].
  2: { split; [by apply insert_subseteq|intros ? [=]]. }
  apply wp_bind. eapply wp_mono; [apply clean_column_owns|].
  intros r3 σ3 [f3 ->]. destruct r3 as [[]|e].
  2: { split; [by apply insert_subseteq|intros ? [=]]. }
  apply wp_bind. eapply wp_mono.
  { apply for_each_owns. intros. apply clean_column_owns. }
  intros r4 σ4 [f4 ->]. destruct r4 as [[]|e].
  2: { split; [by apply insert_subseteq|intros ? [=]]. }
  apply wp_ret. split; [by apply insert_subseteq|].
  intros ? [= <-]. split; [done|]. rewrite lookup_insert_eq. by eexists.
Qed.

Lemma compute_daily_channel_kpis_stage (σ : store) ls lo :
  is_Some (σ !! ls) → is_Some (σ !! lo) →
  wp (compute_daily_channel_kpis ls lo) σ (stage_post σ).
Proof.
  intros [s Hs] [o Ho].
  eapply wp_mono; [by apply compute_daily_channel_kpis_run|].
  intros r σ' [Hsub H]. split; [done|]. intros l ->.
  destruct (daily_kpis s o); [|done].
  destruct H as (l' & [= <-] & ? & ?). split; [done|by eexists].
Qed.

Lemma channel_summary_stage (σ : store) ld : wp (channel_summary ld) σ (stage_post σ).
Proof.
  destruct (σ !! ld) as [d|] eqn:Hd.
  - eapply wp_mono; [by apply channel_summary_run|].
    intros r σ' [Hsub H]. split; [done|]. intros l ->.
    destruct (summary d); [|done].
    destruct H as (l' & [= <-] & ? & ?). split; [done|by eexists].
  - unfold channel_summary. apply wp_bind, wp_bind, wp_read. rewrite Hd.
    split; [done|intros ? [=]].
Qed.

(** ** Columns and rows *)

Lemma map_fmap {A B} (f : A → B) (l : list A) : map f l = f <$> l.
Proof. reflexivity. Qed.

Lemma zip_with_insert_map (c : string) (f : row → value) (rs : list row) :
  zip_with (λ (r : row) v, <[c := v]> r) rs (map f rs)
  = map (λ r : row, <[c := f r]> r) rs.
Proof. induction rs as [|r rs IH]; [done|]. cbn. by rewrite IH. Qed.

Lemma setitem_map (df : frame) (c : string) (f : row → value) :
  setitem df c (map f (rows df))
  = Ok {| columns := add_column (columns df) c;
          rows := map (λ r : row, <[c := f r]> r) (rows df) |}.
Proof.
  unfold setitem. rewrite length_map, bool_decide_eq_true_2 by done.
  by rewrite zip_with_insert_map.
Qed.

Lemma has_column_true (df : frame) c : has_column df c = true ↔ c ∈ columns df.
Proof. unfold has_column. apply bool_decide_eq_true. Qed.

Lemma getitem_ok (df : frame) c vs :
  getitem df c = Ok vs ↔ c ∈ columns df ∧ vs = col df c.
Proof.
  unfold getitem. destruct (has_column df c) eqn:E.
  - apply has_column_true in E. split; [by intros [= <-]|by intros [_ ->]].
  - split; [done|]. intros [H%has_column_true _]. congruence.
Qed.

Lemma getitem_in (df : frame) c : c ∈ columns df → getitem df c = Ok (col df c).
Proof. intros. by apply getitem_ok. Qed.

Lemma elem_of_add_column cs c c' : c' ∈ add_column cs c ↔ c' ∈ cs ∨ c' = c.
Proof.
  unfold add_column. case_bool_decide.
  - split; [by left|]. intros [?| ->]; done.
  - rewrite elem_of_app, list_elem_of_singleton. tauto.
Qed.

(** ** Groups *)

Lemma elem_of_group_keys keys (rs : list row) k :
  k ∈ group_keys keys rs ↔ ∃ r, r ∈ rs ∧ valid_key keys r ∧ key_of keys r = k.
Proof.
  unfold group_keys. rewrite merge_sort_Permutation, elem_of_remove_dups.
  rewrite list_elem_of_fmap. setoid_rewrite list_elem_of_filter.
  split; [intros (r & -> & ? & ?)|intros (r & ? & ? & <-)]; eauto.
Qed.

Lemma NoDup_group_keys keys (rs : list row) : NoDup (group_keys keys rs).
Proof.
  unfold group_keys. rewrite merge_sort_Permutation. apply NoDup_remove_dups.
Qed.

Lemma length_key_of keys (r : row) : length (key_of keys r) = length keys.
Proof. unfold key_of. by rewrite length_map. Qed.

Lemma elem_of_group_rows keys k (rs : list row) r :
  r ∈ group_rows keys k rs ↔ r ∈ rs ∧ key_of keys r = k.
Proof. unfold group_rows. rewrite list_elem_of_filter. tauto. Qed.

Lemma groupby_agg_ok keys aggs (df g : frame) :
  groupby_agg keys aggs df = Ok g →
  columns g = keys ++ aggs.*1
  ∧ Forall2 (λ k r, agg_row keys aggs (rows df) k = Ok r)
            (group_keys keys (rows df)) (rows g).
Proof.
  unfold groupby_agg. intros H.
  destruct (map_res (getitem df) keys); [|done]. cbn in H.
  destruct (map_res _ aggs); [|done]. cbn in H.
  destruct (map_res (agg_row keys aggs (rows df)) _) as [rs|] eqn:E; [|done].
  cbn in H. injection H as <-. split; [done|]. by apply map_res_Forall2.
Qed.

Lemma agg_cells_names (grp : list row) aggs cells :
  map_res (agg_cell grp) aggs = Ok cells → cells.*1 = aggs.*1.
Proof.
  intros H%map_res_Forall2. induction H as [|a cell aggs cells Ha _ IH]; [done|].
  cbn. f_equal; [|done]. unfold agg_cell in Ha.
  destruct (agg_apply _ _); [|done]. by injection Ha as <-.
Qed.

Lemma agg_row_key keys aggs (rs : list row) k (r : row) (i : nat) c v :
  agg_row keys aggs rs k = Ok r → NoDup keys → length k = length keys →
  keys !! i = Some c → k !! i = Some v → r !!! c = v.
Proof.
  unfold agg_row. intros H Hnd Hlen Hc Hv.
  destruct (map_res _ aggs) as [cells|]; [|done]. cbn in H. injection H as <-.
  apply lookup_total_correct. rewrite list_to_map_app.
  apply lookup_union_Some_l. apply elem_of_list_to_map_1.
  - rewrite fst_zip by lia. done.
  - apply list_elem_of_lookup. exists i. apply lookup_zip_with_Some. eauto.
Qed.

Lemma agg_row_agg keys aggs (rs : list row) k (r : row) out src fn :
  agg_row keys aggs rs k = Ok r → NoDup (keys ++ aggs.*1) →
  (out, (src, fn)) ∈ aggs →
  agg_apply fn ((λ x : row, x !!! src) <$> group_rows keys k rs) = Ok (r !!! out).
Proof.
  unfold agg_row. intros H Hnd Ha.
  destruct (map_res _ aggs) as [cells|] eqn:E; [|done]. cbn in H. injection H as <-.
  apply NoDup_app in Hnd as (Hk & Hdisj & Haggs).
  pose proof (agg_cells_names _ _ _ E) as Hnames.
  apply map_res_Forall2 in E.
  apply list_elem_of_lookup in Ha as [i Hi].
  destruct (Forall2_lookup_l _ _ _ _ _ E Hi) as (cell & Hcell & Hac).
  unfold agg_cell in Hac. cbn in Hac.
  destruct (agg_apply fn _) as [v|] eqn:Ev; [|done]. injection Hac as <-.
  f_equal. symmetry. apply lookup_total_correct. rewrite list_to_map_app.
  rewrite lookup_union_r.
  - apply elem_of_list_to_map_1; [by rewrite Hnames|].
    apply list_elem_of_lookup. eauto.
  - apply not_elem_of_list_to_map_1. intros Hin.
    assert (out ∈ keys) as Hin'.
    { clear -Hin. revert k Hin. induction keys as [|c keys IH]; intros [|v k]; cbn;
        try by (intros ?%elem_of_nil).
      intros [->|?]%elem_of_cons; [left|right; eauto]. }
    apply (Hdisj out Hin'). apply list_elem_of_fmap. exists (out, (src, fn)).
    split; [done|]. apply list_elem_of_lookup. eauto.
Qed.

(** ** Joins *)

Lemma join_row_lookup rcols (lr : row) (rr : option row) c :
  join_row rcols lr rr !!! c
  = if decide (c ∈ rcols) then
      match rr with Some m => m !!! c | None => VNaN end
    else lr !!! c.
Proof.
  unfold join_row. induction rcols as [|c' rcols IH]; cbn.
  - by rewrite decide_False by apply not_elem_of_nil.
  - destruct (decide (c' = c)) as [->|Hne].
    + rewrite lookup_total_insert_eq. by rewrite decide_True by left.
    + rewrite lookup_total_insert_ne by done. rewrite IH.
      destruct (decide (c ∈ rcols)).
      * by rewrite decide_True by by right.
      * rewrite decide_False; [done|]. intros [?|?]%elem_of_cons; congruence.
Qed.

Lemma filter_none {A} (P : A → Prop) `{∀ x, Decision (P x)} (l : list A) :
  (∀ x, x ∈ l → ¬ P x) → filter P l = [].
Proof.
  induction l as [|x l IH]; intros Hl; [done|].
  rewrite filter_cons, decide_False by (apply Hl; left).
  apply IH. intros y Hy. apply Hl. by right.
Qed.

Lemma filter_unique {A B} `{EqDecision B} (f : A → B) (l : list A) (k : B) :
  NoDup (f <$> l) →
  filter (λ x, f x = k) l = [] ∨ ∃ x, filter (λ x, f x = k) l = [x].
Proof.
  induction l as [|x l IH]; [by left|].
  rewrite fmap_cons, NoDup_cons. intros [Hx Hl]. rewrite filter_cons. destruct (decide (f x = k)) as [<-|Hne]; [|by apply IH].
  right. exists x. f_equal. apply filter_none.
  intros y Hy Heq. apply Hx. rewrite <- Heq. apply list_elem_of_fmap. eauto.
Qed.

(** With at most one row of the right table per key, the left join keeps the
    rows of the left table, one for one and in their order. *)
Lemma merge_left_unique on (l r m : frame) :
  merge_left on l r = Ok m → NoDup (key_of on <$> rows r) →
  columns m = columns l ++ right_columns on r
  ∧ rows m = (λ lr, join_row (right_columns on r) lr (head (matches on lr r)))
             <$> rows l.
Proof.
  unfold merge_left. intros H Hnd.
  destruct (map_res (getitem l) on); [|done]. cbn in H.
  destruct (map_res (getitem r) on); [|done]. cbn in H.
  case_bool_decide; [done|]. injection H as <-. split; [done|]. cbn.
  induction (rows l) as [|lr ls IH]; [done|]. cbn. rewrite IH. f_equal.
  unfold matches.
  destruct (filter_unique (key_of on) (rows r) (key_of on lr) Hnd) as [->|[x ->]];
    done.
Qed.

Lemma head_matches_Some on (lr rr : row) (r : frame) :
  head (matches on lr r) = Some rr → rr ∈ rows r ∧ key_of on rr = key_of on lr.
Proof.
  intros H. apply head_Some_elem_of in H. unfold matches in H.
  by apply list_elem_of_filter in H as [? ?].
Qed.

Lemma head_matches_None on (lr : row) (r : frame) :
  head (matches on lr r) = None →
  ∀ rr, rr ∈ rows r → key_of on rr ≠ key_of on lr.
Proof.
  intros H rr Hrr Heq. apply head_None in H.
  assert (rr ∈ matches on lr r) as Hin by by apply list_elem_of_filter.
  rewrite H in Hin. by apply elem_of_nil in Hin.
Qed.

Lemma head_matches_unique on (lr rr : row) (r : frame) :
  NoDup (key_of on <$> rows r) → rr ∈ rows r → key_of on rr = key_of on lr →
  head (matches on lr r) = Some rr.
Proof.
  intros Hnd Hrr Heq. unfold matches.
  destruct (filter_unique (key_of on) (rows r) (key_of on lr) Hnd) as [E|[x E]].
  - assert (rr ∈ filter (λ rr0 : row, key_of on rr0 = key_of on lr) (rows r)) as Hin
      by by apply list_elem_of_filter.
    rewrite E in Hin. by apply elem_of_nil in Hin.
  - assert (rr ∈ filter (λ rr0 : row, key_of on rr0 = key_of on lr) (rows r)) as Hin
      by by apply list_elem_of_filter.
    rewrite E in Hin |- *. apply list_elem_of_singleton in Hin. by subst.
Qed.

(** ** Guarded ratios *)

Lemma zip_with_map_same {A B C D} (F : B → C → D) (g : A → B) (h : A → C) (l : list A) :
  zip_with F (map g l) (map h l) = map (λ x, F (g x) (h x)) l.
Proof. induction l as [|x l IH]; [done|]. cbn. by rewrite IH. Qed.

Definition numeric (c : string) (r : row) : Prop :=
  ∃ q, r !!! c = VNum q.

Lemma kpi_ratio_pos (n d : Qc) : 0 < d → kpi_ratio n d = VNum (n / d).
Proof. intros H. unfold kpi_ratio. by rewrite decide_True. Qed.

Lemma kpi_ratio_nonpos (n d : Qc) : d ≤ 0 → kpi_ratio n d = VNaN.
Proof.
  intros H. unfold kpi_ratio. rewrite decide_False; [done|].
  by apply Qcle_not_lt.
Qed.

Lemma kpi_ratio_nan_iff (n d : Qc) : kpi_ratio n d = VNaN ↔ d ≤ 0.
Proof.
  split; [|apply kpi_ratio_nonpos]. unfold kpi_ratio.
  case_decide; [done|]. intros _. by apply Qcnot_lt_le.
Qed.

(** The cell that [np.where(den > 0, num / den, nan)] computes from two
    numeric cells: the eager quotient may be infinite, the selected value is
    not. *)
Lemma where_div_cell (x y : option Qc) :
  to_cell (if float_gt 0 y then float_div x y else FNaN)
  = Ok (match x, y with
        | Some a, Some b => kpi_ratio a b
        | _, _ => VNaN
        end).
Proof.
  destruct y as [b|]; [|by destruct x]. cbn.
  destruct x as [a|]; [|by case_bool_decide].
  unfold kpi_ratio. case_bool_decide as Hb.
  - rewrite decide_True by done. cbn.
    rewrite decide_False; [done|]. intros ->. by apply Qclt_not_eq in Hb.
  - by rewrite decide_False by done.
Qed.

Lemma as_float_cell (r : row) c :
  (r !!! c = VNaN ∨ numeric c r) →
  as_float (r !!! c)
  = Ok (match r !!! c with VNum q => Some q | _ => None end).
Proof. intros [->|[q ->]]; done. Qed.

Lemma assign_ratio_ok out num den (df : frame) :
  num ∈ columns df → den ∈ columns df →
  (∀ r, r ∈ rows df → r !!! num = VNaN ∨ numeric num r) →
  (∀ r, r ∈ rows df → r !!! den = VNaN ∨ numeric den r) →
  assign_ratio out num den df
  = Ok {| columns := add_column (columns df) out;
          rows := map (λ r : row, <[out := ratio_of num den r]> r) (rows df) |}.
Proof.
  intros Hnum Hden Hn Hd. unfold assign_ratio.
  rewrite (getitem_in _ _ Hden), (getitem_in _ _ Hnum). cbn [mbind result_bind].
  unfold series_gt, series_div, col. rewrite !map_res_map.
  rewrite (map_res_ok _ (λ r : row, match r !!! den with VNum q => Some q | _ => None end)).
  2: { intros r Hr. cbn. by apply as_float_cell, Hd. }
  cbn [mbind result_bind].
  rewrite (map_res_ok _ (λ r : row, match r !!! num with VNum q => Some q | _ => None end)).
  2: { intros r Hr. cbn. by apply as_float_cell, Hn. }
  cbn [mbind result_bind].
  unfold np_where.
  rewrite zip_with_map_same, map_map, zip_with_map_same, map_res_map.
  rewrite (map_res_ok _ (ratio_of num den)); [apply setitem_map|].
  intros r Hr. cbn.
  rewrite where_div_cell.
  unfold ratio_of. by destruct (r !!! num), (r !!! den).
Qed.

(** ** The sessions side *)

Lemma map_res_total {A B} (f : A → result B) (dflt : B) (l : list A) (ys : list B) :
  map_res f l = Ok ys →
  ys = map (λ x, match f x with Ok y => y | Err _ => dflt end) l
  ∧ ∀ x, x ∈ l → is_ok (f x).
Proof.
  intros H%map_res_Forall2. induction H as [|x y l ys Hx _ [IH1 IH2]].
  - split; [done|]. by intros x ?%elem_of_nil.
  - split; [cbn; by rewrite Hx, <- IH1|].
    intros x' [->|?]%elem_of_cons; [by rewrite Hx|auto].
Qed.

Lemma effective_spend_ok (s : frame) (spend : series) :
  effective_spend s = Ok spend →
  ∃ c, spend_column s = Some c
       ∧ spend = map (λ r : row, fillna_value (VNum 0) (r !!! c)) (rows s).
Proof.
  unfold effective_spend, spend_column, df_get.
  destruct (has_column s "Adj_spend_gbp").
  - cbn. intros [= <-]. eexists. split; [done|]. unfold col. by rewrite map_map.
  - destruct (has_column s "Spend_gbp"); [|done].
    cbn. intros [= <-]. eexists. split; [done|]. unfold col. by rewrite map_map.
Qed.

Lemma map_column_ok (g : value → result value) (dflt : value) c (df df' : frame) :
  map_column g c df = Ok df' →
  c ∈ columns df
  ∧ (∀ r, r ∈ rows df → is_ok (g (r !!! c)))
  ∧ columns df' = columns df
  ∧ rows df' = map (λ r : row, <[c := match g (r !!! c) with
                                       | Ok y => y
                                       | Err _ => dflt
                                       end]> r) (rows df).
Proof.
  unfold map_column. intros H.
  destruct (getitem df c) as [vs|] eqn:Eg; [|done]. cbn in H.
  apply getitem_ok in Eg as [Hc ->].
  destruct (map_res g (col df c)) as [vs'|] eqn:Em; [|done]. cbn in H.
  unfold col in Em. rewrite map_res_map in Em.
  apply (map_res_total _ dflt) in Em as [-> Hok]. unfold compose in H, Hok.
  rewrite (setitem_map df c (λ r : row, match g (r !!! c) with
                                       | Ok y => y | Err _ => dflt end)) in H.
  injection H as <-. cbn. split; [done|]. split; [done|]. split; [|done].
  unfold add_column. by rewrite bool_decide_eq_true_2.
Qed.

Lemma sessions_prepared_ok (s sp : frame) :
  sessions_prepared s = Ok sp →
  ∃ c, spend_column s = Some c
       ∧ "Date" ∈ columns s
       ∧ (∀ r, r ∈ rows s → is_ok (to_date (r !!! "Date")))
       ∧ columns sp = add_column (columns s) "Spend"
       ∧ rows sp = map (session_row c) (rows s).
Proof.
  unfold sessions_prepared, assign_spend. intros H.
  destruct (effective_spend s) as [spend|] eqn:Es; [|done]. cbn in H.
  apply effective_spend_ok in Es as (c & Hc & ->).
  rewrite setitem_map in H. cbn in H.
  apply (map_column_ok _ VNaN) in H as (Hd & Hok & Hcols & Hrows). cbn in *.
  exists c. split; [done|]. split.
  { apply elem_of_add_column in Hd as [?|?]; done. }
  split.
  { intros r Hr. specialize (Hok (<["Spend" := fillna_value (VNum 0) (r !!! c)]> r)).
    rewrite lookup_total_insert_ne in Hok by done. apply Hok.
    apply list_elem_of_fmap. eauto. }
  split; [done|]. rewrite Hrows, map_map. apply map_ext. intros r.
  unfold session_row, date_cell. by rewrite lookup_total_insert_ne.
Qed.

(** ** Aggregated tables *)

Lemma key_of_eq keys (r : row) (k : list value) :
  length k = length keys →
  (∀ i c v, keys !! i = Some c → k !! i = Some v → r !!! c = v) →
  key_of keys r = k.
Proof.
  intros Hlen H. apply list_eq_same_length with (length keys);
    [done|apply length_key_of|].
  intros i x y Hi Hx Hy. unfold key_of in Hx. rewrite map_fmap in Hx.
  apply list_lookup_fmap_Some in Hx as (c & -> & Hc). eauto.
Qed.

Lemma groupby_agg_rows keys aggs (df g : frame) :
  groupby_agg keys aggs df = Ok g → NoDup (keys ++ aggs.*1) →
  columns g = keys ++ aggs.*1
  ∧ key_of keys <$> rows g = group_keys keys (rows df)
  ∧ ∀ r, r ∈ rows g →
      (∀ i c, keys !! i = Some c → is_Some (r !! c))
      ∧ ∀ out src fn, (out, (src, fn)) ∈ aggs →
          agg_apply fn ((λ x : row, x !!! src)
                          <$> group_rows keys (key_of keys r) (rows df))
          = Ok (r !!! out).
Proof.
  intros H Hnd. apply groupby_agg_ok in H as [Hcols Hrows].
  split; [done|].
  assert (NoDup keys) as Hk by by apply NoDup_app in Hnd as (? & _ & _).
  assert (∀ k r, k ∈ group_keys keys (rows df) →
                 agg_row keys aggs (rows df) k = Ok r → key_of keys r = k) as Hkey.
  { intros k r Hin Hr.
    assert (length k = length keys) as Hlen.
    { apply elem_of_group_keys in Hin as (x & _ & _ & <-). apply length_key_of. }
    apply key_of_eq; [done|]. intros i c v Hc Hv.
    eapply agg_row_key; eauto. }
  split.
  { induction Hrows as [|k r ks rs Hr _ IH]; [done|]. cbn. f_equal.
    - apply Hkey; [left|done].
    - apply IH. intros k' r' Hin. apply Hkey. by right. }
  intros r Hr. apply list_elem_of_lookup in Hr as [j Hj].
  destruct (Forall2_lookup_r _ _ _ _ _ Hrows Hj) as (k & Hkj & Hr).
  assert (k ∈ group_keys keys (rows df)) as Hin
    by (apply list_elem_of_lookup; eauto).
  rewrite (Hkey k r Hin Hr). split.
  - intros i c Hc.
    assert (length k = length keys) as Hlen.
    { apply elem_of_group_keys in Hin as (x & _ & _ & <-). apply length_key_of. }
    destruct (lookup_lt_is_Some_2 k i) as [v Hv].
    { rewrite Hlen. eapply lookup_lt_Some; eauto. }
    unfold agg_row in Hr.
    destruct (map_res _ aggs) as [cells|]; [|done]. cbn in Hr. injection Hr as <-.
    exists v. rewrite list_to_map_app. apply lookup_union_Some_l.
    apply elem_of_list_to_map_1; [by rewrite fst_zip by lia|].
    apply list_elem_of_lookup. exists i. apply lookup_zip_with_Some. eauto.
  - intros out src fn Ha. eapply agg_row_agg; eauto.
Qed.

Lemma nansum_ok_numeric (vs : series) q :
  nansum vs = Ok q → ∀ v, v ∈ vs → v = VNaN ∨ ∃ x, v = VNum x.
Proof.
  revert q. induction vs as [|v vs IH]; intros q H x Hx.
  { by apply elem_of_nil in Hx. }
  cbn in H. destruct (as_float v) as [y|] eqn:Ev; [|done]. cbn in H.
  destruct (nansum vs) as [s|] eqn:Es; [|done].
  apply elem_of_cons in Hx as [->|Hx]; [|by eapply IH].
  destruct v; try done; eauto.
Qed.

Lemma agg_sum_numeric (vs : series) v : agg_apply AggSum vs = Ok v → ∃ q, v = VNum q.
Proof. cbn. destruct (nansum vs); [|done]. intros [= <-]. eauto. Qed.

Lemma agg_nunique_numeric (vs : series) v :
  agg_apply AggNunique vs = Ok v → v = VNum (qz (Z.of_nat (nunique vs))).
Proof. by intros [= <-]. Qed.

(** ** The orders side *)

Lemma chan_col_of_Some (o : frame) c :
  chan_col_of o = Some c →
  c ∈ columns o ∧ (c = "Channel_ft" ∨ (c = "Channel" ∧ "Channel_ft" ∉ columns o)).
Proof.
  unfold chan_col_of. destruct (has_column o "Channel_ft") eqn:E1.
  - intros [= <-]. apply has_column_true in E1. auto.
  - destruct (has_column o "Channel") eqn:E2; [|done].
    intros [= <-]. apply has_column_true in E2. split; [done|]. right.
    split; [done|]. intros H%has_column_true. congruence.
Qed.

Lemma chan_col_of_None (o : frame) :
  chan_col_of o = None → ("Channel_ft" ∉ columns o) ∧ ("Channel" ∉ columns o).
Proof.
  unfold chan_col_of. destruct (has_column o "Channel_ft") eqn:E1; [done|].
  destruct (has_column o "Channel") eqn:E2; [done|]. intros _.
  split; intros H%has_column_true; congruence.
Qed.

Lemma order_chan_cases (o : frame) :
  order_chan o = "Channel_ft" ∨ order_chan o = "Channel".
Proof.
  unfold order_chan, orders_channel.
  destruct (chan_col_of o) as [c|] eqn:E; [|by left].
  apply chan_col_of_Some in E as [_ [->|[-> _]]]; auto.
Qed.

Lemma has_column_setitem_scalar (df : frame) c v c' :
  c' ≠ c → has_column (setitem_scalar df c v) c' = has_column df c'.
Proof.
  intros Hne. unfold has_column, setitem_scalar. cbn.
  apply bool_decide_ext. rewrite elem_of_add_column. tauto.
Qed.

Lemma orders_prepared_ok (o op : frame) :
  orders_prepared o = Ok op →
  rows op = map (order_row o) (rows o)
  ∧ (has_column o "Date" = false →
     "Order_date" ∈ columns o
     ∧ ∀ r, r ∈ rows o → is_ok (to_date (r !!! "Order_date"))).
Proof.
  unfold orders_prepared, orders_dated, orders_channel, order_row.
  destruct (chan_col_of o) as [c|] eqn:Ec; cbn [snd].
  - destruct (has_column o "Date") eqn:Ed.
    + intros [= <-]. split; [by rewrite map_id|done].
    + intros H.
      destruct (getitem o "Order_date") as [vs|] eqn:Eg; [|done]. cbn in H.
      apply getitem_ok in Eg as [Hc ->].
      destruct (map_res to_date (col o "Order_date")) as [vs'|] eqn:Em; [|done].
      cbn in H. unfold col in Em. rewrite map_res_map in Em.
      apply (map_res_total _ VNaN) in Em as [-> Hok]. unfold compose in H, Hok.
      rewrite (setitem_map o "Date"
                 (λ r : row, match to_date (r !!! "Order_date") with
                             | Ok y => y | Err _ => VNaN end)) in H.
      injection H as <-. cbn. split; [|by auto]. done.
  - rewrite has_column_setitem_scalar by done.
    destruct (has_column o "Date") eqn:Ed.
    + intros [= <-]. done.
    + intros H.
      destruct (getitem _ "Order_date") as [vs|] eqn:Eg; [|done]. cbn in H.
      apply getitem_ok in Eg as [Hc ->]. cbn in Hc.
      apply elem_of_add_column in Hc as [Hc|?]; [|done].
      destruct (map_res to_date _) as [vs'|] eqn:Em; [|done].
      cbn in H. unfold col in Em. cbn in Em. rewrite map_map, map_res_map in Em.
      apply (map_res_total _ VNaN) in Em as [-> Hok]. unfold compose in H, Hok.
      unfold setitem in H. cbn in H. rewrite !length_map in H.
      rewrite bool_decide_eq_true_2 in H by done. injection H as <-. cbn.
      split.
      * by rewrite zip_with_map_same.
      * intros _. split; [done|]. intros r Hr. specialize (Hok r Hr).
        by rewrite lookup_total_insert_ne in Hok.
Qed.

Lemma rename_row_lookup old new (r : row) c :
  is_Some (r !! old) →
  rename_row old new r !!! c
  = if decide (c = new) then r !!! old
    else if decide (c = old) then VNaN else r !!! c.
Proof.
  intros [v Hv]. unfold rename_row. rewrite Hv.
  destruct (decide (c = new)) as [->|Hne].
  - rewrite lookup_total_insert_eq. symmetry. by apply lookup_total_correct.
  - rewrite lookup_total_insert_ne by done.
    destruct (decide (c = old)) as [->|Hne'].
    + by rewrite lookup_total_delete_eq.
    + by rewrite lookup_total_delete_ne.
Qed.

Lemma orders_agg_ok (o oa : frame) :
  orders_agg o = Ok oa →
  ∃ op, orders_prepared o = Ok op
    ∧ columns oa = ["Date"; "Channel"; "Orders"; "Revenue"]
    ∧ key_of ["Date"; "Channel"] <$> rows oa
      = group_keys ["Date"; order_chan o] (rows op)
    ∧ ∀ g, g ∈ rows oa →
        g !!! "Orders"
        = VNum (qz (Z.of_nat (nunique
            ((λ x : row, x !!! "Order_id")
               <$> group_rows ["Date"; order_chan o]
                     (key_of ["Date"; "Channel"] g) (rows op)))))
        ∧ ∃ q, nansum ((λ x : row, x !!! "Revenue_gbp")
                         <$> group_rows ["Date"; order_chan o]
                               (key_of ["Date"; "Channel"] g) (rows op)) = Ok q
               ∧ g !!! "Revenue" = VNum q.
Proof.
  unfold orders_agg, orders_groups. intros H. fold (order_chan o) in H.
  destruct (orders_prepared o) as [op|] eqn:Ep; [|done]. cbn [mbind result_bind] in H.
  destruct (groupby_agg _ orders_aggs op) as [g|] eqn:Eg; [|done]. cbn [mbind result_bind] in H.
  injection H as <-. exists op. split; [done|].
  assert (NoDup (["Date"; order_chan o] ++ orders_aggs.*1)) as Hnd.
  { destruct (order_chan_cases o) as [-> | ->]; cbn; by apply (bool_decide_unpack _). }
  apply groupby_agg_rows in Eg as (Hcols & Hkeys & Hrows); [|done].
  assert (∀ gr : row, gr ∈ rows g →
            ∀ c, rename_row (order_chan o) "Channel" gr !!! c
                 = if decide (c = "Channel") then gr !!! order_chan o
                   else if decide (c = order_chan o) then VNaN else gr !!! c) as Hren.
  { intros gr Hgr c. apply rename_row_lookup.
    destruct (Hrows gr Hgr) as [Hk _]. by apply (Hk 1%nat). }
  assert (∀ gr : row, gr ∈ rows g →
            key_of ["Date"; "Channel"] (rename_row (order_chan o) "Channel" gr)
            = key_of ["Date"; order_chan o] gr) as Hkey.
  { intros gr Hgr. unfold key_of. cbn. rewrite !Hren by done.
    destruct (order_chan_cases o) as [-> | ->]; by repeat case_decide. }
  split.
  { cbn. rewrite Hcols. cbn.
    destruct (order_chan_cases o) as [-> | ->]; done. }
  split.
  { rewrite <- Hkeys. cbn. rewrite <- list_fmap_compose.
    apply list_fmap_ext. intros i gr Hi. cbn. apply Hkey.
    apply list_elem_of_lookup; eauto. }
  intros g' Hg'. cbn in Hg'. rewrite map_fmap in Hg'.
  apply list_elem_of_fmap in Hg' as (gr & -> & Hgr).
  rewrite (Hkey gr Hgr). rewrite !Hren by done.
  destruct (Hrows gr Hgr) as [_ Hagg].
  pose proof (Hagg "Orders" "Order_id" AggNunique) as H1.
  pose proof (Hagg "Revenue" "Revenue_gbp" AggSum) as H2.
  assert (∀ c, c = "Orders" ∨ c = "Revenue" →
            (if decide (c = "Channel") then gr !!! order_chan o
             else if decide (c = order_chan o) then VNaN else gr !!! c)
            = gr !!! c) as Hc.
  { intros c Hc.
    destruct (order_chan_cases o) as [-> | ->]; destruct Hc as [-> | ->];
      by repeat case_decide. }
  rewrite !Hc by auto.
  split.
  - apply agg_nunique_numeric. rewrite H1; [done|].
    apply list_elem_of_here.
  - specialize (H2 ltac:(right; left)). cbn in H2.
    destruct (nansum _) as [q|]; [|done]. injection H2 as H2. eauto.
Qed.

Lemma NoDup_orders_agg_keys (o oa : frame) :
  orders_agg o = Ok oa → NoDup (key_of ["Date"; "Channel"] <$> rows oa).
Proof.
  intros (op & _ & _ & -> & _)%orders_agg_ok. apply NoDup_group_keys.
Qed.

Lemma sessions_agg_ok (s sa : frame) :
  sessions_agg s = Ok sa →
  ∃ sp, sessions_prepared s = Ok sp
    ∧ columns sa = ["Date"; "Channel"; "Sessions"; "Clicks"; "Spend"]
    ∧ key_of ["Date"; "Channel"] <$> rows sa
      = group_keys ["Date"; "Channel"] (rows sp)
    ∧ ∀ g c, g ∈ rows sa → c ∈ ["Sessions"; "Clicks"; "Spend"] →
        ∃ q, nansum ((λ x : row, x !!! c)
                       <$> group_rows ["Date"; "Channel"]
                             (key_of ["Date"; "Channel"] g) (rows sp)) = Ok q
             ∧ g !!! c = VNum q.
Proof.
  unfold sessions_agg. intros H.
  destruct (sessions_prepared s) as [sp|] eqn:Ep; [|done]. cbn [mbind result_bind] in H.
  exists sp. split; [done|].
  apply groupby_agg_rows in H as (Hcols & Hkeys & Hrows);
    [|by apply (bool_decide_unpack _)].
  split; [done|]. split; [done|].
  intros g c Hg Hc. destruct (Hrows g Hg) as [_ Hagg].
  assert ((c, (c, AggSum)) ∈ sessions_aggs) as Hin.
  { unfold sessions_aggs. rewrite !elem_of_cons, elem_of_nil in Hc.
    destruct Hc as [->|[->|[->|[]]]]; rewrite !elem_of_cons; auto. }
  specialize (Hagg c c AggSum Hin). cbn in Hagg.
  destruct (nansum _) as [q|]; [|done].
  exists q. split; [done|]. by injection Hagg as <-.
Qed.

(** ** The joined table *)

Lemma merged_row_lookup (oa : frame) (lr : row) c :
  merged_row oa lr !!! c
  = if decide (c = "Orders" ∨ c = "Revenue") then
      match head (matches ["Date"; "Channel"] lr oa) with
      | Some g => fillna_value (VNum 0) (g !!! c)
      | None => VNum 0
      end
    else lr !!! c.
Proof.
  unfold merged_row, fillna_row. cbn [foldl].
  rewrite !bool_decide_eq_true_2 by (rewrite !elem_of_cons; auto 10).
  set (j := join_row _ lr _).
  assert (∀ c', j !!! c' = if decide (c' ∈ ["Orders"; "Revenue"]) then
                             match head (matches ["Date"; "Channel"] lr oa) with
                             | Some m => m !!! c'
                             | None => VNaN
                             end
                           else lr !!! c') as Hj by apply join_row_lookup.
  destruct (decide (c = "Revenue")) as [->|Hr].
  { rewrite lookup_total_insert_eq, lookup_total_insert_ne, Hj by done.
    rewrite decide_True by (rewrite !elem_of_cons; auto).
    rewrite decide_True by auto. by destruct (head _). }
  rewrite lookup_total_insert_ne by done.
  destruct (decide (c = "Orders")) as [->|Ho].
  { rewrite lookup_total_insert_eq, Hj.
    rewrite decide_True by (rewrite !elem_of_cons; auto).
    rewrite decide_True by auto. by destruct (head _). }
  rewrite lookup_total_insert_ne, Hj by done.
  rewrite decide_False by (rewrite !elem_of_cons, elem_of_nil; tauto).
  rewrite decide_False by tauto. done.
Qed.

Lemma merged_ok (s o m : frame) :
  merged s o = Ok m →
  ∃ sa oa, sessions_agg s = Ok sa ∧ orders_agg o = Ok oa
    ∧ columns m
      = ["Date"; "Channel"; "Sessions"; "Clicks"; "Spend"; "Orders"; "Revenue"]
    ∧ rows m = map (merged_row oa) (rows sa).
Proof.
  unfold merged. intros H.
  destruct (sessions_agg s) as [sa|] eqn:Es; [|done]. cbn [mbind result_bind] in H.
  destruct (orders_agg o) as [oa|] eqn:Eo; [|done]. cbn [mbind result_bind] in H.
  destruct (merge_left _ sa oa) as [m0|] eqn:Em; [|done].
  cbn [mbind result_bind] in H. injection H as <-.
  exists sa, oa. split; [done|]. split; [done|].
  apply merge_left_unique in Em as [Hcols Hrows];
    [|by eapply NoDup_orders_agg_keys].
  apply sessions_agg_ok in Es as (_ & _ & Hsa & _).
  apply orders_agg_ok in Eo as (_ & _ & Hoa & _).
  assert (right_columns ["Date"; "Channel"] oa = ["Orders"; "Revenue"]) as Hrc.
  { unfold right_columns. rewrite Hoa. by apply (bool_decide_unpack _). }
  rewrite Hrc, Hsa in Hcols. cbn in Hcols.
  unfold fillna. cbn. split; [done|].
  rewrite Hcols, Hrows, Hrc, map_fmap, <- list_fmap_compose. done.
Qed.

(** ** The five ratios *)

Lemma assign_ratio_step out num den (df : frame) (base : list row) (F : row → row) :
  rows df = map F base →
  (∀ r, F r !!! num = r !!! num) → (∀ r, F r !!! den = r !!! den) →
  num ∈ columns df → den ∈ columns df →
  (∀ r, r ∈ base → numeric num r ∧ numeric den r) →
  assign_ratio out num den df
  = Ok {| columns := add_column (columns df) out;
          rows := map (λ r, <[out := ratio_of num den r]> (F r)) base |}.
Proof.
  intros Hrows Hn Hd Hnum Hden Hbase.
  rewrite assign_ratio_ok; [| done | done | |].
  - f_equal. f_equal. rewrite Hrows, map_map. apply map_ext. intros r.
    unfold ratio_of. by rewrite Hn, Hd.
  - intros r Hr. rewrite Hrows, map_fmap in Hr.
    apply list_elem_of_fmap in Hr as (r0 & -> & Hr0). right.
    destruct (Hbase r0 Hr0) as [[q Hq] _]. exists q. by rewrite Hn.
  - intros r Hr. rewrite Hrows, map_fmap in Hr.
    apply list_elem_of_fmap in Hr as (r0 & -> & Hr0). right.
    destruct (Hbase r0 Hr0) as [_ [q Hq]]. exists q. by rewrite Hd.
Qed.

Ltac ratio_mem := rewrite !elem_of_cons; auto 10.

Ltac ratio_cols Hcols :=
  rewrite ?elem_of_add_column; repeat left; apply Hcols; ratio_mem.

Ltac ratio_frame Hne :=
  intros; cbn beta; unfold id;
  rewrite !lookup_total_insert_ne by first [done | apply Hne; ratio_mem];
  done.

(** A table whose four counters of the ratios are numbers in every row. *)
Definition counters_numeric (df : frame) : Prop :=
  (∀ c, c ∈ ["Clicks"; "Spend"; "Orders"; "Revenue"] → c ∈ columns df)
  ∧ ∀ r c, r ∈ rows df → c ∈ ["Clicks"; "Spend"; "Orders"; "Revenue"] → numeric c r.

Lemma ratios_chain cpc (df : frame) :
  cpc = "CPC" ∨ cpc = "CPC_calc" →
  counters_numeric df →
  (df ← assign_ratio "CVR" "Orders" "Clicks" df;
   df ← assign_ratio cpc "Spend" "Clicks" df;
   df ← assign_ratio "CAC" "Spend" "Orders" df;
   df ← assign_ratio "AOV" "Revenue" "Orders" df;
   assign_ratio "ROAS" "Revenue" "Spend" df)
  = Ok {| columns := add_column (add_column (add_column (add_column
                       (add_column (columns df) "CVR") cpc) "CAC") "AOV") "ROAS";
          rows := map (with_ratios cpc) (rows df) |}.
Proof.
  intros Hcpc [Hcols Hnum].
  assert (∀ c, c ∈ ["Clicks"; "Spend"; "Orders"; "Revenue"] → c ≠ cpc) as Hne.
  { intros c Hc. rewrite !elem_of_cons, elem_of_nil in Hc.
    destruct Hcpc as [-> | ->]; destruct Hc as [->|[->|[->|[->|[]]]]]; done. }
  assert (∀ r c1 c2, r ∈ rows df →
            c1 ∈ ["Clicks"; "Spend"; "Orders"; "Revenue"] →
            c2 ∈ ["Clicks"; "Spend"; "Orders"; "Revenue"] →
            numeric c1 r ∧ numeric c2 r) as Hn2 by (split; auto).
  assert (∀ c, c ∈ ["Clicks"; "Spend"; "Orders"; "Revenue"] →
            c ∈ ["Clicks"; "Spend"; "Orders"; "Revenue"]) as Hid by done.
  assert (∀ c, c ∈ ["Clicks"; "Spend"; "Orders"; "Revenue"] → cpc ≠ c) as Hne'
    by (intros c Hc E; by apply (Hne c Hc)).
  rewrite (assign_ratio_step "CVR" "Orders" "Clicks" df (rows df) id);
    [|by rewrite map_id|done|done|ratio_cols Hcols|ratio_cols Hcols
     |intros; apply Hn2; [done|ratio_mem|ratio_mem]].
  cbn [mbind result_bind].
  erewrite (assign_ratio_step cpc "Spend" "Clicks" _ (rows df));
    [| reflexivity | | | cbn; ratio_cols Hcols | cbn; ratio_cols Hcols
     | intros; apply Hn2; [done|ratio_mem|ratio_mem]];
    [|ratio_frame Hne'..].
  cbn [mbind result_bind].
  erewrite (assign_ratio_step "CAC" "Spend" "Orders" _ (rows df));
    [| reflexivity | | | cbn; ratio_cols Hcols | cbn; ratio_cols Hcols
     | intros; apply Hn2; [done|ratio_mem|ratio_mem]];
    [|ratio_frame Hne'..].
  cbn [mbind result_bind].
  erewrite (assign_ratio_step "AOV" "Revenue" "Orders" _ (rows df));
    [| reflexivity | | | cbn; ratio_cols Hcols | cbn; ratio_cols Hcols
     | intros; apply Hn2; [done|ratio_mem|ratio_mem]];
    [|ratio_frame Hne'..].
  cbn [mbind result_bind].
  erewrite (assign_ratio_step "ROAS" "Revenue" "Spend" _ (rows df));
    [| reflexivity | | | cbn; ratio_cols Hcols | cbn; ratio_cols Hcols
     | intros; apply Hn2; [done|ratio_mem|ratio_mem]];
    [|ratio_frame Hne'..].
  done.
Qed.

Lemma with_ratios_counter cpc (r : row) c :
  cpc = "CPC" ∨ cpc = "CPC_calc" →
  c ∈ ["Date"; "Channel"; "Sessions"; "Clicks"; "Spend"; "Orders"; "Revenue"] →
  with_ratios cpc r !!! c = r !!! c.
Proof.
  intros Hcpc Hc. unfold with_ratios. rewrite !elem_of_cons, elem_of_nil in Hc.
  destruct Hcpc as [-> | ->];
    destruct Hc as [->|[->|[->|[->|[->|[->|[->|[]]]]]]]];
    by rewrite !lookup_total_insert_ne.
Qed.

Lemma with_ratios_kpi_row cpc (r : row) :
  cpc = "CPC" ∨ cpc = "CPC_calc" →
  (∀ c, c ∈ ["Clicks"; "Spend"; "Orders"; "Revenue"] → numeric c r) →
  kpi_row cpc (with_ratios cpc r).
Proof.
  intros Hcpc Hnum.
  destruct (Hnum "Clicks") as [clicks Hc]; [ratio_mem|].
  destruct (Hnum "Spend") as [spend Hs]; [ratio_mem|].
  destruct (Hnum "Orders") as [orders Ho]; [ratio_mem|].
  destruct (Hnum "Revenue") as [revenue Hr]; [ratio_mem|].
  exists clicks, spend, orders, revenue.
  rewrite !with_ratios_counter by (done || ratio_mem).
  repeat (split; [done|]).
  unfold with_ratios, ratio_of. rewrite Hc, Hs, Ho, Hr.
  destruct Hcpc as [-> | ->];
    repeat split;
    repeat first [ rewrite lookup_total_insert_eq; reflexivity
                 | rewrite lookup_total_insert_ne by done ].
Qed.

Lemma merged_counters_numeric (s o m : frame) :
  merged s o = Ok m →
  counters_numeric m ∧ ∀ r, r ∈ rows m → numeric "Sessions" r.
Proof.
  intros (sa & oa & Hsa & Hoa & Hcols & Hrows)%merged_ok.
  apply sessions_agg_ok in Hsa as (sp & _ & _ & _ & Hsum).
  apply orders_agg_ok in Hoa as (op & _ & _ & _ & Hord).
  assert (∀ r c, r ∈ rows m →
            c ∈ ["Sessions"; "Clicks"; "Spend"; "Orders"; "Revenue"] →
            numeric c r) as Hnum.
  { intros r c Hr Hc. rewrite Hrows, map_fmap in Hr.
    apply list_elem_of_fmap in Hr as (lr & -> & Hlr).
    unfold numeric. rewrite merged_row_lookup.
    rewrite !elem_of_cons, elem_of_nil in Hc.
    destruct Hc as [->|[->|[->|[->|[->|[]]]]]].
    - rewrite decide_False by (intros [?|?]; done).
      destruct (Hsum lr "Sessions" Hlr) as (q & _ & ->); [ratio_mem|eauto].
    - rewrite decide_False by (intros [?|?]; done).
      destruct (Hsum lr "Clicks" Hlr) as (q & _ & ->); [ratio_mem|eauto].
    - rewrite decide_False by (intros [?|?]; done).
      destruct (Hsum lr "Spend" Hlr) as (q & _ & ->); [ratio_mem|eauto].
    - rewrite decide_True by auto.
      destruct (head _) as [g|] eqn:Eh; [|eauto].
      apply head_matches_Some in Eh as [Hg _].
      destruct (Hord g Hg) as [-> _]. cbn. eauto.
    - rewrite decide_True by auto.
      destruct (head _) as [g|] eqn:Eh; [|eauto].
      apply head_matches_Some in Eh as [Hg _].
      destruct (Hord g Hg) as [_ (q & _ & ->)]. cbn. eauto. }
  split; [split|].
  - intros c Hc. rewrite Hcols. rewrite !elem_of_cons in *. tauto.
  - intros r c Hr Hc. apply Hnum; [done|]. rewrite !elem_of_cons in *. tauto.
  - intros r Hr. apply Hnum; [done|]. ratio_mem.
Qed.

(** Once the two sides are aggregated and joined, the ratios are computed
    without an exception, and the daily table is the joined table with the
    five ratios added to each row. *)
Lemma daily_kpis_ok (s o m : frame) :
  merged s o = Ok m →
  daily_kpis s o
  = Ok {| columns := ["Date"; "Channel"; "Sessions"; "Clicks"; "Spend"; "Orders";
                      "Revenue"; "CVR"; "CPC_calc"; "CAC"; "AOV"; "ROAS"];
          rows := map (with_ratios "CPC_calc") (rows m) |}.
Proof.
  intros Hm. unfold daily_kpis. rewrite Hm. cbn [mbind result_bind].
  unfold daily_ratios.
  rewrite (ratios_chain "CPC_calc"); [|by right|by eapply merged_counters_numeric].
  apply merged_ok in Hm as (_ & _ & _ & _ & -> & _). done.
Qed.

Lemma daily_kpis_inv (s o d : frame) :
  daily_kpis s o = Ok d →
  ∃ m, merged s o = Ok m
    ∧ columns d = ["Date"; "Channel"; "Sessions"; "Clicks"; "Spend"; "Orders";
                   "Revenue"; "CVR"; "CPC_calc"; "CAC"; "AOV"; "ROAS"]
    ∧ rows d = map (with_ratios "CPC_calc") (rows m).
Proof.
  intros H. destruct (merged s o) as [m|] eqn:Em.
  - rewrite (daily_kpis_ok s o m Em) in H. injection H as <-. eauto.
  - unfold daily_kpis in H. by rewrite Em in H.
Qed.

(** ** Sorting *)

Global Instance num_key_le_trans c : Transitive (num_key_le c).
Proof. intros x y z. unfold num_key_le. apply Qcle_trans. Qed.

Global Instance num_key_le_total c : Total (num_key_le c).
Proof.
  intros x y. unfold num_key_le.
  destruct (Qclt_le_dec (num_key c y) (num_key c x)); [right|left]; [|done].
  by apply Qclt_le_weak.
Qed.

Lemma StronglySorted_reverse {A} (R : relation A) (l : list A) :
  StronglySorted R l → StronglySorted (flip R) (reverse l).
Proof.
  induction 1 as [|x l _ IH Hx]; [constructor|].
  rewrite reverse_cons. apply StronglySorted_app_2; [|done|repeat constructor].
  intros y z Hy ->%list_elem_of_singleton. rewrite elem_of_reverse in Hy.
  rewrite Forall_forall in Hx. by apply Hx.
Qed.

Lemma StronglySorted_impl {A} (R R' : relation A) (l : list A) :
  (∀ x y, x ∈ l → y ∈ l → R x y → R' x y) →
  StronglySorted R l → StronglySorted R' l.
Proof.
  intros Himpl Hs. induction Hs as [|x l _ IH Hx]; [constructor|].
  constructor.
  - apply IH. intros y z Hy Hz. apply Himpl; by right.
  - rewrite Forall_forall in *. intros y Hy.
    apply Himpl; [left|by right|by apply Hx].
Qed.

Lemma sort_values_desc_ok c (df : frame) :
  c ∈ columns df →
  (∀ r, r ∈ rows df → r !!! c = VNaN ∨ numeric c r) →
  ∃ out, sort_values_desc c df = Ok out
    ∧ columns out = columns df
    ∧ rows out ≡ₚ rows df
    ∧ StronglySorted (desc_nan_last c) (rows out).
Proof.
  intros Hc Hnum. unfold sort_values_desc.
  rewrite (getitem_in _ _ Hc). cbn [mbind result_bind].
  unfold col. rewrite map_res_map.
  rewrite (map_res_ok _ (λ r : row, match r !!! c with VNum q => Some q | _ => None end)).
  2: { intros r Hr. cbn. by apply as_float_cell, Hnum. }
  cbn [mbind result_bind]. eexists. split; [done|]. cbn. split; [done|].
  set (nn := filter (λ r : row, notna (r !!! c) = true) (rows df)).
  set (nans := filter (λ r : row, isna (r !!! c) = true) (rows df)).
  split.
  - rewrite reverse_Permutation, merge_sort_Permutation, reverse_Permutation.
    etrans; [|apply (filter_app_complement
                       (λ r : row, notna (r !!! c) = true) (rows df))].
    apply Permutation_app; [done|]. unfold nans.
    erewrite list_filter_iff; [done|]. intros r. cbn. unfold isna.
    destruct (notna (r !!! c)); cbn; split; congruence.
  - apply StronglySorted_app_2.
    + intros a b Ha Hb. unfold desc_nan_last.
      apply list_elem_of_filter in Hb as [Hb _]. unfold isna in Hb.
      destruct (b !!! c); try done. by destruct (a !!! c).
    + apply (StronglySorted_impl (flip (num_key_le c))).
      * intros a b Ha Hb Hab.
        assert (∀ x, x ∈ reverse (merge_sort (num_key_le c) (reverse nn)) →
                     numeric c x) as Hin.
        { intros x Hx. rewrite elem_of_reverse in Hx.
          rewrite merge_sort_Permutation in Hx. rewrite elem_of_reverse in Hx.
          apply list_elem_of_filter in Hx as [Hx1 Hx2].
          destruct (Hnum x Hx2) as [E|?]; [|done]. by rewrite E in Hx1. }
        destruct (Hin a Ha) as [x Hx], (Hin b Hb) as [y Hy].
        unfold desc_nan_last, flip, num_key_le, num_key in *.
        by rewrite Hx, Hy in *.
      * apply StronglySorted_reverse, StronglySorted_merge_sort; apply _.
    + apply (StronglySorted_impl (λ _ _, True)).
      * intros a b Ha Hb _. unfold desc_nan_last.
        apply list_elem_of_filter in Ha as [Ha _], Hb as [Hb _]. unfold isna in *.
        destruct (a !!! c); try done. by destruct (b !!! c).
      * clear. induction nans; constructor; [done|]. by apply Forall_forall.
Qed.

(** ** The channel summary *)

Lemma summary_totals_ok (d g : frame) :
  summary_totals d = Ok g →
  columns g = ["Channel"; "Sessions"; "Clicks"; "Spend"; "Orders"; "Revenue"]
  ∧ key_of ["Channel"] <$> rows g = group_keys ["Channel"] (rows d)
  ∧ ∀ r c, r ∈ rows g →
      c ∈ ["Sessions"; "Clicks"; "Spend"; "Orders"; "Revenue"] →
      ∃ q, nansum ((λ x : row, x !!! c)
                     <$> group_rows ["Channel"] (key_of ["Channel"] r) (rows d))
           = Ok q
           ∧ r !!! c = VNum q.
Proof.
  unfold summary_totals. intros H.
  apply groupby_agg_rows in H as (Hcols & Hkeys & Hrows);
    [|by apply (bool_decide_unpack _)].
  split; [done|]. split; [done|].
  intros r c Hr Hc. destruct (Hrows r Hr) as [_ Hagg].
  assert ((c, (c, AggSum)) ∈ summary_aggs) as Hin.
  { unfold summary_aggs. rewrite !elem_of_cons, elem_of_nil in Hc.
    destruct Hc as [->|[->|[->|[->|[->|[]]]]]]; rewrite !elem_of_cons; auto 10. }
  specialize (Hagg c c AggSum Hin). cbn in Hagg.
  destruct (nansum _) as [q|]; [|done].
  exists q. split; [done|]. by injection Hagg as <-.
Qed.

Lemma summary_totals_numeric (d g : frame) :
  summary_totals d = Ok g → counters_numeric g.
Proof.
  intros (Hcols & _ & Hsum)%summary_totals_ok. split.
  - intros c Hc. rewrite Hcols. rewrite !elem_of_cons in *. tauto.
  - intros r c Hr Hc. destruct (Hsum r c Hr) as (q & _ & Hq); [|by exists q].
    rewrite !elem_of_cons in *. tauto.
Qed.

(** Once the totals by channel are there, the ratios and the sort raise
    nothing; the summary is the table of totals with the five ratios added
    to each row, in the order of the sort. *)
Lemma summary_ok (d g : frame) :
  summary_totals d = Ok g →
  ∃ out, summary d = Ok out
    ∧ columns out = ["Channel"; "Sessions"; "Clicks"; "Spend"; "Orders"; "Revenue";
                     "CVR"; "CPC"; "CAC"; "AOV"; "ROAS"]
    ∧ rows out ≡ₚ map (with_ratios "CPC") (rows g)
    ∧ StronglySorted (desc_nan_last "ROAS") (rows out).
Proof.
  intros Hg. unfold summary. rewrite Hg. cbn [mbind result_bind].
  unfold summary_ratios.
  rewrite (ratios_chain "CPC"); [|by left|by eapply summary_totals_numeric].
  cbn [mbind result_bind].
  pose proof (summary_totals_numeric _ _ Hg) as [_ Hnum].
  apply summary_totals_ok in Hg as (Hcols & _ & _).
  edestruct (sort_values_desc_ok "ROAS") as (out & -> & Hc & Hp & Hs);
    [| |exists out; split; [done|]; split; [|split; [exact Hp|exact Hs]]].
  - cbn. rewrite Hcols. by apply (bool_decide_unpack _).
  - cbn. intros r Hr. rewrite map_fmap in Hr.
    apply list_elem_of_fmap in Hr as (r0 & -> & Hr0).
    destruct (with_ratios_kpi_row "CPC" r0) as (cl & sp & od & rv & H);
      [by left|intros; by apply Hnum|].
    destruct H as (_ & _ & _ & _ & _ & _ & _ & _ & Hroas).
    unfold numeric. rewrite Hroas. unfold kpi_ratio. case_decide; eauto.
  - rewrite Hc. cbn. by rewrite Hcols.
Qed.

Lemma summary_inv (d out : frame) :
  summary d = Ok out →
  ∃ g, summary_totals d = Ok g
    ∧ rows out ≡ₚ map (with_ratios "CPC") (rows g)
    ∧ StronglySorted (desc_nan_last "ROAS") (rows out).
Proof.
  intros H. destruct (summary_totals d) as [g|] eqn:Eg.
  - destruct (summary_ok d g Eg) as (out' & Ho & _ & Hp & Hs).
    rewrite H in Ho. injection Ho as <-. eauto.
  - unfold summary in H. by rewrite Eg in H.
Qed.

(** ** Aggregations that cannot fail *)

Lemma map_res_total_ok {A B} (f : A → result B) (l : list A) :
  (∀ x, x ∈ l → ∃ y, f x = Ok y) → ∃ ys, map_res f l = Ok ys.
Proof.
  induction l as [|x l IH]; intros H; [by eexists|].
  destruct (H x) as [y Hy]; [left|].
  destruct IH as [ys Hys]; [intros; apply H; by right|].
  exists (y :: ys). cbn. by rewrite Hy, Hys.
Qed.

Lemma nansum_total (vs : series) :
  (∀ v, v ∈ vs → v = VNaN ∨ ∃ q, v = VNum q) → ∃ q, nansum vs = Ok q.
Proof.
  induction vs as [|v vs IH]; intros H; [by eexists|].
  destruct IH as [s Hs]; [intros; apply H; by right|].
  cbn. rewrite Hs. destruct (H v) as [->|[q ->]]; [left| |]; by eexists.
Qed.

Lemma groupby_agg_total keys aggs (df : frame) :
  (∀ k, k ∈ keys → k ∈ columns df) →
  (∀ out src fn, (out, (src, fn)) ∈ aggs →
     src ∈ columns df
     ∧ (fn = AggSum → ∀ r, r ∈ rows df → r !!! src = VNaN ∨ numeric src r)) →
  ∃ g, groupby_agg keys aggs df = Ok g.
Proof.
  intros Hkeys Haggs. unfold groupby_agg.
  rewrite (map_res_ok _ (col df)) by (intros; by apply getitem_in, Hkeys).
  cbn [mbind result_bind].
  rewrite (map_res_ok _ (λ a : string * (string * aggfun), col df a.2.1)).
  2: { intros [out [src fn]] Ha. apply getitem_in. by eapply Haggs. }
  cbn [mbind result_bind].
  destruct (map_res_total_ok (agg_row keys aggs (rows df))
              (group_keys keys (rows df))) as [rs ->]; [|by eexists].
  intros k _. unfold agg_row.
  destruct (map_res_total_ok (agg_cell (group_rows keys k (rows df))) aggs)
    as [cells ->]; [|by eexists].
  intros [out [src fn]] Ha. unfold agg_cell. cbn.
  destruct fn; [|by eexists]. cbn.
  destruct (nansum_total ((λ r : row, r !!! src) <$> group_rows keys k (rows df)))
    as [q ->]; [|by eexists].
  intros v (r & -> & Hr)%list_elem_of_fmap.
  apply elem_of_group_rows in Hr as [Hr _].
  destruct (Haggs out src AggSum Ha) as [_ Hn].
  destruct (Hn eq_refl r Hr) as [?|[q ?]]; eauto.
Qed.

Lemma daily_kpis_numeric (s o d : frame) :
  daily_kpis s o = Ok d →
  ∀ r c, r ∈ rows d →
    c ∈ ["Sessions"; "Clicks"; "Spend"; "Orders"; "Revenue"] → numeric c r.
Proof.
  intros (m & Hm & _ & Hrows)%daily_kpis_inv r c Hr Hc.
  rewrite Hrows, map_fmap in Hr. apply list_elem_of_fmap in Hr as (r0 & -> & Hr0).
  unfold numeric. rewrite with_ratios_counter; [|by right|].
  2: { rewrite !elem_of_cons in *. tauto. }
  destruct (merged_counters_numeric _ _ _ Hm) as [[_ Hn] Hs].
  rewrite !elem_of_cons, elem_of_nil in Hc.
  destruct Hc as [->|Hc]; [by apply Hs|].
  apply Hn; [done|]. rewrite !elem_of_cons. tauto.
Qed.

(** The summary of a daily table that [compute_daily_channel_kpis] made
    raises nothing. *)
Lemma summary_totals_total (s o d : frame) :
  daily_kpis s o = Ok d → ∃ g, summary_totals d = Ok g.
Proof.
  intros Hd. pose proof (daily_kpis_numeric _ _ _ Hd) as Hnum.
  apply daily_kpis_inv in Hd as (m & _ & Hcols & _).
  apply groupby_agg_total.
  - intros k ->%list_elem_of_singleton. rewrite Hcols. ratio_mem.
  - intros out src fn Ha. unfold summary_aggs in Ha.
    rewrite !elem_of_cons, elem_of_nil in Ha.
    destruct Ha as [[= -> -> ->]|[[= -> -> ->]|[[= -> -> ->]|[[= -> -> ->]
                   |[[= -> -> ->]|[]]]]]];
      (split; [rewrite Hcols; ratio_mem|intros _ r Hr; right; apply Hnum;
                                         [done|ratio_mem]]).
Qed.

Lemma date_totals_total (s o d : frame) :
  daily_kpis s o = Ok d → ∃ t, date_totals d = Ok t.
Proof.
  intros Hd. pose proof (daily_kpis_numeric _ _ _ Hd) as Hnum.
  apply daily_kpis_inv in Hd as (m & _ & Hcols & _).
  unfold date_totals.
  destruct (groupby_agg_total ["Date"]
              [("Revenue", ("Revenue", AggSum)); ("Spend", ("Spend", AggSum))] d)
    as [g Hg].
  - intros k ->%list_elem_of_singleton. rewrite Hcols. ratio_mem.
  - intros out src fn Ha. rewrite !elem_of_cons, elem_of_nil in Ha.
    destruct Ha as [[= -> -> ->]|[[= -> -> ->]|[]]];
      (split; [rewrite Hcols; ratio_mem|intros _ r Hr; right; apply Hnum;
                                         [done|ratio_mem]]).
  - rewrite Hg. cbn [mbind result_bind]. unfold dropna.
    apply groupby_agg_ok in Hg as [Hc _].
    rewrite (map_res_ok _ (col g)); [by eexists|].
    intros c Hcin. apply getitem_in. rewrite Hc. cbn.
    rewrite !elem_of_cons in *. tauto.
Qed.

(** ** From a run to the table it returns *)

Lemma compute_daily_channel_kpis_returns (σ σ' : store) ls lo s o l :
  σ !! ls = Some s → σ !! lo = Some o →
  compute_daily_channel_kpis ls lo σ = (Ok l, σ') →
  ∃ d, daily_kpis s o = Ok d ∧ σ' !! l = Some d ∧ σ !! l = None ∧ σ ⊆ σ'.
Proof.
  intros Hs Ho Hrun.
  pose proof (wp_run _ _ _ _ _ (compute_daily_channel_kpis_run σ ls lo s o Hs Ho) Hrun)
    as [Hsub H].
  destruct (daily_kpis s o) as [d|]; [|done].
  destruct H as (l' & [= <-] & ? & ?). eauto.
Qed.

Lemma compute_daily_channel_kpis_total (σ : store) ls lo s o d :
  σ !! ls = Some s → σ !! lo = Some o → daily_kpis s o = Ok d →
  ∃ l σ', compute_daily_channel_kpis ls lo σ = (Ok l, σ') ∧ σ' !! l = Some d.
Proof.
  intros Hs Ho Hd.
  pose proof (compute_daily_channel_kpis_run σ ls lo s o Hs Ho) as H.
  unfold wp in H. rewrite Hd in H. destruct H as (_ & l & Hl & _ & Hlook).
  destruct (compute_daily_channel_kpis ls lo σ) as [r σ'] eqn:E. cbn in *.
  subst r. eauto.
Qed.

Lemma channel_summary_returns (σ σ' : store) ld d l :
  σ !! ld = Some d → channel_summary ld σ = (Ok l, σ') →
  ∃ out, summary d = Ok out ∧ σ' !! l = Some out ∧ σ !! l = None ∧ σ ⊆ σ'.
Proof.
  intros Hd Hrun.
  pose proof (wp_run _ _ _ _ _ (channel_summary_run σ ld d Hd) Hrun) as [Hsub H].
  destruct (summary d) as [out|]; [|done].
  destruct H as (l' & [= <-] & ? & ?). eauto.
Qed.

Lemma channel_summary_total (σ : store) ld d out :
  σ !! ld = Some d → summary d = Ok out →
  ∃ l σ', channel_summary ld σ = (Ok l, σ') ∧ σ' !! l = Some out.
Proof.
  intros Hd Hout.
  pose proof (channel_summary_run σ ld d Hd) as H.
  unfold wp in H. rewrite Hout in H. destruct H as (_ & l & Hl & _ & Hlook).
  destruct (channel_summary ld σ) as [r σ'] eqn:E. cbn in *.
  subst r. eauto.
Qed.

(** * The claims *)

(** ** Effective spend *)

(** C1, as amended: the effective spend is read from one column for the
    whole table, the adjusted-spend column when the table has it and
    otherwise the raw spend column; a row contributes its value in that
    column when it has one and 0 when it is missing there.  (A table with
    neither column is not covered.) *)
Theorem effective_spend_by_column (s : frame) (c : string) :
  spend_column s = Some c →
  (c = "Adj_spend_gbp" ↔ "Adj_spend_gbp" ∈ columns s)
  ∧ (c = "Spend_gbp" ↔ ("Adj_spend_gbp" ∉ columns s) ∧ "Spend_gbp" ∈ columns s)
  ∧ effective_spend s
    = Ok (map (λ r : row, fillna_value (VNum 0) (r !!! c)) (rows s))
  ∧ ∃ s', assign_spend s = Ok s'
      ∧ col s' "Spend" = map (λ r : row, fillna_value (VNum 0) (r !!! c)) (rows s).
Proof.
  intros Hc.
  assert (effective_spend s
          = Ok (map (λ r : row, fillna_value (VNum 0) (r !!! c)) (rows s))) as He.
  { unfold effective_spend, df_get. unfold spend_column in Hc.
    destruct (has_column s "Adj_spend_gbp").
    - injection Hc as <-. cbn. unfold col. by rewrite map_map.
    - destruct (has_column s "Spend_gbp"); [|done].
      injection Hc as <-. cbn. unfold col. by rewrite map_map. }
  split; [|split; [|split; [done|]]].
  - unfold spend_column in Hc. destruct (has_column s "Adj_spend_gbp") eqn:E.
    + injection Hc as <-. by apply has_column_true in E.
    + split.
      * intros Hadj. destruct (has_column s "Spend_gbp"); [|done].
        injection Hc as <-. done.
      * intros H%has_column_true. congruence.
  - unfold spend_column in Hc. destruct (has_column s "Adj_spend_gbp") eqn:E.
    + injection Hc as <-. apply has_column_true in E. split; [done|tauto].
    + destruct (has_column s "Spend_gbp") eqn:E'; [|done]. injection Hc as <-.
      apply has_column_true in E'. split; [|done]. intros _. split; [|done].
      intros H%has_column_true. congruence.
  - unfold assign_spend. rewrite He. cbn [mbind result_bind].
    rewrite setitem_map. eexists. split; [done|]. unfold col. cbn.
    rewrite map_map. apply map_ext. intros r. by rewrite lookup_total_insert_eq.
Qed.

(** ** Guarded ratios *)

(** C3: whenever the two sides aggregate and join, the daily table is
    returned, and in each of its rows the five ratios are the guarded
    quotients of the row's counters; the summary of that table is returned
    too, with the same five formulas on its own counters.  A guarded
    quotient is missing exactly when its denominator is at most 0, and is
    the quotient when the denominator is positive: never an infinity (a
    cell cannot hold one) and never an exception. *)
Theorem ratios_guarded (σ : store) ls lo (s o m : frame) :
  σ !! ls = Some s → σ !! lo = Some o → merged s o = Ok m →
  (∀ num den, (kpi_ratio num den = VNaN ↔ den ≤ 0)
              ∧ (0 < den → kpi_ratio num den = VNum (num / den)))
  ∧ ∃ ld σ1 d,
      compute_daily_channel_kpis ls lo σ = (Ok ld, σ1) ∧ σ1 !! ld = Some d
      ∧ (∀ r, r ∈ rows d → kpi_row "CPC_calc" r)
      ∧ ∃ lc σ2 out,
          channel_summary ld σ1 = (Ok lc, σ2) ∧ σ2 !! lc = Some out
          ∧ ∀ r, r ∈ rows out → kpi_row "CPC" r.
Proof.
  intros Hs Ho Hm. split.
  { intros num den. split; [apply kpi_ratio_nan_iff|apply kpi_ratio_pos]. }
  pose proof (daily_kpis_ok s o m Hm) as Hd.
  destruct (compute_daily_channel_kpis_total σ ls lo s o _ Hs Ho Hd)
    as (ld & σ1 & Hrun & Hld).
  eexists ld, σ1, _. split; [done|]. split; [done|]. split.
  { cbn. intros r Hr. rewrite map_fmap in Hr.
    apply list_elem_of_fmap in Hr as (r0 & -> & Hr0).
    apply with_ratios_kpi_row; [by right|]. intros c Hc.
    by apply (merged_counters_numeric _ _ _ Hm). }
  destruct (summary_totals_total _ _ _ Hd) as [g Hg].
  destruct (summary_ok _ _ Hg) as (out & Hout & _ & Hperm & _).
  destruct (channel_summary_total σ1 ld _ out Hld Hout) as (lc & σ2 & Hrun2 & Hlc).
  exists lc, σ2, out. split; [done|]. split; [done|].
  intros r Hr. rewrite Hperm, map_fmap in Hr.
  apply list_elem_of_fmap in Hr as (r0 & -> & Hr0).
  apply with_ratios_kpi_row; [by left|]. intros c Hc.
  by apply (summary_totals_numeric _ _ Hg).
Qed.

(** ** The order of the summary *)

(** C6: the rows of the channel summary are in descending order of ROAS,
    and a row whose ROAS is missing comes after every row that has one:
    each row stands in [desc_nan_last "ROAS"] to every row after it. *)
Theorem summary_sorted_by_roas (σ σ' : store) ld l (d : frame) :
  σ !! ld = Some d → channel_summary ld σ = (Ok l, σ') →
  ∃ out, σ' !! l = Some out
    ∧ StronglySorted (desc_nan_last "ROAS") (rows out)
    ∧ ∀ i j ri rj, (i < j)%nat → rows out !! i = Some ri → rows out !! j = Some rj →
        (ri !!! "ROAS" = VNaN → rj !!! "ROAS" = VNaN)
        ∧ ∀ qi qj, ri !!! "ROAS" = VNum qi → rj !!! "ROAS" = VNum qj → qj ≤ qi.
Proof.
  intros Hd Hrun.
  destruct (channel_summary_returns _ _ _ _ _ Hd Hrun) as (out & Hout & Hl & _).
  exists out. split; [done|].
  destruct (summary_inv _ _ Hout) as (g & Hg & Hperm & Hsorted).
  split; [done|].
  assert (∀ r, r ∈ rows out → r !!! "ROAS" = VNaN ∨ numeric "ROAS" r) as Hroas.
  { intros r Hr. rewrite Hperm, map_fmap in Hr.
    apply list_elem_of_fmap in Hr as (r0 & -> & Hr0).
    destruct (with_ratios_kpi_row "CPC" r0) as (cl & sp & od & rv & H);
      [by left|intros; by apply (summary_totals_numeric _ _ Hg)|].
    destruct H as (_ & _ & _ & _ & _ & _ & _ & _ & Hr).
    unfold numeric. rewrite Hr. unfold kpi_ratio. case_decide; eauto. }
  intros i j ri rj Hij Hi Hj.
  assert (desc_nan_last "ROAS" ri rj) as Hrel.
  { apply lookup_lt_Some in Hj as Hjlen.
    rewrite <- (take_drop_middle _ _ _ Hi) in Hsorted, Hj.
    apply StronglySorted_app_1_r, StronglySorted_cons in Hsorted as [Hall _].
    rewrite Forall_forall in Hall. apply Hall.
    rewrite lookup_app_r in Hj by (rewrite length_take; lia).
    rewrite length_take, Nat.min_l in Hj by (apply lookup_lt_Some in Hi; lia).
    destruct (j - i)%nat as [|n] eqn:E; [lia|]. cbn in Hj.
    apply list_elem_of_lookup. eauto. }
  unfold desc_nan_last in Hrel. split.
  - intros Hnan. rewrite Hnan in Hrel.
    destruct (Hroas rj) as [?|[q Hq]]; [apply list_elem_of_lookup; eauto|done|].
    by rewrite Hq in Hrel.
  - intros qi qj Hqi Hqj. by rewrite Hqi, Hqj in Hrel.
Qed.

(** ** Keys of rows *)

Lemma valid_key_present keys (r : row) :
  valid_key keys r ↔ present (key_of keys r).
Proof.
  unfold valid_key, present. rewrite forallb_forall, Forall_forall.
  split; intros H v Hv.
  - apply list_elem_of_In, H in Hv. by destruct v.
  - apply list_elem_of_In, H in Hv. by destruct v.
Qed.

Lemma order_row_key (o : frame) (x : row) :
  key_of ["Date"; order_chan o] (order_row o x) = order_key o x.
Proof.
  unfold order_key, order_date, resolved_channel, order_row, order_chan,
    orders_channel, chan_col_of, key_of.
  destruct (has_column o "Channel_ft"), (has_column o "Channel"),
    (has_column o "Date"); cbn;
    repeat first [ rewrite lookup_total_insert_eq
                 | rewrite lookup_total_insert_ne by done ]; done.
Qed.

Lemma order_row_other (o : frame) (x : row) c :
  c ≠ "Date" → c ≠ "Channel_ft" → order_row o x !!! c = x !!! c.
Proof.
  intros H1 H2. unfold order_row.
  destruct (chan_col_of o), (has_column o "Date");
    by rewrite ?lookup_total_insert_ne by done.
Qed.

Lemma session_row_key c (r : row) :
  key_of ["Date"; "Channel"] (session_row c r) = session_key r.
Proof.
  unfold session_row, session_key, key_of. cbn.
  by rewrite lookup_total_insert_eq, !lookup_total_insert_ne.
Qed.

Lemma group_rows_fmap keys k (f : row → row) (rs : list row) :
  group_rows keys k (f <$> rs)
  = f <$> filter (λ x : row, key_of keys (f x) = k) rs.
Proof.
  unfold group_rows. induction rs as [|r rs IH]; [done|].
  rewrite fmap_cons, !filter_cons. cbn.
  destruct (decide (key_of keys (f r) = k)); by rewrite IH.
Qed.

(** ** Channel of an order *)

(** C7: the channel under which an order row is grouped is its resolved
    channel: column "Channel_ft" when the table has it, else column
    "Channel", else the constant "All".  Every order group carries the date
    and the resolved channel of one of the rows, every row with both gives a
    group, and a table with neither channel column has groups only under
    "All". *)
Theorem order_channel_resolution (o oa : frame) :
  orders_agg o = Ok oa →
  chan_col_of o
  = (if bool_decide ("Channel_ft" ∈ columns o) then Some "Channel_ft"
     else if bool_decide ("Channel" ∈ columns o) then Some "Channel" else None)
  ∧ (∀ x, order_row o x !!! order_chan o = resolved_channel o x)
  ∧ (∀ g, g ∈ rows oa → ∃ x, x ∈ rows o ∧ daily_key g = order_key o x)
  ∧ (∀ x, x ∈ rows o → present (order_key o x) →
       ∃ g, g ∈ rows oa ∧ daily_key g = order_key o x)
  ∧ (("Channel_ft" ∉ columns o) → ("Channel" ∉ columns o) →
       ∀ g, g ∈ rows oa → g !!! "Channel" = VStr "All").
Proof.
  intros Hoa. split; [done|]. split.
  { intros x. pose proof (order_row_key o x) as H. unfold key_of, order_key in H.
    cbn in H. by injection H. }
  destruct (orders_agg_ok _ _ Hoa) as (op & Hop & _ & Hkeys & _).
  apply orders_prepared_ok in Hop as [Hrows _].
  assert (∀ g, g ∈ rows oa → ∃ x, x ∈ rows o ∧ daily_key g = order_key o x) as Hg.
  { intros g Hin.
    assert (daily_key g ∈ group_keys ["Date"; order_chan o] (rows op)) as Hk.
    { rewrite <- Hkeys. apply list_elem_of_fmap. by exists g. }
    apply elem_of_group_keys in Hk as (x' & Hx' & _ & Hkey).
    rewrite Hrows, map_fmap in Hx'. apply list_elem_of_fmap in Hx' as (x & -> & Hx).
    exists x. split; [done|]. by rewrite <- Hkey, order_row_key. }
  split; [done|]. split.
  - intros x Hx Hp.
    assert (order_key o x ∈ group_keys ["Date"; order_chan o] (rows op)) as Hk.
    { apply elem_of_group_keys. exists (order_row o x). split.
      - rewrite Hrows, map_fmap. apply list_elem_of_fmap. eauto.
      - split; [|apply order_row_key].
        apply valid_key_present. by rewrite order_row_key. }
    rewrite <- Hkeys in Hk. apply list_elem_of_fmap in Hk as (g & Hkg & Hgin).
    exists g. split; [done|]. done.
  - intros Hft Hch g Hin. destruct (Hg g Hin) as (x & _ & Hk).
    unfold daily_key, key_of, order_key, resolved_channel in Hk. cbn in Hk.
    injection Hk as _ Hk. rewrite Hk.
    assert (has_column o "Channel_ft" = false) as ->.
    { apply not_true_is_false. by intros ?%has_column_true. }
    assert (has_column o "Channel" = false) as ->.
    { apply not_true_is_false. by intros ?%has_column_true. }
    done.
Qed.

(** ** Purity of the stages *)

(** C10: each stage leaves every table of the store as it was, its inputs
    among them, and returns a table at a new address. *)
Theorem stages_leave_inputs_unchanged (σ : store) ls lo ld :
  is_Some (σ !! ls) → is_Some (σ !! lo) → is_Some (σ !! ld) →
  wp (clean_sessions ls) σ (stage_post σ)
  ∧ wp (clean_orders lo) σ (stage_post σ)
  ∧ wp (compute_daily_channel_kpis ls lo) σ (stage_post σ)
  ∧ wp (channel_summary ld) σ (stage_post σ).
Proof.
  intros Hs Ho Hd. split; [apply clean_sessions_stage|].
  split; [apply clean_orders_stage|].
  split; [by apply compute_daily_channel_kpis_stage|apply channel_summary_stage].
Qed.

(** ** Rows of the daily table *)

Lemma daily_key_with_ratios cpc (r : row) :
  cpc = "CPC" ∨ cpc = "CPC_calc" → daily_key (with_ratios cpc r) = daily_key r.
Proof.
  intros H. unfold daily_key, key_of. cbn [map].
  rewrite !with_ratios_counter by (done || ratio_mem). done.
Qed.

Lemma daily_key_merged_row (oa : frame) (lr : row) :
  daily_key (merged_row oa lr) = daily_key lr.
Proof.
  unfold daily_key, key_of. cbn [map]. rewrite !merged_row_lookup.
  by rewrite !decide_False by (intros [?|?]; done).
Qed.

Lemma daily_rows_structure (s o d : frame) :
  daily_kpis s o = Ok d →
  ∃ sa oa c,
    sessions_agg s = Ok sa ∧ orders_agg o = Ok oa ∧ spend_column s = Some c
    ∧ rows d = (λ lr, with_ratios "CPC_calc" (merged_row oa lr)) <$> rows sa
    ∧ daily_key <$> rows sa
      = group_keys ["Date"; "Channel"] (session_row c <$> rows s).
Proof.
  intros (m & Hm & _ & Hrows)%daily_kpis_inv.
  apply merged_ok in Hm as (sa & oa & Hsa & Hoa & _ & Hm).
  destruct (sessions_agg_ok _ _ Hsa) as (sp & Hsp & _ & Hkeys & _).
  apply sessions_prepared_ok in Hsp as (c & Hc & _ & _ & _ & Hsprows).
  exists sa, oa, c. split; [done|]. split; [done|]. split; [done|]. split.
  - by rewrite Hrows, Hm, map_map.
  - unfold daily_key. by rewrite Hkeys, Hsprows.
Qed.

Lemma daily_keys (s o d : frame) :
  daily_kpis s o = Ok d →
  ∃ c, spend_column s = Some c
    ∧ daily_key <$> rows d
      = group_keys ["Date"; "Channel"] (session_row c <$> rows s).
Proof.
  intros (sa & oa & c & _ & _ & Hc & Hrows & Hkeys)%daily_rows_structure.
  exists c. split; [done|]. rewrite <- Hkeys, Hrows, <- list_fmap_compose.
  apply list_fmap_ext. intros i lr _. unfold compose.
  by rewrite daily_key_with_ratios, daily_key_merged_row by by right.
Qed.

(** The orders and the revenue of the row of the joined table of a key, from
    the rows of the orders table of that key. *)
Lemma merged_row_orders (o oa : frame) (lr : row) :
  orders_agg o = Ok oa → present (daily_key lr) →
  merged_row oa lr !!! "Orders"
  = VNum (qz (Z.of_nat (nunique
       ((λ x : row, x !!! "Order_id")
          <$> filter (λ x : row, order_key o x = daily_key lr) (rows o)))))
  ∧ ∃ q, column_total "Revenue_gbp"
           (filter (λ x : row, order_key o x = daily_key lr) (rows o)) q
         ∧ merged_row oa lr !!! "Revenue" = VNum q.
Proof.
  intros Hoa Hp.
  destruct (orders_agg_ok _ _ Hoa) as (op & Hop & _ & Hkeys & Hcells).
  apply orders_prepared_ok in Hop as [Hrows _].
  assert (∀ k, group_rows ["Date"; order_chan o] k (rows op)
               = order_row o <$> filter (λ x : row, order_key o x = k) (rows o))
    as Hgrp.
  { intros k. rewrite Hrows, map_fmap, group_rows_fmap. f_equal.
    apply list_filter_iff. intros x. by rewrite order_row_key. }
  assert (∀ k c, c ≠ "Date" → c ≠ "Channel_ft" →
            (λ x : row, x !!! c) <$> group_rows ["Date"; order_chan o] k (rows op)
            = (λ x : row, x !!! c) <$> filter (λ x : row, order_key o x = k) (rows o))
    as Hcol.
  { intros k c H1 H2. rewrite Hgrp, <- list_fmap_compose.
    apply list_fmap_ext. intros i x _. cbn. by apply order_row_other. }
  rewrite !merged_row_lookup. rewrite !decide_True by auto.
  destruct (head (matches ["Date"; "Channel"] lr oa)) as [g|] eqn:Eh.
  - apply head_matches_Some in Eh as [Hg Hk].
    destruct (Hcells g Hg) as [Ho (q & Hq & Hr)].
    fold (daily_key g) in Ho, Hq. fold (daily_key g) (daily_key lr) in Hk.
    rewrite Hk, Hcol in Ho, Hq by done.
    rewrite Ho, Hr. cbn. split; [done|]. by exists q.
  - assert (filter (λ x : row, order_key o x = daily_key lr) (rows o) = []) as ->.
    { apply filter_none. intros x Hx Hkx.
      assert (daily_key lr ∈ group_keys ["Date"; order_chan o] (rows op)) as Hin.
      { apply elem_of_group_keys. exists (order_row o x). split.
        - rewrite Hrows, map_fmap. apply list_elem_of_fmap. eauto.
        - split; [|by rewrite order_row_key].
          apply valid_key_present. by rewrite order_row_key, Hkx. }
      rewrite <- Hkeys in Hin. apply list_elem_of_fmap in Hin as (g & Hkg & Hg).
      eapply head_matches_None in Eh; [|exact Hg]. by apply Eh. }
    split; [done|]. by exists 0.
Qed.

Lemma daily_row_present (s o d : frame) (r : row) :
  daily_kpis s o = Ok d → r ∈ rows d →
  present (daily_key r) ∧ ∃ x, x ∈ rows s ∧ session_key x = daily_key r.
Proof.
  intros (c & _ & Hkeys)%daily_keys Hr.
  assert (daily_key r ∈ group_keys ["Date"; "Channel"] (session_row c <$> rows s))
    as Hin by (rewrite <- Hkeys; apply list_elem_of_fmap; eauto).
  apply elem_of_group_keys in Hin as (x' & Hx' & Hv & Hk).
  apply list_elem_of_fmap in Hx' as (x & -> & Hx).
  split.
  - rewrite <- Hk. by apply valid_key_present.
  - exists x. split; [done|]. by rewrite <- Hk, session_row_key.
Qed.

(** ** The rows of the daily table *)

(** C4: the daily table has exactly one row for each (Date, Channel) pair
    of the sessions table whose two parts are both there, and a row whose
    pair no row of the orders table has carries 0 orders and 0 revenue. *)
Theorem daily_rows_are_session_groups (σ σ' : store) ls lo l (s o : frame) :
  σ !! ls = Some s → σ !! lo = Some o →
  compute_daily_channel_kpis ls lo σ = (Ok l, σ') →
  ∃ d, σ' !! l = Some d
    ∧ NoDup (daily_key <$> rows d)
    ∧ (∀ k, k ∈ daily_key <$> rows d
            ↔ ∃ x, x ∈ rows s ∧ session_key x = k ∧ present k)
    ∧ ∀ r, r ∈ rows d →
        (∀ x, x ∈ rows o → order_key o x ≠ daily_key r) →
        r !!! "Orders" = VNum 0 ∧ r !!! "Revenue" = VNum 0.
Proof.
  intros Hs Ho Hrun.
  destruct (compute_daily_channel_kpis_returns _ _ _ _ _ _ _ Hs Ho Hrun)
    as (d & Hd & Hl & _).
  exists d. split; [done|].
  destruct (daily_keys _ _ _ Hd) as (c & Hc & Hkeys).
  split; [rewrite Hkeys; apply NoDup_group_keys|]. split.
  - intros k. rewrite Hkeys, elem_of_group_keys. split.
    + intros (x' & Hx' & Hv & Hk).
      apply list_elem_of_fmap in Hx' as (x & -> & Hx).
      exists x. split; [done|]. rewrite <- Hk. split; [by rewrite session_row_key|].
      by apply valid_key_present.
    + intros (x & Hx & Hk & Hp). exists (session_row c x).
      split; [apply list_elem_of_fmap; eauto|].
      rewrite session_row_key. split; [|done].
      apply valid_key_present. by rewrite session_row_key, Hk.
  - intros r Hr Hnone.
    destruct (daily_row_present _ _ _ _ Hd Hr) as [Hp _].
    destruct (daily_rows_structure _ _ _ Hd) as (sa & oa & _ & _ & Hoa & _ & Hrows & _).
    rewrite Hrows in Hr. apply list_elem_of_fmap in Hr as (lr & -> & Hlr).
    rewrite daily_key_with_ratios, daily_key_merged_row in Hp, Hnone by by right.
    destruct (merged_row_orders o oa lr Hoa Hp) as [Ho' (q & Hq & Hrev)].
    rewrite !with_ratios_counter by first [by right | ratio_mem].
    rewrite Ho', Hrev.
    assert (filter (λ x : row, order_key o x = daily_key lr) (rows o) = []) as E.
    { apply filter_none. intros x Hx. by apply Hnone. }
    unfold column_total in Hq. rewrite E in Hq |- *. cbn in Hq.
    injection Hq as <-. done.
Qed.

(** C5, first part: in each row of the daily table, Orders is the number of
    distinct Order_id values (missing ones not counted) among the rows of
    the orders table with the row's (Date, resolved channel) pair, and
    Revenue is the sum of their revenue. *)
Lemma daily_orders_distinct (s o d : frame) (r : row) :
  daily_kpis s o = Ok d → r ∈ rows d →
  r !!! "Orders"
  = VNum (qz (Z.of_nat (nunique
       ((λ x : row, x !!! "Order_id")
          <$> filter (λ x : row, order_key o x = daily_key r) (rows o)))))
  ∧ ∃ q, column_total "Revenue_gbp"
           (filter (λ x : row, order_key o x = daily_key r) (rows o)) q
         ∧ r !!! "Revenue" = VNum q.
Proof.
  intros Hd Hr.
  destruct (daily_row_present _ _ _ _ Hd Hr) as [Hp _].
  destruct (daily_rows_structure _ _ _ Hd) as (sa & oa & _ & _ & Hoa & _ & Hrows & _).
  rewrite Hrows in Hr. apply list_elem_of_fmap in Hr as (lr & -> & Hlr).
  rewrite daily_key_with_ratios, daily_key_merged_row in Hp |- * by by right.
  rewrite !with_ratios_counter by first [by right | ratio_mem].
  by apply merged_row_orders.
Qed.

(** ** Counting and summing, said without [nunique] and [nansum] *)

(** [nunique] is the length of any duplicate-free list of the values that
    are there. *)
Lemma nunique_distinct (vs : series) :
  ∃ ids : list value,
    NoDup ids ∧ (∀ v, v ∈ ids ↔ v ≠ VNaN ∧ v ∈ vs) ∧ nunique vs = length ids.
Proof.
  exists (remove_dups (filter (λ v, notna v = true) vs)).
  split; [apply NoDup_remove_dups|]. split; [|done].
  intros v. rewrite elem_of_remove_dups, list_elem_of_filter.
  assert (notna v = true ↔ v ≠ VNaN) as Hv
    by (destruct v; cbn; split; first [done|congruence]).
  tauto.
Qed.

Lemma NoDup_same_length {A} (l k : list A) :
  NoDup l → NoDup k → (∀ x, x ∈ l ↔ x ∈ k) → length l = length k.
Proof.
  intros Hl Hk H. apply Permutation_length, NoDup_Permutation; done.
Qed.

(** The number in a cell, 0 for a cell without one. *)
Definition num_of (v : value) : Qc :=
  match v with VNum q => q | _ => 0 end.

Lemma nansum_eq (vs : series) :
  (∀ v, v ∈ vs → v = VNaN ∨ ∃ q, v = VNum q) →
  nansum vs = Ok (qsum (num_of <$> vs)).
Proof.
  induction vs as [|v vs IH]; intros Hvs; [done|].
  cbn [nansum]. rewrite IH by (intros; apply Hvs; by right).
  rewrite fmap_cons. change (qsum (num_of v :: (num_of <$> vs)))
    with (num_of v + qsum (num_of <$> vs)).
  destruct (Hvs v) as [->|[q ->]]; [by left| |];
    cbn [as_float mbind result_bind num_of]; [|done].
  f_equal. ring.
Qed.

(** ** Distinct orders *)

Lemma nunique_ext (l l' : series) :
  (∀ v, notna v = true → (v ∈ l ↔ v ∈ l')) → nunique l = nunique l'.
Proof.
  intros H. unfold nunique. apply Permutation_length.
  apply NoDup_Permutation; [apply NoDup_remove_dups..|].
  intros v. rewrite !elem_of_remove_dups, !list_elem_of_filter.
  split; intros [Hv Hin]; (split; [done|by apply H]).
Qed.

Lemma order_key_columns (o o' : frame) (x : row) :
  columns o' = columns o → order_key o' x = order_key o x.
Proof.
  intros H. unfold order_key, order_date, resolved_channel, has_column.
  by rewrite H.
Qed.

Lemma daily_orders_column (s o d : frame) :
  daily_kpis s o = Ok d →
  ∃ sa, sessions_agg s = Ok sa
    ∧ col d "Orders"
      = (λ lr : row,
           VNum (qz (Z.of_nat (nunique
             ((λ x : row, x !!! "Order_id")
                <$> filter (λ x : row, order_key o x = daily_key lr) (rows o))))))
        <$> rows sa.
Proof.
  intros Hd.
  destruct (daily_rows_structure _ _ _ Hd) as (sa & oa & c & Hsa & Hoa & _ & Hrows & Hk).
  exists sa. split; [done|]. unfold col. rewrite map_fmap, Hrows, <- list_fmap_compose.
  apply list_fmap_ext. intros i lr Hi. unfold compose.
  rewrite with_ratios_counter by first [by right | ratio_mem].
  apply merged_row_orders; [done|].
  assert (daily_key lr ∈ group_keys ["Date"; "Channel"] (session_row c <$> rows s))
    as Hin.
  { rewrite <- Hk. apply list_elem_of_fmap. exists lr. split; [done|].
    apply list_elem_of_lookup. eauto. }
  apply elem_of_group_keys in Hin as (x' & _ & Hv & <-).
  by apply valid_key_present.
Qed.

(** C5: in each row of the daily table, Orders is the number of distinct
    Order_id values among the rows of the orders table that have the row's
    (Date, resolved channel) pair: the length of any list without
    repetition of the Order_id values, missing ones apart, of these rows,
    which is what [nunique] counts, and not the number of the rows.  Revenue
    is the sum of their revenue, missing cells counting 0.  A row added to
    the orders table with the pair and the Order_id of a row already there
    leaves the Orders column as it was. *)
Theorem orders_count_distinct (σ σ' : store) ls lo l (s o : frame) :
  σ !! ls = Some s → σ !! lo = Some o →
  compute_daily_channel_kpis ls lo σ = (Ok l, σ') →
  ∃ d, σ' !! l = Some d
    ∧ (∀ r, r ∈ rows d →
         r !!! "Orders"
         = VNum (qz (Z.of_nat (nunique
              ((λ x : row, x !!! "Order_id")
                 <$> filter (λ x : row, order_key o x = daily_key r) (rows o)))))
         ∧ (∀ ids : list value,
              NoDup ids →
              (∀ v, v ∈ ids ↔ v ≠ VNaN
                              ∧ ∃ x, x ∈ rows o ∧ order_key o x = daily_key r
                                     ∧ x !!! "Order_id" = v) →
              r !!! "Orders" = VNum (qz (Z.of_nat (length ids))))
         ∧ ∃ q, column_total "Revenue_gbp"
                  (filter (λ x : row, order_key o x = daily_key r) (rows o)) q
                ∧ q = qsum ((λ x : row, num_of (x !!! "Revenue_gbp"))
                              <$> filter (λ x : row, order_key o x = daily_key r)
                                         (rows o))
                ∧ r !!! "Revenue" = VNum q)
    ∧ ∀ before after (x y : row) d',
        rows o = before ++ after → y ∈ rows o →
        order_key o x = order_key o y → x !!! "Order_id" = y !!! "Order_id" →
        daily_kpis s {| columns := columns o; rows := before ++ x :: after |} = Ok d' →
        col d' "Orders" = col d "Orders".
Proof.
  intros Hs Ho Hrun.
  destruct (compute_daily_channel_kpis_returns _ _ _ _ _ _ _ Hs Ho Hrun)
    as (d & Hd & Hl & _).
  exists d. split; [done|]. split.
  { intros r Hr. destruct (daily_orders_distinct _ _ _ _ Hd Hr) as (Ho' & q & Hq & Hrev).
    split; [done|]. split.
    - intros ids Hnd Hids. rewrite Ho'. do 3 f_equal.
      destruct (nunique_distinct ((λ x : row, x !!! "Order_id")
                  <$> filter (λ x : row, order_key o x = daily_key r) (rows o)))
        as (ids' & Hnd' & Hids' & ->).
      apply NoDup_same_length; [done|done|]. intros v.
      rewrite Hids', Hids, list_elem_of_fmap. split.
      + intros (Hne & x & -> & [Hk Hx]%list_elem_of_filter). eauto.
      + intros (Hne & x & Hx & Hk & <-). split; [done|]. exists x.
        split; [done|]. by apply list_elem_of_filter.
    - exists q. split; [done|]. split; [|done].
      unfold column_total in Hq. pose proof (nansum_ok_numeric _ _ Hq) as Hnum.
      rewrite (nansum_eq _ Hnum) in Hq. injection Hq as <-.
      by rewrite <- list_fmap_compose. }
  intros before after x y d' Hrows Hy Hkey Hid Hd'.
  destruct (daily_orders_column _ _ _ Hd) as (sa & Hsa & ->).
  destruct (daily_orders_column _ _ _ Hd') as (sa' & Hsa' & ->).
  rewrite Hsa in Hsa'. injection Hsa' as <-.
  apply list_fmap_ext. intros i lr _. cbn [rows]. do 3 f_equal.
  set (o' := {| columns := columns o; rows := before ++ x :: after |}).
  assert (∀ (L : list row) k,
            filter (λ x0 : row, order_key o' x0 = k) L
            = filter (λ x0 : row, order_key o x0 = k) L) as Hf.
  { intros L k. apply list_filter_iff. intros x0.
    by rewrite (order_key_columns o o'). }
  rewrite Hf, Hrows. rewrite !filter_app, filter_cons, !fmap_app.
  destruct (decide (order_key o x = daily_key lr)) as [Hx|Hx]; [|done].
  rewrite fmap_cons. apply nunique_ext. intros v Hv.
  assert (x !!! "Order_id"
          ∈ ((λ x0 : row, x0 !!! "Order_id")
               <$> filter (λ x0 : row, order_key o x0 = daily_key lr) before)
            ++ ((λ x0 : row, x0 !!! "Order_id")
                  <$> filter (λ x0 : row, order_key o x0 = daily_key lr) after))
    as Hin.
  { rewrite <- fmap_app, <- filter_app, <- Hrows, Hid.
    apply list_elem_of_fmap. exists y. split; [done|].
    apply list_elem_of_filter. split; [congruence|done]. }
  rewrite !elem_of_app, elem_of_cons in *.
  split; [|tauto]. intros [?|[->|?]]; tauto.
Qed.

(** ** Totals and ratios of the summary *)



(** ** Least squares *)

Lemma Qc_square_nonneg (x : Qc) : 0 ≤ x * x.
Proof.
  destruct (Qclt_le_dec x 0) as [Hneg|Hpos].
  - replace (x * x) with ((- x) * (- x)) by ring.
    assert (0 ≤ - x) as H.
    { apply Qclt_le_weak in Hneg. apply Qcle_minus_iff in Hneg.
      by rewrite Qcplus_0_l in Hneg. }
    by apply Qcmult_nonneg_nonneg.
  - by apply Qcmult_nonneg_nonneg.
Qed.

Lemma Qc_square_zero (x : Qc) : x * x = 0 → x = 0.
Proof. intros H. by destruct (Qcmult_integral _ _ H). Qed.

Lemma Qc_sum_nonneg_zero (a s : Qc) : 0 ≤ a → 0 ≤ s → a + s = 0 → a = 0 ∧ s = 0.
Proof.
  intros Ha Hs H.
  assert (a = 0) as ->.
  { apply Qcle_antisym; [|done]. rewrite <- H.
    rewrite <- (Qcplus_0_r a) at 1. by apply Qcplus_le_mono_l. }
  split; [done|]. by rewrite Qcplus_0_l in H.
Qed.

Lemma qsum_cons (x : Qc) (l : list Qc) : qsum (x :: l) = x + qsum l.
Proof. reflexivity. Qed.

Lemma qsum_squares_nonneg {A} (f : A → Qc) (l : list A) :
  0 ≤ qsum (map (λ x, f x * f x) l).
Proof.
  induction l as [|x l IH]; [done|]. cbn [map]. rewrite qsum_cons.
  apply Qcplus_nonneg_nonneg; [apply Qc_square_nonneg|done].
Qed.

Lemma qsum_squares_zero {A} (f : A → Qc) (l : list A) :
  qsum (map (λ x, f x * f x) l) = 0 → ∀ x, x ∈ l → f x = 0.
Proof.
  induction l as [|x l IH]; intros H y Hy; [by apply elem_of_nil in Hy|].
  cbn [map] in H. rewrite qsum_cons in H.
  apply Qc_sum_nonneg_zero in H as [Hx Hl];
    [|apply Qc_square_nonneg|apply qsum_squares_nonneg].
  apply elem_of_cons in Hy as [->|Hy]; [by apply Qc_square_zero|by apply IH].
Qed.

Lemma qz_S (k : nat) : qz (Z.of_nat (S k)) = 1 + qz (Z.of_nat k).
Proof.
  unfold qz. apply Qc_is_canon. cbn [this Qcplus Q2Qc].
  rewrite !Qred_correct, Nat2Z.inj_succ. unfold Z.succ.
  rewrite inject_Z_plus. ring.
Qed.

Lemma qz_0 : qz 0 = 0.
Proof. by apply Qc_is_canon. Qed.

Lemma qz_length_pos (k : nat) : 0 < qz (Z.of_nat (S k)).
Proof.
  induction k as [|k IH].
  - by apply (bool_decide_unpack _).
  - rewrite qz_S. apply Qcplus_pos_nonneg; [by apply (bool_decide_unpack _)|].
    by apply Qclt_le_weak.
Qed.

(** The sums that the fit is made of, as sums over the points. *)
Section Sums.
Variables (a b : Qc).

Lemma residual_sum (xs ys : list Qc) :
  length xs = length ys →
  qsum (zip_with (λ x y, y - (a + b * x)) xs ys)
  = qsum ys - qz (Z.of_nat (length xs)) * a - b * qsum xs.
Proof.
  revert ys. induction xs as [|x xs IH]; intros [|y ys] Hlen; try done.
  - cbn [zip_with length]. change (Z.of_nat 0) with 0%Z. rewrite qz_0.
    unfold qsum. cbn [foldr]. ring.
  - cbn [zip_with length]. rewrite !qsum_cons, qz_S, IH by (cbn in Hlen; lia).
    ring.
Qed.

Lemma residual_moment (xs ys : list Qc) :
  length xs = length ys →
  qsum (zip_with (λ x y, (y - (a + b * x)) * x) xs ys)
  = qsum (zip_with Qcmult xs ys) - a * qsum xs - b * qsum (zip_with Qcmult xs xs).
Proof.
  revert ys. induction xs as [|x xs IH]; intros [|y ys] Hlen; try done.
  - unfold qsum. cbn [zip_with foldr]. ring.
  - cbn [zip_with]. rewrite !qsum_cons, IH by (cbn in Hlen; lia). ring.
Qed.

(** The sum of squares at another line, around the line [(a, b)]. *)
Lemma ssr_around (a' b' : Qc) (xs ys : list Qc) :
  ssr xs ys a' b'
  = ssr xs ys a b
    - 2 * (a' - a) * qsum (zip_with (λ x y, y - (a + b * x)) xs ys)
    - 2 * (b' - b) * qsum (zip_with (λ x y, (y - (a + b * x)) * x) xs ys)
    + qsum (map (λ x, ((a' - a) + (b' - b) * x) * ((a' - a) + (b' - b) * x))
                (take (length ys) xs)).
Proof.
  unfold ssr. revert ys. induction xs as [|x xs IH]; intros [|y ys].
  - unfold qsum. cbn [zip_with length take map foldr]. ring.
  - unfold qsum. cbn [zip_with length take map foldr]. ring.
  - unfold qsum. cbn [zip_with length take map foldr]. ring.
  - cbn [zip_with length take map]. rewrite !qsum_cons, IH. ring.
Qed.
End Sums.

(** A line whose residuals sum to 0, and to 0 when weighted by [x], has the
    least sum of squared residuals. *)
Lemma normal_equations_minimise (a b : Qc) (xs ys : list Qc) :
  qsum (zip_with (λ x y, y - (a + b * x)) xs ys) = 0 →
  qsum (zip_with (λ x y, (y - (a + b * x)) * x) xs ys) = 0 →
  ∀ a' b', ssr xs ys a b ≤ ssr xs ys a' b'.
Proof.
  intros H0 H1 a' b'. rewrite (ssr_around a b a' b'), H0, H1.
  set (q := qsum _).
  assert (0 ≤ q) as Hq by apply qsum_squares_nonneg.
  replace (ssr xs ys a b - 2 * (a' - a) * 0 - 2 * (b' - b) * 0 + q)
    with (ssr xs ys a b + q) by ring.
  rewrite <- (Qcplus_0_r (ssr xs ys a b)) at 1. by apply Qcplus_le_mono_l.
Qed.

(** When [n Σx² = (Σx)²], every [x] is the mean. *)
Lemma deviations_sum (xs : list Qc) (n sx : Qc) :
  qsum (map (λ x, (n * x - sx) * (n * x - sx)) xs)
  = n * n * qsum (zip_with Qcmult xs xs) - 2 * n * sx * qsum xs
    + qz (Z.of_nat (length xs)) * sx * sx.
Proof.
  induction xs as [|x xs IH].
  - cbn [map zip_with length]. change (Z.of_nat 0) with 0%Z. rewrite qz_0.
    unfold qsum. cbn [foldr]. ring.
  - cbn [map zip_with length]. rewrite !qsum_cons, qz_S, IH. ring.
Qed.

Lemma zero_variance_constant (xs : list Qc) :
  qz (Z.of_nat (length xs)) * qsum (zip_with Qcmult xs xs) - qsum xs * qsum xs = 0 →
  ∀ x, x ∈ xs → qz (Z.of_nat (length xs)) * x = qsum xs.
Proof.
  intros Hdet x Hx. set (n := qz (Z.of_nat (length xs))) in *.
  assert (qsum (map (λ x, (n * x - qsum xs) * (n * x - qsum xs)) xs) = 0) as H.
  { rewrite deviations_sum. fold n.
    replace (n * n * qsum (zip_with Qcmult xs xs) - 2 * n * qsum xs * qsum xs
             + n * qsum xs * qsum xs)
      with (n * (n * qsum (zip_with Qcmult xs xs) - qsum xs * qsum xs)) by ring.
    rewrite Hdet. ring. }
  pose proof (qsum_squares_zero _ _ H x Hx) as E. cbn beta in E.
  rewrite <- (Qcplus_0_l (qsum xs)), <- E. ring.
Qed.

Lemma constant_cross_sum (xs ys : list Qc) (n sx : Qc) :
  length xs = length ys → (∀ x, x ∈ xs → n * x = sx) →
  n * qsum (zip_with Qcmult xs ys) = sx * qsum ys.
Proof.
  revert ys. induction xs as [|x xs IH]; intros [|y ys] Hlen Hx; try done.
  - unfold qsum. cbn [zip_with foldr]. ring.
  - cbn [zip_with]. rewrite !qsum_cons.
    replace (n * (x * y + qsum (zip_with Qcmult xs ys)))
      with ((n * x) * y + n * qsum (zip_with Qcmult xs ys)) by ring.
    rewrite (Hx x) by left. rewrite IH; [ring|cbn in Hlen; lia|].
    intros; apply Hx; by right.
Qed.

(** [np.polyfit(x, y, 1)] returns a line, and the line minimises the sum of
    squared residuals, whenever there is a point, as many [y] as [x], and
    the [x] do not sum to 0. *)
Lemma polyfit1_least_squares (xs ys : list Qc) :
  xs ≠ [] → length xs = length ys → qsum xs ≠ 0 →
  ∃ a b, polyfit1 xs ys = Ok (b, a)
    ∧ ∀ a' b', ssr xs ys a b ≤ ssr xs ys a' b'.
Proof.
  intros Hne Hlen Hsx. unfold polyfit1.
  rewrite bool_decide_eq_false_2 by by destruct xs.
  rewrite bool_decide_eq_false_2 by (intros H; by apply H).
  set (n := qz (Z.of_nat (length xs))).
  assert (n ≠ 0) as Hn.
  { unfold n. destruct xs as [|x xs]; [done|]. cbn [length].
    apply not_eq_sym, Qclt_not_eq, qz_length_pos. }
  set (sx := qsum xs) in *. set (sy := qsum ys).
  set (sxx := qsum (zip_with Qcmult xs xs)). set (sxy := qsum (zip_with Qcmult xs ys)).
  case_bool_decide as Hdet.
  - rewrite bool_decide_eq_false_2 by done.
    eexists _, _. split; [done|]. apply normal_equations_minimise.
    + rewrite residual_sum by done. fold n sx sy. by field.
    + rewrite residual_moment by done. fold n sx sy sxx sxy.
      pose proof (constant_cross_sum xs ys n sx Hlen
                    (zero_variance_constant xs Hdet)) as Hxy.
      fold sxy sy in Hxy.
      assert (sxx = sx * sx / n) as ->.
      { replace sxx with ((n * sxx - sx * sx + sx * sx) / n) by by field.
        by rewrite Hdet, Qcplus_0_l. }
      assert (sxy = sx * sy / n) as ->.
      { replace sxy with (n * sxy / n) by by field. by rewrite Hxy. }
      by field.
  - eexists _, _. split; [done|]. apply normal_equations_minimise.
    + rewrite residual_sum by done. fold n sx sy. by field.
    + rewrite residual_moment by done. fold n sx sy sxx sxy. by field.
Qed.

(** ** The response curve *)

Lemma date_totals_numeric (d t : frame) :
  date_totals d = Ok t →
  "Spend" ∈ columns t ∧ "Revenue" ∈ columns t
  ∧ ∀ r, r ∈ rows t → numeric "Spend" r ∧ numeric "Revenue" r.
Proof.
  unfold date_totals. intros H.
  destruct (groupby_agg _ _ d) as [g|] eqn:Eg; [|done]. cbn [mbind result_bind] in H.
  apply groupby_agg_rows in Eg as (Hcols & _ & Hrows);
    [|by apply (bool_decide_unpack _)].
  unfold dropna in H. destruct (map_res (getitem g) _); [|done].
  cbn [mbind result_bind] in H. injection H as <-. cbn [columns rows].
  rewrite Hcols. split; [cbn; ratio_mem|]. split; [cbn; ratio_mem|].
  intros r [_ Hr]%list_elem_of_filter. destruct (Hrows r Hr) as [_ Hagg].
  split; eapply agg_sum_numeric.
  - apply (Hagg "Spend" "Spend" AggSum). ratio_mem.
  - apply (Hagg "Revenue" "Revenue" AggSum). ratio_mem.
Qed.

Lemma float_values_numeric (vs : series) :
  (∀ v, v ∈ vs → ∃ q, v = VNum q) →
  ∃ xs, float_values vs = Ok xs ∧ vs = VNum <$> xs ∧ nansum vs = Ok (qsum xs).
Proof.
  induction vs as [|v vs IH]; intros H; [by exists []|].
  destruct IH as (xs & Hf & -> & Hs); [intros; apply H; by right|].
  destruct (H v) as [q ->]; [left|]. exists (q :: xs).
  unfold float_values in *. cbn [map_res]. rewrite Hf. cbn [mbind result_bind].
  split; [done|]. split; [done|]. cbn [nansum as_float mbind result_bind].
  by rewrite Hs.
Qed.

Lemma date_totals_columns (d t : frame) :
  date_totals d = Ok t →
  ∃ xs ys, col t "Spend" = VNum <$> xs ∧ col t "Revenue" = VNum <$> ys
    ∧ float_values (col t "Spend") = Ok xs ∧ float_values (col t "Revenue") = Ok ys
    ∧ nansum (col t "Spend") = Ok (qsum xs)
    ∧ length xs = length (rows t) ∧ length ys = length (rows t).
Proof.
  intros (_ & _ & Hnum)%date_totals_numeric.
  destruct (float_values_numeric (col t "Spend")) as (xs & Hx1 & Hx2 & Hx3).
  { intros v Hv. unfold col in Hv. rewrite map_fmap in Hv.
    apply list_elem_of_fmap in Hv as (r & -> & Hr). by apply Hnum. }
  destruct (float_values_numeric (col t "Revenue")) as (ys & Hy1 & Hy2 & Hy3).
  { intros v Hv. unfold col in Hv. rewrite map_fmap in Hv.
    apply list_elem_of_fmap in Hv as (r & -> & Hr). by apply Hnum. }
  exists xs, ys. repeat split; try done.
  - apply (f_equal length) in Hx2. unfold col in Hx2.
    by rewrite length_map, length_fmap in Hx2.
  - apply (f_equal length) in Hy2. unfold col in Hy2.
    by rewrite length_map, length_fmap in Hy2.
Qed.

(** The fit on fewer than two dates, or on a spend that sums to 0. *)
Lemma response_fit_degenerate (d t : frame) :
  date_totals d = Ok t →
  (length (rows t) < 2)%nat ∨ column_total "Spend" (rows t) 0 →
  response_fit d = Ok None.
Proof.
  intros Ht Hdeg. unfold response_fit. rewrite Ht. cbn [mbind result_bind].
  case_bool_decide as Hlen; [done|].
  destruct Hdeg as [?|Hsum]; [done|].
  destruct (date_totals_numeric _ _ Ht) as (Hs & _ & _).
  rewrite (getitem_in _ _ Hs). cbn [mbind result_bind].
  unfold column_total in Hsum. unfold col. rewrite map_fmap, Hsum.
  cbn [mbind result_bind]. by rewrite bool_decide_eq_true_2.
Qed.

(** The fit on two dates or more whose spend does not sum to 0. *)
Lemma response_fit_regular (d t : frame) (total : Qc) :
  date_totals d = Ok t → (2 ≤ length (rows t))%nat →
  column_total "Spend" (rows t) total → total ≠ 0 →
  ∃ a b xs ys,
    col t "Spend" = VNum <$> xs ∧ col t "Revenue" = VNum <$> ys
    ∧ polyfit1 xs ys = Ok (b, a)
    ∧ response_fit d = Ok (Some (a, b))
    ∧ ∀ a' b', ssr xs ys a b ≤ ssr xs ys a' b'.
Proof.
  intros Ht Hlen Hsum Hne.
  destruct (date_totals_columns _ _ Ht) as (xs & ys & Hx & Hy & Hfx & Hfy & Hs & Lx & Ly).
  destruct (date_totals_numeric _ _ Ht) as (Hcs & Hcr & _).
  unfold column_total in Hsum. change (nansum (col t "Spend") = Ok total) in Hsum.
  rewrite Hs in Hsum. injection Hsum as Hsum.
  destruct (polyfit1_least_squares xs ys) as (a & b & Hfit & Hmin).
  { destruct xs; [cbn in Lx; lia|done]. }
  { by rewrite Lx, Ly. }
  { by rewrite Hsum. }
  exists a, b, xs, ys. split; [done|]. split; [done|]. split; [done|].
  split; [|done].
  unfold response_fit. rewrite Ht. cbn [mbind result_bind].
  rewrite bool_decide_eq_false_2 by lia.
  rewrite (getitem_in _ _ Hcs), (getitem_in _ _ Hcr). cbn [mbind result_bind].
  rewrite Hs. cbn [mbind result_bind].
  rewrite bool_decide_eq_false_2 by (by rewrite Hsum).
  rewrite Hfx, Hfy. cbn [mbind result_bind]. by rewrite Hfit.
Qed.

(** ** The pipeline *)

Lemma main_unfold (a b : loc) (σ : store) :
  main a b σ
  = match kpi_tables a b σ with
    | (Ok (daily, chan), σ1) =>
        match simple_response_curve daily σ1 with
        | (Ok fit, σ2) => (Ok (daily, chan, fit), σ2)
        | (Err e, σ2) => (Err e, σ2)
        end
    | (Err e, σ1) => (Err e, σ1)
    end.
Proof.
  unfold main, kpi_tables. rewrite !run_bind.
  destruct (clean_sessions a σ) as [[ls|?] σa]; [|done]. rewrite !run_bind.
  destruct (clean_orders b σa) as [[lo|?] σb]; [|done]. rewrite !run_bind.
  destruct (compute_daily_channel_kpis ls lo σb) as [[ld|?] σc]; [|done].
  rewrite !run_bind.
  destruct (channel_summary ld σc) as [[lc|?] σd]; [|done].
  rewrite !run_bind. cbn [mret M_ret].
  by destruct (simple_response_curve ld σd) as [[fit|?] σe].
Qed.

Lemma kpi_tables_inv (a b : loc) (σ σ1 : store) ld lc :
  kpi_tables a b σ = (Ok (ld, lc), σ1) →
  ∃ s o d out, daily_kpis s o = Ok d ∧ summary d = Ok out
    ∧ σ1 !! ld = Some d ∧ σ1 !! lc = Some out ∧ σ ⊆ σ1.
Proof.
  unfold kpi_tables. rewrite !run_bind.
  destruct (clean_sessions a σ) as [[ls|?] σa] eqn:E1; [|done]. rewrite !run_bind.
  destruct (clean_orders b σa) as [[lo|?] σb] eqn:E2; [|done]. rewrite !run_bind.
  destruct (compute_daily_channel_kpis ls lo σb) as [[ld'|?] σc] eqn:E3; [|done].
  rewrite !run_bind.
  destruct (channel_summary ld' σc) as [[lc'|?] σd] eqn:E4; [|done].
  cbn [mret M_ret]. intros [= -> -> ->].
  destruct (wp_run _ _ _ _ _ (clean_sessions_stage σ a) E1) as [Hsub1 H1].
  destruct (H1 ls eq_refl) as [_ [s Hs]].
  destruct (wp_run _ _ _ _ _ (clean_orders_stage σa b) E2) as [Hsub2 H2].
  destruct (H2 lo eq_refl) as [_ [o Ho]].
  assert (σb !! ls = Some s) as Hs' by (eapply lookup_weaken; eauto).
  destruct (compute_daily_channel_kpis_returns _ _ _ _ _ _ _ Hs' Ho E3)
    as (d & Hd & Hld & _ & Hsub3).
  destruct (channel_summary_returns _ _ _ _ _ Hld E4) as (out & Hout & Hlc & _ & Hsub4).
  exists s, o, d, out. split; [done|]. split; [done|].
  split; [by eapply lookup_weaken|]. split; [done|].
  etrans; [exact Hsub1|]. etrans; [exact Hsub2|]. by etrans.
Qed.

(** C8: when the daily totals by date are fewer than two, or their spend
    sums to 0, the response estimator returns no fit and raises nothing, and
    [main] still returns the daily table and the channel summary. *)
Theorem degenerate_fit_is_undefined (σ σ1 : store) (a b ld lc : loc) :
  kpi_tables a b σ = (Ok (ld, lc), σ1) →
  ∃ d out t,
    σ1 !! ld = Some d ∧ σ1 !! lc = Some out ∧ date_totals d = Ok t
    ∧ ((length (rows t) < 2)%nat ∨ column_total "Spend" (rows t) 0 →
       simple_response_curve ld σ1 = (Ok None, σ1)
       ∧ main a b σ = (Ok (ld, lc, None), σ1)).
Proof.
  intros Hrun.
  destruct (kpi_tables_inv _ _ _ _ _ _ Hrun) as (s & o & d & out & Hd & _ & Hld & Hlc & _).
  destruct (date_totals_total _ _ _ Hd) as [t Ht].
  exists d, out, t. split; [done|]. split; [done|]. split; [done|].
  intros Hdeg.
  assert (simple_response_curve ld σ1 = (Ok None, σ1)) as Hfit.
  { rewrite (simple_response_curve_run _ _ _ Hld).
    by rewrite (response_fit_degenerate _ _ Ht Hdeg). }
  split; [done|]. by rewrite main_unfold, Hrun, Hfit.
Qed.

(** C9: on two dates or more whose spend does not sum to 0, the response
    estimator returns the intercept and the slope that [np.polyfit] gives,
    and they minimise the sum of squared residuals of Revenue against Spend
    over the totals by date; on the totals (100, 150), (200, 250),
    (300, 350) they are 50 and 1. *)
Theorem response_fit_least_squares (σ : store) ld (d t : frame) (total : Qc) :
  σ !! ld = Some d → date_totals d = Ok t →
  (2 ≤ length (rows t))%nat → column_total "Spend" (rows t) total → total ≠ 0 →
  ∃ a b xs ys,
    col t "Spend" = VNum <$> xs ∧ col t "Revenue" = VNum <$> ys
    ∧ simple_response_curve ld σ = (Ok (Some (a, b)), σ)
    ∧ (∀ a' b', ssr xs ys a b ≤ ssr xs ys a' b')
    ∧ (xs = [qz 100; qz 200; qz 300] → ys = [qz 150; qz 250; qz 350] →
       a = qz 50 ∧ b = qz 1).
Proof.
  intros Hd Ht Hlen Hsum Hne.
  destruct (response_fit_regular _ _ _ Ht Hlen Hsum Hne)
    as (a & b & xs & ys & Hx & Hy & Hfit & Hr & Hmin).
  exists a, b, xs, ys. split; [done|]. split; [done|].
  split; [by rewrite (simple_response_curve_run _ _ _ Hd), Hr|].
  split; [done|]. intros -> ->.
  assert (polyfit1 [qz 100; qz 200; qz 300] [qz 150; qz 250; qz 350]
          = Ok (qz 1, qz 50)) as E
    by (apply (bool_decide_unpack _); vm_compute; exact I).
  rewrite E in Hfit. injection Hfit as Hb Ha. clear Hmin Hr Hx Hy.
  split; [exact (eq_sym Ha)|exact (eq_sym Hb)].
Qed.

(** * Further properties of the source

    ** What the daily aggregator refuses *)

(** X1: without a spend column in the sessions table, neither the adjusted
    nor the raw one, the daily aggregator raises AttributeError: the default
    of line 65 is a float, which has no [fillna].  Nothing else is looked at
    before: the orders table need not even exist. *)
Theorem spend_column_required (σ : store) ls lo (s : frame) :
  σ !! ls = Some s →
  "Adj_spend_gbp" ∉ columns s → "Spend_gbp" ∉ columns s →
  (compute_daily_channel_kpis ls lo σ).1 = Err AttributeError.
Proof.
  intros Hs Ha Hr.
  change (wp (compute_daily_channel_kpis ls lo) σ (λ r _, r = Err AttributeError)).
  unfold compute_daily_channel_kpis. apply wp_bind, wp_copy. rewrite Hs.
  apply wp_bind, wp_update.
  unfold assign_spend, effective_spend, df_get, has_column.
  by rewrite !bool_decide_eq_false_2.
Qed.

(** X2: with a spend column but no "Date" column in the sessions table, the
    daily aggregator raises KeyError on "Date" (line 66), whatever the
    orders. *)
Theorem sessions_date_required (σ : store) ls lo (s : frame) :
  σ !! ls = Some s →
  "Adj_spend_gbp" ∈ columns s ∨ "Spend_gbp" ∈ columns s →
  "Date" ∉ columns s →
  (compute_daily_channel_kpis ls lo σ).1 = Err (KeyError "Date").
Proof.
  intros Hs Hc Hd.
  change (wp (compute_daily_channel_kpis ls lo) σ (λ r _, r = Err (KeyError "Date"))).
  unfold compute_daily_channel_kpis. apply wp_bind, wp_copy. rewrite Hs.
  apply wp_bind, wp_update.
  destruct (assign_spend s) as [s1|e] eqn:E.
  - apply wp_bind, wp_update.
    assert ("Date" ∉ columns s1) as Hd1.
    { unfold assign_spend in E.
      destruct (effective_spend s) as [sp|]; [|done]. cbn in E.
      unfold setitem in E. case_bool_decide; [|done]. injection E as <-.
      cbn. rewrite elem_of_add_column. by intros [?|[=]]. }
    unfold map_column, getitem, has_column.
    by rewrite bool_decide_eq_false_2.
  - exfalso. unfold assign_spend, effective_spend, df_get, obj_fillna in E.
    destruct Hc as [Hc|Hc].
    + rewrite (proj2 (has_column_true s _) Hc) in E. cbn in E.
      unfold setitem in E. rewrite length_map in E. unfold col in E.
      rewrite length_map in E. by rewrite bool_decide_eq_true_2 in E.
    + destruct (has_column s "Adj_spend_gbp");
        [|rewrite (proj2 (has_column_true s _) Hc) in E];
        cbn in E; unfold setitem, col in E; rewrite !length_map in E;
        by rewrite bool_decide_eq_true_2 in E.
Qed.

(** X14: when the sessions can be aggregated and the orders table has
    neither a "Date" nor an "Order_date" column, the daily aggregator raises
    KeyError on "Order_date" (line 80). *)
Theorem orders_date_required (σ : store) ls lo (s o sa : frame) :
  σ !! ls = Some s → σ !! lo = Some o →
  sessions_agg s = Ok sa →
  "Date" ∉ columns o → "Order_date" ∉ columns o →
  (compute_daily_channel_kpis ls lo σ).1 = Err (KeyError "Order_date").
Proof.
  intros Hs Ho Hsa Hd Hod.
  pose proof (compute_daily_channel_kpis_run σ ls lo s o Hs Ho) as H.
  unfold wp in H.
  assert (daily_kpis s o = Err (KeyError "Order_date")) as E;
    [|rewrite E in H; exact (proj2 H)].
  unfold daily_kpis, merged. rewrite Hsa. cbn [mbind result_bind].
  unfold orders_agg, orders_groups, orders_prepared, orders_dated.
  assert (∀ c, c ≠ "Channel_ft" → c ∉ columns o →
               has_column (orders_channel o).2 c = false) as Hno.
  { intros c Hne Hc. unfold orders_channel. destruct (chan_col_of o); cbn [snd].
    - by apply bool_decide_eq_false_2.
    - rewrite has_column_setitem_scalar by done. by apply bool_decide_eq_false_2. }
  rewrite (Hno "Date") by done. unfold getitem. by rewrite (Hno "Order_date").
Qed.

(** ** The shape of the two tables *)

Lemma date_cell_cases (v : value) : date_cell v = VNaN ∨ ∃ z, date_cell v = VDate z.
Proof.
  unfold date_cell, to_date.
  destruct v; try destruct (parse_date _); eauto.
Qed.

Lemma group_keys_length keys (rs : list row) :
  (length (group_keys keys rs) ≤ length rs)%nat.
Proof.
  unfold group_keys. rewrite merge_sort_Permutation.
  etrans; [apply submseteq_length, (NoDup_submseteq _ (key_of keys <$> rs))|].
  - apply NoDup_remove_dups.
  - intros k Hk. apply elem_of_remove_dups, list_elem_of_fmap in Hk as (r & -> & Hr).
    apply list_elem_of_fmap. exists r. split; [done|].
    by apply list_elem_of_filter in Hr as [_ ?].
  - by rewrite length_fmap.
Qed.

(** X3: the daily table has the twelve columns of lines 67 to 99 in their
    order; in each of its rows the date is a date, the channel is there, and
    the five counters are numbers, never missing. *)
Theorem daily_table_shape (σ σ' : store) ls lo l (s o : frame) :
  σ !! ls = Some s → σ !! lo = Some o →
  compute_daily_channel_kpis ls lo σ = (Ok l, σ') →
  ∃ d, σ' !! l = Some d
    ∧ columns d = ["Date"; "Channel"; "Sessions"; "Clicks"; "Spend"; "Orders";
                   "Revenue"; "CVR"; "CPC_calc"; "CAC"; "AOV"; "ROAS"]
    ∧ ∀ r, r ∈ rows d →
        (∃ z, r !!! "Date" = VDate z) ∧ r !!! "Channel" ≠ VNaN
        ∧ ∀ c, c ∈ ["Sessions"; "Clicks"; "Spend"; "Orders"; "Revenue"] →
               ∃ q, r !!! c = VNum q.
Proof.
  intros Hs Ho Hrun.
  destruct (compute_daily_channel_kpis_returns _ _ _ _ _ _ _ Hs Ho Hrun)
    as (d & Hd & Hl & _).
  exists d. split; [done|].
  destruct (daily_kpis_inv _ _ _ Hd) as (m & _ & Hcols & _).
  split; [done|]. intros r Hr.
  destruct (daily_row_present _ _ _ _ Hd Hr) as [Hp (x & _ & Hx)].
  unfold present, daily_key, key_of in Hp. cbn [map] in Hp.
  apply Forall_cons in Hp as [Hdate Hp]. apply Forall_cons in Hp as [Hchan _].
  split; [|split; [done|]].
  - unfold daily_key, key_of, session_key in Hx. cbn [map] in Hx.
    injection Hx as Hx _.
    destruct (date_cell_cases (x !!! "Date")) as [E|[z E]];
      rewrite E in Hx; [by rewrite <- Hx in Hdate|eauto].
  - intros c Hc. exact (daily_kpis_numeric _ _ _ Hd r c Hr Hc).
Qed.

(** X4: the summary has the eleven columns of lines 108 to 120 in their
    order, and exactly one row for each channel of the daily table, rows
    without a channel left out. *)
Theorem summary_table_shape (σ σ' : store) ld l (d : frame) :
  σ !! ld = Some d → channel_summary ld σ = (Ok l, σ') →
  ∃ out, σ' !! l = Some out
    ∧ columns out = ["Channel"; "Sessions"; "Clicks"; "Spend"; "Orders";
                     "Revenue"; "CVR"; "CPC"; "CAC"; "AOV"; "ROAS"]
    ∧ NoDup ((λ r : row, r !!! "Channel") <$> rows out)
    ∧ ∀ ch, ch ∈ (λ r : row, r !!! "Channel") <$> rows out
            ↔ ch ≠ VNaN ∧ ∃ x, x ∈ rows d ∧ x !!! "Channel" = ch.
Proof.
  intros Hd Hrun.
  destruct (channel_summary_returns _ _ _ _ _ Hd Hrun) as (out & Hs & Hl & _).
  exists out. split; [done|].
  destruct (summary_inv _ _ Hs) as (g & Hg & Hperm & _).
  destruct (summary_ok _ _ Hg) as (out' & Hs' & Hcols & _).
  rewrite Hs in Hs'. injection Hs' as <-. split; [done|].
  destruct (summary_totals_ok _ _ Hg) as (_ & Hkeys & _).
  assert ((λ r : row, r !!! "Channel") <$> rows out
          ≡ₚ (λ r : row, r !!! "Channel") <$> rows g) as Hch.
  { rewrite Hperm, (map_fmap (with_ratios "CPC")), <- list_fmap_compose.
    rewrite (list_fmap_ext _ (λ r : row, r !!! "Channel") (rows g)); [done|].
    intros _ r _. cbn.
    apply with_ratios_counter; [by left|]. rewrite !elem_of_cons. auto. }
  assert ((λ v : value, [v]) <$> ((λ r : row, r !!! "Channel") <$> rows g)
          = group_keys ["Channel"] (rows d)) as Hk.
  { by rewrite <- Hkeys, <- list_fmap_compose. }
  split.
  - rewrite Hch. apply (NoDup_fmap_1 (λ v : value, [v])). rewrite Hk.
    apply NoDup_group_keys.
  - intros ch. rewrite Hch.
    assert (ch ∈ (λ r : row, r !!! "Channel") <$> rows g
            ↔ [ch] ∈ group_keys ["Channel"] (rows d)) as ->.
    { rewrite <- Hk. split.
      - intros H. apply list_elem_of_fmap. eauto.
      - intros (v & [= ->] & H)%list_elem_of_fmap. done. }
    rewrite elem_of_group_keys. split.
    + intros (x & Hx & Hv & [= Hkx]). split; [|eauto].
      apply valid_key_present in Hv. unfold present, key_of in Hv. cbn [map] in Hv.
      apply Forall_cons in Hv as [Hv _]. by rewrite Hkx in Hv.
    + intros (Hne & x & Hx & Hkx). exists x. split; [done|]. split.
      * apply valid_key_present. unfold present, key_of. cbn [map].
        apply Forall_cons. split; [by rewrite Hkx|apply Forall_nil_2].
      * unfold key_of. cbn [map]. by rewrite Hkx.
Qed.

(** X5: aggregation makes no rows: the daily table has at most as many rows
    as the sessions table, and the summary at most as many as the daily
    table. *)
Theorem tables_never_grow (σ σ1 σ2 : store) ls lo ld lc (s o : frame) :
  σ !! ls = Some s → σ !! lo = Some o →
  compute_daily_channel_kpis ls lo σ = (Ok ld, σ1) →
  channel_summary ld σ1 = (Ok lc, σ2) →
  ∃ d out, σ1 !! ld = Some d ∧ σ2 !! lc = Some out
    ∧ (length (rows out) ≤ length (rows d) ≤ length (rows s))%nat.
Proof.
  intros Hs Ho Hrun Hrun2.
  destruct (compute_daily_channel_kpis_returns _ _ _ _ _ _ _ Hs Ho Hrun)
    as (d & Hd & Hld & _).
  destruct (channel_summary_returns _ _ _ _ _ Hld Hrun2) as (out & Hout & Hlc & _).
  exists d, out. split; [done|]. split; [done|]. split.
  - destruct (summary_inv _ _ Hout) as (g & Hg & Hperm & _).
    destruct (summary_totals_ok _ _ Hg) as (_ & Hkeys & _).
    rewrite Hperm, length_map, <- (length_fmap (key_of ["Channel"])), Hkeys.
    apply group_keys_length.
  - destruct (daily_keys _ _ _ Hd) as (c & _ & Hkeys).
    rewrite <- (length_fmap daily_key), Hkeys.
    etrans; [apply group_keys_length|]. by rewrite length_fmap.
Qed.

(** ** The fit inside the pipeline *)

Lemma response_fit_total (s o d : frame) :
  daily_kpis s o = Ok d → ∃ fit, response_fit d = Ok fit.
Proof.
  intros Hd. destruct (date_totals_total _ _ _ Hd) as [t Ht].
  destruct (date_totals_columns _ _ Ht) as (xs & ys & _ & _ & _ & _ & Hsum & _).
  destruct (decide (length (rows t) < 2)%nat) as [Hlen|Hlen].
  { exists None. apply (response_fit_degenerate _ _ Ht). by left. }
  destruct (decide (qsum xs = 0)) as [Hz|Hz].
  { exists None. apply (response_fit_degenerate _ _ Ht). right.
    unfold column_total. by rewrite <- Hz. }
  destruct (response_fit_regular d t (qsum xs) Ht) as (a & b & _ & _ & _ & _ & _ & H & _);
    [lia|done|done|eauto].
Qed.

(** X6: the response estimator never raises on the daily table of the
    pipeline and leaves the store as it is: [main] ends in the error of the
    first four stages when one of them raises, and returns the two tables
    with the outcome of the fit otherwise. *)
Theorem main_fit_never_raises (σ : store) (a b : loc) :
  match kpi_tables a b σ with
  | (Ok (ld, lc), σ1) =>
      ∃ fit, simple_response_curve ld σ1 = (Ok fit, σ1)
             ∧ main a b σ = (Ok (ld, lc, fit), σ1)
  | (Err e, σ1) => main a b σ = (Err e, σ1)
  end.
Proof.
  rewrite main_unfold.
  destruct (kpi_tables a b σ) as [[[ld lc]|e] σ1] eqn:E; [|done].
  destruct (kpi_tables_inv _ _ _ _ _ _ E) as (s & o & d & out & Hd & _ & Hld & _).
  destruct (response_fit_total _ _ _ Hd) as [fit Hfit].
  exists fit. rewrite (simple_response_curve_run _ _ _ Hld), Hfit. done.
Qed.

Lemma zip_with_fmap_same {A B C} (F : A → B → C) (h : A → B) (l : list A) :
  zip_with F l (h <$> l) = (λ x, F x (h x)) <$> l.
Proof. induction l as [|x l IH]; [done|]. cbn. by rewrite IH. Qed.

Lemma ssr_on_line (xs : list Qc) (a b a' b' : Qc) :
  ssr xs ((λ x, a + b * x) <$> xs) a' b'
  = qsum (map (λ x, ((a - a') + (b - b') * x) * ((a - a') + (b - b') * x)) xs).
Proof.
  unfold ssr. rewrite zip_with_fmap_same. rewrite <- map_fmap. f_equal.
  apply map_ext. intros x. ring.
Qed.

Lemma ssr_line_zero (xs : list Qc) (a b : Qc) :
  ssr xs ((λ x, a + b * x) <$> xs) a b = 0.
Proof.
  rewrite ssr_on_line. induction xs as [|x xs IH]; [done|].
  cbn [map]. rewrite qsum_cons, IH. ring.
Qed.

(** X7: when the totals by date lie on a line, Revenue = a + b·Spend at
    every date, with two different spends and a total spend that is not 0,
    the response estimator returns this intercept and this slope. *)
Theorem response_fit_exact_on_line (σ : store) ld (d t : frame) (xs : list Qc)
    (a b x1 x2 : Qc) :
  σ !! ld = Some d → date_totals d = Ok t →
  col t "Spend" = VNum <$> xs →
  col t "Revenue" = VNum <$> ((λ x, a + b * x) <$> xs) →
  qsum xs ≠ 0 → x1 ∈ xs → x2 ∈ xs → x1 ≠ x2 →
  simple_response_curve ld σ = (Ok (Some (a, b)), σ).
Proof.
  intros Hd Ht Hx Hy Hsum H1 H2 Hne.
  assert (Inj (=) (=) VNum) as Hinj by (intros x y E; by injection E).
  destruct (date_totals_columns _ _ Ht)
    as (xs' & ys' & Hx' & _ & _ & _ & Hs & Hlen & _).
  rewrite Hx in Hx'. apply (inj (fmap VNum)) in Hx'. subst xs'.
  assert (2 ≤ length (rows t))%nat as Hlen2.
  { rewrite <- Hlen. destruct xs as [|y [|y' xs]]; cbn; [|  |lia].
    - by apply elem_of_nil in H1.
    - apply list_elem_of_singleton in H1, H2. congruence. }
  destruct (response_fit_regular d t (qsum xs) Ht Hlen2 Hs Hsum)
    as (a' & b' & xs0 & ys0 & Hx0 & Hy0 & _ & Hfit & Hmin).
  rewrite Hx in Hx0. apply (inj (fmap VNum)) in Hx0. subst xs0.
  rewrite Hy in Hy0. apply (inj (fmap VNum)) in Hy0. subst ys0.
  rewrite (simple_response_curve_run _ _ _ Hd), Hfit.
  assert (ssr xs ((λ x, a + b * x) <$> xs) a' b' = 0) as Hz.
  { apply Qcle_antisym.
    - etrans; [apply (Hmin a b)|]. rewrite ssr_line_zero. apply Qcle_refl.
    - rewrite ssr_on_line. apply qsum_squares_nonneg. }
  rewrite ssr_on_line in Hz.
  pose proof (qsum_squares_zero _ _ Hz) as Hres.
  pose proof (Hres x1 H1) as E1. pose proof (Hres x2 H2) as E2. cbn beta in E1, E2.
  assert ((b - b') * (x1 - x2) = 0) as Hb.
  { transitivity ((a - a' + (b - b') * x1) - (a - a' + (b - b') * x2)); [ring|].
    rewrite E1, E2. ring. }
  apply Qcmult_integral in Hb as [Hb|Hb].
  - assert (b' = b) as -> by (rewrite <- (Qcplus_0_r b'), <- Hb; ring).
    assert (a' = a) as ->; [|done].
    rewrite <- (Qcplus_0_r a'), <- E1. ring.
  - exfalso. apply Hne. rewrite <- (Qcplus_0_r x2), <- Hb. ring.
Qed.

(** ** Cleaning

    What [clean_column], the loops over it and the two cleaning functions
    compute from the contents of the table they are given. *)

Definition cleaned_column (g : value → result value) (c : string) (df : frame)
    : result frame :=
  if has_column df c then map_column g c df else Ok df.

Fixpoint cleaned_columns (g : value → result value) (cs : list string) (df : frame)
    : result frame :=
  match cs with
  | [] => Ok df
  | c :: cs => df' ← cleaned_column g c df; cleaned_columns g cs df'
  end.

Definition sessions_cleaned (df : frame) : result frame :=
  df ← cleaned_column to_date "Date" df;
  df ← cleaned_columns to_numeric
         ["Sessions"; "Clicks"; "Spend_gbp"; "Adj_spend_gbp"; "CTR"; "CPC"] df;
  cleaned_columns astype_str_strip
    ["Channel"; "Source"; "Medium"; "Campaign"; "Department"] df.

Definition orders_dated_copy (df : frame) : result frame :=
  if has_column df "Order_date" then
    df ← map_column to_date "Order_date" df;
    d ← getitem df "Order_date";
    setitem df "Date" d
  else Ok df.

Definition orders_cleaned (df : frame) : result frame :=
  df ← orders_dated_copy df;
  df ← cleaned_column to_numeric "Revenue_gbp" df;
  df ← cleaned_column to_numeric "Items" df;
  cleaned_columns astype_str_strip ["Channel_ft"; "Channel"] df.

(** The outcome of a step that works on the object [l] in place. *)
Definition in_place (σ : store) (l : loc) (r : result frame)
    (res : result ()) (σ' : store) : Prop :=
  match r with
  | Ok f' => res = Ok () ∧ σ' = <[l := f']> σ
  | Err e => res = Err e
  end.

(** The outcome of a stage that returns a new object. *)
Definition returns_new (σ : store) (r : result frame)
    (res : result loc) (σ' : store) : Prop :=
  match r with
  | Ok f' => res = Ok (fresh (dom σ)) ∧ σ' = <[fresh (dom σ) := f']> σ
  | Err e => res = Err e
  end.

Lemma clean_column_run (σ : store) l f (g : value → result value) c :
  wp (clean_column l g c) (<[l := f]> σ) (in_place σ l (cleaned_column g c f)).
Proof.
  unfold clean_column, cleaned_column. apply wp_bind, wp_in_columns.
  destruct (has_column f c).
  - apply wp_update. by destruct (map_column g c f).
  - by apply wp_ret.
Qed.

Lemma for_each_clean_run (σ : store) l (g : value → result value) cs :
  ∀ f, wp (for_each cs (clean_column l g)) (<[l := f]> σ)
          (in_place σ l (cleaned_columns g cs f)).
Proof.
  induction cs as [|c cs IH]; intros f; cbn [for_each cleaned_columns].
  - by apply wp_ret.
  - apply wp_bind. eapply wp_mono; [apply clean_column_run|].
    intros r σ' H. unfold in_place in H.
    destruct (cleaned_column g c f) as [f'|e]; cbn [mbind result_bind].
    + destruct H as [-> ->]. apply IH.
    + by subst r.
Qed.

Lemma clean_sessions_run (σ : store) l f :
  σ !! l = Some f →
  wp (clean_sessions l) σ (returns_new σ (sessions_cleaned f)).
Proof.
  intros Hl. unfold clean_sessions, sessions_cleaned.
  apply wp_bind, wp_copy. rewrite Hl.
  apply wp_bind. eapply wp_mono; [apply clean_column_run|].
  intros r σ1 H. unfold in_place in H.
  destruct (cleaned_column to_date "Date" f) as [f1|e]; cbn [mbind result_bind];
    [destruct H as [-> ->]|by subst r].
  apply wp_bind. eapply wp_mono; [apply for_each_clean_run|].
  intros r σ2 H. unfold in_place in H.
  destruct (cleaned_columns to_numeric _ f1) as [f2|e]; cbn [mbind result_bind];
    [destruct H as [-> ->]|by subst r].
  apply wp_bind. eapply wp_mono; [apply for_each_clean_run|].
  intros r σ3 H. unfold in_place in H.
  destruct (cleaned_columns astype_str_strip _ f2) as [f3|e];
    [destruct H as [-> ->]|by subst r].
  by apply wp_ret.
Qed.

Lemma clean_orders_run (σ : store) l f :
  σ !! l = Some f →
  wp (clean_orders l) σ (returns_new σ (orders_cleaned f)).
Proof.
  intros Hl. unfold clean_orders, orders_cleaned, orders_dated_copy.
  apply wp_bind, wp_copy. rewrite Hl.
  apply wp_bind, wp_in_columns, wp_bind.
  apply (wp_mono _ _ (in_place σ (fresh (dom σ))
                        (if has_column f "Order_date"
                         then df ← map_column to_date "Order_date" f;
                              d ← getitem df "Order_date"; setitem df "Date" d
                         else Ok f))).
  { destruct (has_column f "Order_date"); [|by apply wp_ret].
    apply wp_bind, wp_update.
    destruct (map_column to_date "Order_date" f) as [f1|e]; [|done].
    apply wp_update. cbn [mbind result_bind].
    by destruct (d ← getitem f1 "Order_date"; setitem f1 "Date" d). }
  intros r σ1 H. unfold in_place in H.
  match type of H with
  | match ?x with _ => _ end =>
      destruct x as [f1|e]; cbn [mbind result_bind];
      [destruct H as [-> ->]|by subst r]
  end.
  apply wp_bind. eapply wp_mono; [apply clean_column_run|].
  intros r σ2 H. unfold in_place in H.
  destruct (cleaned_column to_numeric "Revenue_gbp" f1) as [f2|e];
    cbn [mbind result_bind]; [destruct H as [-> ->]|by subst r].
  apply wp_bind. eapply wp_mono; [apply clean_column_run|].
  intros r σ3 H. unfold in_place in H.
  destruct (cleaned_column to_numeric "Items" f2) as [f3|e];
    cbn [mbind result_bind]; [destruct H as [-> ->]|by subst r].
  apply wp_bind. eapply wp_mono; [apply for_each_clean_run|].
  intros r σ4 H. unfold in_place in H.
  destruct (cleaned_columns astype_str_strip _ f3) as [f4|e];
    [destruct H as [-> ->]|by subst r].
  by apply wp_ret.
Qed.

(** *** Cells that cleaning leaves as they are *)

Lemma rstrip_idemp (s : string) : rstrip (rstrip s) = rstrip s.
Proof.
  induction s as [|a s IH]; [done|]. cbn [rstrip].
  destruct (rstrip s) as [|b t] eqn:E.
  - destruct (is_space a) eqn:Ea; [done|]. cbn [rstrip]. by rewrite Ea.
  - cbn [rstrip]. cbn [rstrip] in IH. by rewrite IH.
Qed.

(** A text that does not begin with white space. *)
Definition no_leading_space (s : string) : Prop :=
  match s with
  | EmptyString => True
  | String a _ => is_space a = false
  end.

Lemma lstrip_no_leading_space (s : string) : no_leading_space (lstrip s).
Proof.
  induction s as [|a s IH]; [done|]. cbn [lstrip].
  by destruct (is_space a) eqn:Ea.
Qed.

Lemma lstrip_id (s : string) : no_leading_space s → lstrip s = s.
Proof. destruct s as [|a s]; [done|]. cbn. by intros ->. Qed.

Lemma rstrip_no_leading_space (s : string) :
  no_leading_space s → no_leading_space (rstrip s).
Proof.
  destruct s as [|a s]; [done|]. cbn [no_leading_space rstrip]. intros Ha.
  destruct (rstrip s); by rewrite ?Ha.
Qed.

Lemma strip_idemp (s : string) : strip (strip s) = strip s.
Proof.
  unfold strip.
  rewrite (lstrip_id (rstrip (lstrip s))), rstrip_idemp; [done|].
  apply rstrip_no_leading_space, lstrip_no_leading_space.
Qed.

(** The cell [g] makes of a cell, missing where [g] raises. *)
Definition clean_cell (g : value → result value) (v : value) : value :=
  match g v with Ok y => y | Err _ => VNaN end.

(** [g] leaves what it returns as it is. *)
Definition settles (g : value → result value) : Prop :=
  ∀ v y, g v = Ok y → g y = Ok y.

Lemma to_date_settles : settles to_date.
Proof.
  intros v y. unfold to_date.
  destruct v; try destruct (parse_date _); intros [= <-]; done.
Qed.

Lemma to_numeric_settles : settles to_numeric.
Proof.
  intros v y. unfold to_numeric.
  destruct v; try destruct (parse_float _); intros [= <-]; done.
Qed.

Lemma astype_str_strip_settles : settles astype_str_strip.
Proof.
  intros v y. unfold astype_str_strip. intros [= <-]. by rewrite strip_idemp.
Qed.

Lemma to_date_fixed (y : value) :
  to_date y = Ok y → y = VNaN ∨ ∃ z, y = VDate z.
Proof.
  unfold to_date. destruct y; try destruct (parse_date _); intros [=]; eauto.
Qed.

Lemma to_numeric_fixed (y : value) :
  to_numeric y = Ok y → y = VNaN ∨ ∃ q, y = VNum q.
Proof.
  unfold to_numeric. destruct y; try destruct (parse_float _); intros [=]; eauto.
Qed.

Lemma astype_str_strip_fixed (y : value) :
  astype_str_strip y = Ok y → ∃ t, y = VStr t ∧ strip t = t.
Proof.
  unfold astype_str_strip. intros [= E].
  destruct y as [| |t|]; try discriminate E. injection E as E.
  exists t. split; [done|]. rewrite <- E at 1. by rewrite strip_idemp.
Qed.

(** Column [c] of the table holds only cells that [g] leaves as they are. *)
Definition fixed (g : value → result value) (c : string) (df : frame) : Prop :=
  c ∈ columns df → ∀ r, r ∈ rows df → ∃ y, r !! c = Some y ∧ g y = Ok y.

Lemma frame_eta (df : frame) : {| columns := columns df; rows := rows df |} = df.
Proof. by destruct df. Qed.

Lemma map_column_eq (g : value → result value) c (df : frame) :
  c ∈ columns df → (∀ r, r ∈ rows df → is_ok (g (r !!! c))) →
  map_column g c df
  = Ok {| columns := columns df;
          rows := map (λ r : row, <[c := clean_cell g (r !!! c)]> r) (rows df) |}.
Proof.
  intros Hc Hok. unfold map_column. rewrite (getitem_in _ _ Hc).
  cbn [mbind result_bind]. unfold col. rewrite map_res_map.
  rewrite (map_res_ok _ (λ r : row, clean_cell g (r !!! c))).
  - cbn [mbind result_bind]. rewrite setitem_map. unfold add_column.
    by rewrite bool_decide_eq_true_2.
  - intros r Hr. unfold compose, clean_cell. specialize (Hok r Hr).
    by destruct (g (r !!! c)).
Qed.

Lemma cleaned_column_ok (g : value → result value) c (df df' : frame) :
  cleaned_column g c df = Ok df' →
  columns df' = columns df
  ∧ rows df' = map (λ r : row, if has_column df c
                               then <[c := clean_cell g (r !!! c)]> r else r)
                   (rows df)
  ∧ (c ∈ columns df → ∀ r, r ∈ rows df → is_ok (g (r !!! c))).
Proof.
  unfold cleaned_column. destruct (has_column df c) eqn:Hc.
  - intros (_ & Hok & Hcols & Hrows)%(map_column_ok _ VNaN).
    split; [done|]. split; [done|]. auto.
  - intros [= <-]. split; [done|]. split; [by rewrite map_id|].
    intros Hin%has_column_true. congruence.
Qed.

Lemma cleaned_column_fixed_id (g : value → result value) c (df : frame) :
  fixed g c df → cleaned_column g c df = Ok df.
Proof.
  intros Hfix. unfold cleaned_column. destruct (has_column df c) eqn:Hc; [|done].
  apply has_column_true in Hc. rewrite map_column_eq; [|done|].
  - rewrite <- (frame_eta df) at 3. do 2 f_equal.
    rewrite <- (map_id (rows df)) at 2. apply map_ext_in. intros r Hr%list_elem_of_In.
    destruct (Hfix Hc r Hr) as (y & Hy & Hg). apply insert_id.
    unfold clean_cell. by rewrite (lookup_total_correct _ _ _ Hy), Hg.
  - intros r Hr. destruct (Hfix Hc r Hr) as (y & Hy & Hg).
    by rewrite (lookup_total_correct _ _ _ Hy), Hg.
Qed.

Lemma cleaned_column_fixed (g : value → result value) c (df df' : frame) :
  settles g → cleaned_column g c df = Ok df' → fixed g c df'.
Proof.
  intros Hg (Hcols & Hrows & Hok)%cleaned_column_ok Hc r' Hr'.
  rewrite Hcols in Hc. rewrite Hrows, (proj2 (has_column_true _ _) Hc) in Hr'.
  apply list_elem_of_In, in_map_iff in Hr' as (r & <- & Hr%list_elem_of_In).
  exists (clean_cell g (r !!! c)). split; [apply lookup_insert_eq|].
  unfold clean_cell. specialize (Hok Hc r Hr).
  destruct (g (r !!! c)) as [y|] eqn:E; [|done]. by apply (Hg (r !!! c)).
Qed.

Lemma cleaned_column_fixed_other (g g' : value → result value) c c' (df df' : frame) :
  c ≠ c' → cleaned_column g' c' df = Ok df' → fixed g c df → fixed g c df'.
Proof.
  intros Hne (Hcols & Hrows & _)%cleaned_column_ok Hfix Hc r' Hr'.
  rewrite Hcols in Hc. rewrite Hrows in Hr'.
  apply list_elem_of_In, in_map_iff in Hr' as (r & <- & Hr%list_elem_of_In).
  destruct (Hfix Hc r Hr) as (y & Hy & Hgy). exists y. split; [|done].
  destruct (has_column df c'); [|done]. by rewrite lookup_insert_ne.
Qed.

(** *** The cleaned tables *)

Lemma cleaned_column_rows (g : value → result value) c (df df' : frame)
    (P : row → Prop) :
  cleaned_column g c df = Ok df' →
  (∀ r v, P r → P (<[c := v]> r)) →
  (∀ r, r ∈ rows df → P r) → ∀ r, r ∈ rows df' → P r.
Proof.
  intros (_ & Hrows & _)%cleaned_column_ok Hins HP r' Hr'. rewrite Hrows in Hr'.
  apply list_elem_of_In, in_map_iff in Hr' as (r & <- & Hr%list_elem_of_In).
  destruct (has_column df c); auto.
Qed.

Lemma cleaned_columns_rows (g : value → result value) cs (P : row → Prop) :
  (∀ c r v, c ∈ cs → P r → P (<[c := v]> r)) →
  ∀ df df', cleaned_columns g cs df = Ok df' →
  (∀ r, r ∈ rows df → P r) → ∀ r, r ∈ rows df' → P r.
Proof.
  induction cs as [|c cs IH]; intros Hins df df'; cbn [cleaned_columns].
  - by intros [= <-].
  - destruct (cleaned_column g c df) as [df1|] eqn:E; [|done].
    cbn [mbind result_bind]. intros H HP.
    apply (IH (λ c' r v Hc', Hins c' r v (list_elem_of_further _ _ _ Hc')) df1 df' H).
    apply (cleaned_column_rows _ _ _ _ P E); [|done].
    intros r v. apply Hins. left.
Qed.

Lemma cleaned_columns_shape (g : value → result value) cs :
  ∀ df df', cleaned_columns g cs df = Ok df' →
  columns df' = columns df ∧ length (rows df') = length (rows df).
Proof.
  induction cs as [|c cs IH]; intros df df'; cbn [cleaned_columns].
  - by intros [= <-].
  - destruct (cleaned_column g c df) as [df1|] eqn:E; [|done].
    cbn [mbind result_bind]. intros [Hc Hl]%IH.
    apply cleaned_column_ok in E as (Hc1 & Hr1 & _).
    split; [congruence|]. by rewrite Hl, Hr1, length_map.
Qed.

Lemma fixed_insert (g : value → result value) c c' (df df' : frame) :
  c ≠ c' → columns df' = columns df →
  (∀ r', r' ∈ rows df' → ∃ r v, r ∈ rows df ∧ (r' = r ∨ r' = <[c' := v]> r)) →
  fixed g c df → fixed g c df'.
Proof.
  intros Hne Hcols Hrows Hfix Hc r' Hr'. rewrite Hcols in Hc.
  destruct (Hrows r' Hr') as (r & v & Hr & Hcase).
  destruct (Hfix Hc r Hr) as (y & Hy & Hgy). exists y. split; [|done].
  destruct Hcase as [->| ->]; [done|]. by rewrite lookup_insert_ne.
Qed.

Lemma cleaned_columns_fixed_other (g g' : value → result value) c cs :
  c ∉ cs → ∀ df df', cleaned_columns g' cs df = Ok df' →
  fixed g c df → fixed g c df'.
Proof.
  induction cs as [|c' cs IH]; intros Hc df df'; cbn [cleaned_columns].
  - by intros [= <-].
  - destruct (cleaned_column g' c' df) as [df1|] eqn:E; [|done].
    cbn [mbind result_bind]. intros H Hfix.
    apply not_elem_of_cons in Hc as [Hne Hc].
    apply (IH Hc df1 df' H). by apply (cleaned_column_fixed_other _ _ _ _ _ _ Hne E).
Qed.

Lemma cleaned_columns_fixed (g : value → result value) cs :
  settles g → NoDup cs →
  ∀ df df', cleaned_columns g cs df = Ok df' → ∀ c, c ∈ cs → fixed g c df'.
Proof.
  intros Hg. induction cs as [|c' cs IH]; intros Hnd df df'; cbn [cleaned_columns].
  - intros _ c Hc. by apply elem_of_nil in Hc.
  - destruct (cleaned_column g c' df) as [df1|] eqn:E; [|done].
    cbn [mbind result_bind]. intros H c Hc.
    apply NoDup_cons in Hnd as [Hc' Hnd].
    apply elem_of_cons in Hc as [->|Hc]; [|by apply (IH Hnd df1)].
    apply (cleaned_columns_fixed_other _ _ _ _ Hc' _ _ H).
    by apply (cleaned_column_fixed _ _ _ _ Hg E).
Qed.

Lemma cleaned_columns_fixed_id (g : value → result value) cs (df : frame) :
  (∀ c, c ∈ cs → fixed g c df) → cleaned_columns g cs df = Ok df.
Proof.
  induction cs as [|c cs IH]; intros Hfix; cbn [cleaned_columns]; [done|].
  rewrite cleaned_column_fixed_id by (apply Hfix; left).
  cbn [mbind result_bind]. apply IH. intros c' Hc'. apply Hfix. by right.
Qed.

Lemma cleaned_column_total (g : value → result value) c (df : frame) :
  (c ∈ columns df → ∀ r, r ∈ rows df → is_ok (g (r !!! c))) →
  ∃ df', cleaned_column g c df = Ok df'.
Proof.
  intros Hok. unfold cleaned_column. destruct (has_column df c) eqn:Hc; [|eauto].
  apply has_column_true in Hc. rewrite map_column_eq; eauto.
Qed.

Lemma cleaned_columns_total (g : value → result value) cs :
  (∀ v, is_ok (g v)) → ∀ df, ∃ df', cleaned_columns g cs df = Ok df'.
Proof.
  intros Hg. induction cs as [|c cs IH]; intros df; cbn [cleaned_columns]; [eauto|].
  destruct (cleaned_column_total g c df) as [df1 ->]; [auto|].
  cbn [mbind result_bind]. apply IH.
Qed.

Lemma to_numeric_total (v : value) : is_ok (to_numeric v).
Proof. unfold to_numeric. destruct v; try destruct (parse_float _); done. Qed.

Lemma astype_str_strip_total (v : value) : is_ok (astype_str_strip v).
Proof. done. Qed.

(** The names of the columns that [clean_sessions] makes numbers and
    texts. *)
Definition session_numbers : list string :=
  ["Sessions"; "Clicks"; "Spend_gbp"; "Adj_spend_gbp"; "CTR"; "CPC"].

Definition session_texts : list string :=
  ["Channel"; "Source"; "Medium"; "Campaign"; "Department"].

Lemma sessions_cleaned_ok (df df' : frame) :
  sessions_cleaned df = Ok df' →
  columns df' = columns df ∧ length (rows df') = length (rows df)
  ∧ fixed to_date "Date" df'
  ∧ (∀ c, c ∈ session_numbers → fixed to_numeric c df')
  ∧ (∀ c, c ∈ session_texts → fixed astype_str_strip c df').
Proof.
  unfold sessions_cleaned. intros H.
  destruct (cleaned_column to_date "Date" df) as [f1|] eqn:E1; [|done].
  cbn [mbind result_bind] in H.
  destruct (cleaned_columns to_numeric _ f1) as [f2|] eqn:E2; [|done].
  cbn [mbind result_bind] in H.
  pose proof (cleaned_column_ok _ _ _ _ E1) as (Hc1 & Hr1 & _).
  pose proof (cleaned_columns_shape _ _ _ _ E2) as [Hc2 Hl2].
  pose proof (cleaned_columns_shape _ _ _ _ H) as [Hc3 Hl3].
  split; [congruence|]. split; [by rewrite Hl3, Hl2, Hr1, length_map|].
  assert ("Date" ∉ session_numbers) as Hdn by by apply (bool_decide_unpack _).
  assert ("Date" ∉ session_texts) as Hdt by by apply (bool_decide_unpack _).
  assert (NoDup session_numbers) as Hnn by by apply (bool_decide_unpack _).
  assert (NoDup session_texts) as Hnt by by apply (bool_decide_unpack _).
  split; [|split].
  - apply (cleaned_columns_fixed_other _ _ "Date" session_texts Hdt _ _ H).
    apply (cleaned_columns_fixed_other _ _ "Date" session_numbers Hdn _ _ E2).
    apply (cleaned_column_fixed _ _ _ _ to_date_settles E1).
  - intros c Hc.
    assert (c ∉ session_texts) as Hne.
    { unfold session_numbers in Hc. rewrite !elem_of_cons in Hc.
      destruct Hc as [->|[->|[->|[->|[->|[->|[]%elem_of_nil]]]]]];
        by apply (bool_decide_unpack _). }
    apply (cleaned_columns_fixed_other _ _ c session_texts Hne _ _ H).
    apply (cleaned_columns_fixed _ session_numbers to_numeric_settles Hnn _ _ E2 c Hc).
  - apply (cleaned_columns_fixed _ session_texts astype_str_strip_settles Hnt _ _ H).
Qed.

Lemma clean_sessions_returns (σ σ' : store) l l' (df : frame) :
  σ !! l = Some df → clean_sessions l σ = (Ok l', σ') →
  ∃ df', sessions_cleaned df = Ok df' ∧ l' = fresh (dom σ) ∧ σ' = <[l' := df']> σ.
Proof.
  intros Hl Hrun.
  pose proof (wp_run _ _ _ _ _ (clean_sessions_run σ l df Hl) Hrun) as H.
  unfold returns_new in H. destruct (sessions_cleaned df) as [df'|]; [|done].
  destruct H as [[= ->] ->]. eauto.
Qed.

Lemma clean_orders_returns (σ σ' : store) l l' (df : frame) :
  σ !! l = Some df → clean_orders l σ = (Ok l', σ') →
  ∃ df', orders_cleaned df = Ok df' ∧ l' = fresh (dom σ) ∧ σ' = <[l' := df']> σ.
Proof.
  intros Hl Hrun.
  pose proof (wp_run _ _ _ _ _ (clean_orders_run σ l df Hl) Hrun) as H.
  unfold returns_new in H. destruct (orders_cleaned df) as [df'|]; [|done].
  destruct H as [[= ->] ->]. eauto.
Qed.

(** X8: the table [clean_sessions] returns has the columns and as many rows
    as its input; its dates are dates or missing, the cells of its six
    numeric columns are numbers or missing, and the cells of its five text
    columns are texts without white space at either end. *)
Theorem clean_sessions_typed (σ σ' : store) l l' (df : frame) :
  σ !! l = Some df → clean_sessions l σ = (Ok l', σ') →
  ∃ df', σ' !! l' = Some df'
    ∧ columns df' = columns df ∧ length (rows df') = length (rows df)
    ∧ ∀ r c, r ∈ rows df' → c ∈ columns df →
        (c = "Date" → r !!! c = VNaN ∨ ∃ z, r !!! c = VDate z)
        ∧ (c ∈ session_numbers → r !!! c = VNaN ∨ ∃ q, r !!! c = VNum q)
        ∧ (c ∈ session_texts → ∃ t, r !!! c = VStr t ∧ strip t = t).
Proof.
  intros Hl Hrun.
  destruct (clean_sessions_returns _ _ _ _ _ Hl Hrun) as (df' & Hc & -> & ->).
  exists df'. split; [apply lookup_insert_eq|].
  destruct (sessions_cleaned_ok _ _ Hc) as (Hcols & Hlen & Hd & Hn & Ht).
  split; [done|]. split; [done|]. intros r c Hr Hin. rewrite <- Hcols in Hin.
  split; [|split].
  - intros ->. destruct (Hd Hin r Hr) as (y & Hy & Hg).
    rewrite (lookup_total_correct _ _ _ Hy). by apply to_date_fixed.
  - intros Hc'. destruct (Hn c Hc' Hin r Hr) as (y & Hy & Hg).
    rewrite (lookup_total_correct _ _ _ Hy). by apply to_numeric_fixed.
  - intros Hc'. destruct (Ht c Hc' Hin r Hr) as (y & Hy & Hg).
    rewrite (lookup_total_correct _ _ _ Hy). by apply astype_str_strip_fixed.
Qed.

(** X9: cleaning a cleaned sessions table changes nothing: [clean_sessions]
    on the table it returned returns a table with the same contents. *)
Theorem clean_sessions_idempotent (σ σ1 : store) l l1 (df : frame) :
  σ !! l = Some df → clean_sessions l σ = (Ok l1, σ1) →
  ∃ df1 l2 σ2, σ1 !! l1 = Some df1
    ∧ clean_sessions l1 σ1 = (Ok l2, σ2) ∧ σ2 !! l2 = Some df1.
Proof.
  intros Hl Hrun.
  destruct (clean_sessions_returns _ _ _ _ _ Hl Hrun) as (df1 & Hc & -> & ->).
  set (l1 := fresh (dom σ)). set (σ1 := <[l1 := df1]> σ).
  assert (σ1 !! l1 = Some df1) as Hl1 by apply lookup_insert_eq.
  destruct (sessions_cleaned_ok _ _ Hc) as (_ & _ & Hd & Hn & Ht).
  assert (sessions_cleaned df1 = Ok df1) as Hc1.
  { unfold sessions_cleaned. fold session_numbers session_texts.
    rewrite (cleaned_column_fixed_id _ _ _ Hd).
    cbn [mbind result_bind]. rewrite (cleaned_columns_fixed_id _ _ _ Hn).
    cbn [mbind result_bind]. by rewrite (cleaned_columns_fixed_id _ _ _ Ht). }
  pose proof (clean_sessions_run σ1 l1 df1 Hl1) as H. unfold wp, returns_new in H.
  rewrite Hc1 in H. destruct H as [H1 H2].
  exists df1, (fresh (dom σ1)), (<[fresh (dom σ1) := df1]> σ1).
  split; [done|]. split; [|apply lookup_insert_eq].
  destruct (clean_sessions l1 σ1) as [r σ2]. cbn in H1, H2. by subst.
Qed.

Lemma map_res_err {A B} (f : A → result B) (l : list A) e :
  map_res f l = Err e → ∃ x, x ∈ l ∧ f x = Err e.
Proof.
  induction l as [|x l IH]; [done|]. cbn [map_res].
  destruct (f x) as [y|e'] eqn:E; cbn [mbind result_bind].
  - destruct (map_res f l) as [ys|e'']; [done|]. cbn [mbind result_bind].
    intros [= ->]. destruct IH as (x' & Hx' & Hf); [done|].
    exists x'. split; [by right|done].
  - intros [= ->]. exists x. split; [by left|done].
Qed.

Lemma to_date_err (v : value) e : to_date v = Err e → e = ValueError.
Proof.
  unfold to_date. destruct v; try destruct (parse_date _); by intros [=].
Qed.

Lemma clean_sessions_raises (σ : store) l (df : frame) e :
  σ !! l = Some df → (clean_sessions l σ).1 = Err e → sessions_cleaned df = Err e.
Proof.
  intros Hl Hrun. pose proof (clean_sessions_run σ l df Hl) as H.
  unfold wp, returns_new in H. rewrite Hrun in H.
  destruct (sessions_cleaned df); [by destruct H|congruence].
Qed.

(** X10: [clean_sessions] raises on nothing but a cell of the "Date" column
    that is no date, which is a ValueError: numbers are coerced and texts
    are made of anything. *)
Theorem clean_sessions_raises_on_dates_only (σ : store) l (df : frame) :
  σ !! l = Some df →
  (("Date" ∈ columns df → ∀ r, r ∈ rows df → is_ok (to_date (r !!! "Date"))) →
   ∃ l' σ', clean_sessions l σ = (Ok l', σ'))
  ∧ ∀ e, (clean_sessions l σ).1 = Err e →
      e = ValueError ∧ "Date" ∈ columns df
      ∧ ∃ r, r ∈ rows df ∧ to_date (r !!! "Date") = Err ValueError.
Proof.
  intros Hl. split.
  - intros Hok.
    destruct (cleaned_column_total to_date "Date" df Hok) as [f1 E1].
    destruct (cleaned_columns_total to_numeric session_numbers to_numeric_total f1)
      as [f2 E2].
    destruct (cleaned_columns_total astype_str_strip session_texts
                astype_str_strip_total f2) as [f3 E3].
    assert (sessions_cleaned df = Ok f3) as Hc.
    { unfold sessions_cleaned. fold session_numbers session_texts.
      rewrite E1. cbn [mbind result_bind]. rewrite E2. done. }
    pose proof (clean_sessions_run σ l df Hl) as H. unfold wp, returns_new in H.
    rewrite Hc in H. destruct H as [H1 H2].
    destruct (clean_sessions l σ) as [r σ']. cbn in H1, H2. subst. eauto.
  - intros e He%(clean_sessions_raises _ _ df); [|done].
    unfold sessions_cleaned in He. fold session_numbers session_texts in He.
    destruct (cleaned_column to_date "Date" df) as [f1|e1] eqn:E1.
    { exfalso. cbn [mbind result_bind] in He.
      destruct (cleaned_columns_total to_numeric session_numbers to_numeric_total f1)
        as [f2 E2]. rewrite E2 in He. cbn [mbind result_bind] in He.
      destruct (cleaned_columns_total astype_str_strip session_texts
                  astype_str_strip_total f2) as [f3 E3]. congruence. }
    cbn [mbind result_bind] in He. injection He as ->.
    unfold cleaned_column in E1. destruct (has_column df "Date") eqn:Hc; [|done].
    apply has_column_true in Hc. unfold map_column in E1.
    rewrite (getitem_in _ _ Hc) in E1. cbn [mbind result_bind] in E1.
    destruct (map_res to_date (col df "Date")) as [vs|e'] eqn:Em.
    { exfalso. cbn [mbind result_bind] in E1. unfold setitem in E1.
      apply map_res_length in Em. unfold col in Em. rewrite length_map in Em.
      by rewrite bool_decide_eq_true_2 in E1. }
    cbn [mbind result_bind] in E1. injection E1 as ->.
    apply map_res_err in Em as (v & Hv & Hf).
    unfold col in Hv. apply list_elem_of_In, in_map_iff in Hv as (r & <- & Hr%list_elem_of_In).
    pose proof (to_date_err _ _ Hf) as ->. eauto.
Qed.

(** A row whose "Date" is its "Order_date", a date or missing. *)
Definition date_copied (r : row) : Prop :=
  ∃ y, r !! "Date" = Some y ∧ r !! "Order_date" = Some y ∧ to_date y = Ok y.

Lemma orders_dated_copy_ok (df df' : frame) :
  orders_dated_copy df = Ok df' →
  length (rows df') = length (rows df)
  ∧ if has_column df "Order_date"
    then columns df' = add_column (columns df) "Date"
         ∧ ∀ r, r ∈ rows df' → date_copied r
    else df' = df.
Proof.
  unfold orders_dated_copy. destruct (has_column df "Order_date") eqn:Hc;
    [|by intros [= <-]].
  destruct (map_column to_date "Order_date" df) as [f0|] eqn:E0; [|done].
  cbn [mbind result_bind].
  pose proof (map_column_ok _ VNaN _ _ _ E0) as (Hin & Hok & Hcols & Hrows).
  rewrite getitem_in by by rewrite Hcols. cbn [mbind result_bind].
  unfold col. rewrite setitem_map. intros [= <-]. cbn [columns rows].
  split; [by rewrite length_map, Hrows, length_map|]. split; [by rewrite Hcols|].
  intros r' Hr'. rewrite Hrows in Hr'.
  apply list_elem_of_In, in_map_iff in Hr' as (r1 & <- & Hr1).
  apply in_map_iff in Hr1 as (r & <- & Hr%list_elem_of_In).
  specialize (Hok r Hr).
  destruct (to_date (r !!! "Order_date")) as [y|] eqn:Ey; [|done].
  exists y. rewrite lookup_total_insert_eq, lookup_insert_eq.
  rewrite lookup_insert_ne by done. rewrite lookup_insert_eq.
  split; [done|]. split; [done|]. by apply (to_date_settles _ _ Ey).
Qed.

(** X11: when the orders table has an "Order_date" column, the table
    [clean_orders] returns has a "Date" column that is its "Order_date"
    column, both of dates or missing cells, whatever "Date" held before;
    without an "Order_date" column no column is made. *)
Theorem clean_orders_date (σ σ' : store) l l' (df : frame) :
  σ !! l = Some df → clean_orders l σ = (Ok l', σ') →
  ∃ df', σ' !! l' = Some df' ∧ length (rows df') = length (rows df)
    ∧ if has_column df "Order_date"
      then columns df' = add_column (columns df) "Date"
           ∧ ∀ r, r ∈ rows df' →
               r !!! "Date" = r !!! "Order_date"
               ∧ (r !!! "Date" = VNaN ∨ ∃ z, r !!! "Date" = VDate z)
      else columns df' = columns df.
Proof.
  intros Hl Hrun.
  destruct (clean_orders_returns _ _ _ _ _ Hl Hrun) as (df' & Hc & -> & ->).
  exists df'. split; [apply lookup_insert_eq|].
  unfold orders_cleaned in Hc.
  destruct (orders_dated_copy df) as [f1|] eqn:E1; [|done].
  cbn [mbind result_bind] in Hc.
  destruct (cleaned_column to_numeric "Revenue_gbp" f1) as [f2|] eqn:E2; [|done].
  cbn [mbind result_bind] in Hc.
  destruct (cleaned_column to_numeric "Items" f2) as [f3|] eqn:E3; [|done].
  cbn [mbind result_bind] in Hc.
  pose proof (orders_dated_copy_ok _ _ E1) as [Hlen1 H1].
  pose proof (cleaned_column_ok _ _ _ _ E2) as (Hc2 & Hr2 & _).
  pose proof (cleaned_column_ok _ _ _ _ E3) as (Hc3 & Hr3 & _).
  pose proof (cleaned_columns_shape _ _ _ _ Hc) as [Hc4 Hl4].
  split; [by rewrite Hl4, Hr3, length_map, Hr2, length_map|].
  assert (∀ P : row → Prop,
            (∀ c r v, c ∈ ["Revenue_gbp"; "Items"; "Channel_ft"; "Channel"] →
                      P r → P (<[c := v]> r)) →
            (∀ r, r ∈ rows f1 → P r) → ∀ r, r ∈ rows df' → P r) as Hind.
  { intros P Hins HP.
    assert (∀ c r v, c ∈ ["Channel_ft"; "Channel"] → P r → P (<[c := v]> r)) as H4.
    { intros c r v Hc'. apply Hins. rewrite !elem_of_cons in Hc'.
      rewrite !elem_of_cons. tauto. }
    apply (cleaned_columns_rows _ _ P H4 _ _ Hc).
    apply (cleaned_column_rows _ _ _ _ P E3);
      [intros r v; apply Hins; rewrite !elem_of_cons; tauto|].
    apply (cleaned_column_rows _ _ _ _ P E2);
      [intros r v; apply Hins; rewrite !elem_of_cons; tauto|done]. }
  destruct (has_column df "Order_date").
  - destruct H1 as [Hcols1 Hcopy]. split; [congruence|]. intros r Hr.
    assert (date_copied r) as (y & Hd & Ho & Hy).
    { revert r Hr. apply Hind; [|done]. intros c r v Hcin (y & Hd & Ho & Hy).
      exists y. rewrite !lookup_insert_ne; [done| |].
      all: intros ->; revert Hcin; by apply (bool_decide_unpack _). }
    rewrite (lookup_total_correct _ _ _ Hd), (lookup_total_correct _ _ _ Ho).
    split; [done|]. by apply to_date_fixed.
  - subst f1. congruence.
Qed.

(** ** The pipeline as a whole *)

Lemma returns_new_run (σ : store) (m : M loc) (df : frame) :
  wp m σ (returns_new σ (Ok df)) →
  m σ = (Ok (fresh (dom σ)), <[fresh (dom σ) := df]> σ).
Proof.
  unfold wp, returns_new. destruct (m σ) as [r σ']. cbn. by intros [-> ->].
Qed.

(** X12: the two tables of the pipeline are the daily table and the summary
    of the cleaned sheets, and the sheets as they were read are still in the
    store, as they were. *)
Theorem kpi_tables_of_cleaned (σ σ1 : store) (a b ld lc : loc) (sraw oraw : frame) :
  σ !! a = Some sraw → σ !! b = Some oraw →
  kpi_tables a b σ = (Ok (ld, lc), σ1) →
  ∃ s o d out,
    sessions_cleaned sraw = Ok s ∧ orders_cleaned oraw = Ok o
    ∧ daily_kpis s o = Ok d ∧ summary d = Ok out
    ∧ σ1 !! ld = Some d ∧ σ1 !! lc = Some out
    ∧ σ1 !! a = Some sraw ∧ σ1 !! b = Some oraw.
Proof.
  intros Ha Hb. unfold kpi_tables. rewrite !run_bind.
  destruct (clean_sessions a σ) as [[ls|?] σa] eqn:E1; [|done]. rewrite !run_bind.
  destruct (clean_orders b σa) as [[lo|?] σb] eqn:E2; [|done]. rewrite !run_bind.
  destruct (compute_daily_channel_kpis ls lo σb) as [[ld'|?] σc] eqn:E3; [|done].
  rewrite !run_bind.
  destruct (channel_summary ld' σc) as [[lc'|?] σd] eqn:E4; [|done].
  cbn [mret M_ret]. intros [= -> -> ->].
  destruct (clean_sessions_returns _ _ _ _ _ Ha E1) as (s & Hs & -> & ->).
  pose proof (fresh_lookup σ) as Hfa. set (la := fresh (dom σ)) in *.
  set (σa := <[la := s]> σ) in *.
  assert (σ ⊆ σa) as Hsub1 by by apply insert_subseteq.
  assert (σa !! b = Some oraw) as Hb1 by by eapply lookup_weaken.
  destruct (clean_orders_returns _ _ _ _ _ Hb1 E2) as (o & Ho & -> & ->).
  pose proof (fresh_lookup σa) as Hfb. set (lb := fresh (dom σa)) in *.
  set (σb := <[lb := o]> σa) in *.
  assert (σa ⊆ σb) as Hsub2 by by apply insert_subseteq.
  assert (σb !! la = Some s) as Hla.
  { eapply lookup_weaken; [|exact Hsub2]. apply lookup_insert_eq. }
  assert (σb !! lb = Some o) as Hlb by apply lookup_insert_eq.
  destruct (compute_daily_channel_kpis_returns _ _ _ _ _ _ _ Hla Hlb E3)
    as (d & Hd & Hld & _ & Hsub3).
  destruct (channel_summary_returns _ _ _ _ _ Hld E4)
    as (out & Hout & Hlc & _ & Hsub4).
  exists s, o, d, out. split; [done|]. split; [done|]. split; [done|].
  split; [done|]. split; [by eapply lookup_weaken|]. split; [done|].
  assert (σ ⊆ σ1) as Hsub.
  { etrans; [exact Hsub1|]. etrans; [exact Hsub2|]. by etrans. }
  split; [exact (lookup_weaken _ _ _ _ Ha Hsub)|exact (lookup_weaken _ _ _ _ Hb Hsub)].
Qed.

(** X13: once the sheets can be cleaned and the daily table of the cleaned
    sheets can be made, nothing raises after: [main] returns the daily
    table, a summary of it and the outcome of the fit. *)
Theorem pipeline_succeeds (σ : store) (a b : loc) (sraw oraw s o d : frame) :
  σ !! a = Some sraw → σ !! b = Some oraw →
  sessions_cleaned sraw = Ok s → orders_cleaned oraw = Ok o →
  daily_kpis s o = Ok d →
  ∃ ld lc fit σ1 out,
    main a b σ = (Ok (ld, lc, fit), σ1)
    ∧ σ1 !! ld = Some d ∧ summary d = Ok out ∧ σ1 !! lc = Some out
    ∧ response_fit d = Ok fit.
Proof.
  intros Ha Hb Hs Ho Hd.
  pose proof (clean_sessions_run σ a sraw Ha) as E1. rewrite Hs in E1.
  apply returns_new_run in E1.
  pose proof (fresh_lookup σ) as Hfa. set (la := fresh (dom σ)) in *.
  set (σa := <[la := s]> σ) in *.
  assert (σ ⊆ σa) as Hsub1 by by apply insert_subseteq.
  assert (σa !! b = Some oraw) as Hb1 by by eapply lookup_weaken.
  pose proof (clean_orders_run σa b oraw Hb1) as E2. rewrite Ho in E2.
  apply returns_new_run in E2.
  pose proof (fresh_lookup σa) as Hfb. set (lb := fresh (dom σa)) in *.
  set (σb := <[lb := o]> σa) in *.
  assert (σb !! la = Some s) as Hla.
  { eapply lookup_weaken; [apply lookup_insert_eq|by apply insert_subseteq]. }
  assert (σb !! lb = Some o) as Hlb by apply lookup_insert_eq.
  destruct (compute_daily_channel_kpis_total _ _ _ _ _ _ Hla Hlb Hd)
    as (ld & σc & E3 & Hld).
  destruct (summary_totals_total _ _ _ Hd) as [g Hg].
  destruct (summary_ok _ _ Hg) as (out & Hout & _).
  destruct (channel_summary_total _ _ _ _ Hld Hout) as (lc & σd & E4 & Hlc).
  destruct (response_fit_total _ _ _ Hd) as [fit Hfit].
  destruct (channel_summary_returns _ _ _ _ _ Hld E4) as (_ & _ & _ & _ & Hsub4).
  assert (σd !! ld = Some d) as Hld' by by eapply lookup_weaken.
  exists ld, lc, fit, σd, out.
  split; [|done].
  rewrite main_unfold. unfold kpi_tables. rewrite !run_bind, E1.
  rewrite !run_bind, E2. rewrite !run_bind, E3. rewrite !run_bind, E4.
  cbn [mret M_ret]. by rewrite (simple_response_curve_run _ _ _ Hld'), Hfit.
Qed.

(** ** The order of the daily table *)

Lemma value_leb_total (a b : value) : value_leb a b = true ∨ value_leb b a = true.
Proof.
  destruct a as [x| |x|x], b as [y| |y|y]; cbn [value_leb value_rank];
    rewrite ?bool_decide_eq_true; try lia.
  - apply (total Qcle).
  - apply String.leb_total.
Qed.

Global Instance key_le_total : Total key_le.
Proof.
  intros a. induction a as [|x a IH]; intros [|y b]; unfold key_le;
    cbn [key_leb]; [by left|by left|by right|].
  destruct (decide (x = y)) as [->|Hne].
  - rewrite decide_True by done. apply IH.
  - rewrite (decide_False (P := y = x)) by congruence. apply value_leb_total.
Qed.

Lemma group_keys_sorted keys (rs : list row) : Sorted key_le (group_keys keys rs).
Proof. unfold group_keys. apply Sorted_merge_sort, _. Qed.

(** The date a key begins with. *)
Definition key_date (k : list value) : Z :=
  match k with
  | VDate z :: _ => z
  | _ => 0
  end.

Lemma key_le_dates (z z' : Z) (k k' : list value) :
  key_le (VDate z :: k) (VDate z' :: k') → (z ≤ z')%Z.
Proof.
  unfold key_le. cbn [key_leb]. case_decide as E.
  - injection E as ->. lia.
  - cbn [value_leb]. by intros ?%bool_decide_eq_true.
Qed.

Lemma Sorted_key_dates (ks : list (list value)) :
  Forall (λ k, ∃ z k', k = VDate z :: k') ks →
  Sorted key_le ks → StronglySorted (λ k k', (key_date k ≤ key_date k')%Z) ks.
Proof.
  intros Hall Hs. apply Sorted_StronglySorted.
  { intros x y z. lia. }
  induction Hs as [|k ks Hs IH Hhd]; [constructor|].
  apply Forall_cons in Hall as [(z & k' & ->) Hall].
  constructor; [by apply IH|].
  destruct Hhd as [|k2 ks Hle]; constructor.
  apply Forall_cons in Hall as [(z2 & k2' & ->) _].
  cbn [key_date]. by apply (key_le_dates _ _ _ _ Hle).
Qed.

Lemma StronglySorted_lookup_lt {A} (R : relation A) (l : list A) i j x y :
  StronglySorted R l → (i < j)%nat → l !! i = Some x → l !! j = Some y → R x y.
Proof.
  intros Hs Hij Hi Hj.
  rewrite <- (take_drop_middle _ _ _ Hi) in Hs, Hj.
  apply StronglySorted_app_1_r, StronglySorted_cons in Hs as [Hall _].
  rewrite Forall_forall in Hall. apply Hall.
  rewrite lookup_app_r in Hj by (rewrite length_take; lia).
  rewrite length_take, Nat.min_l in Hj by (apply lookup_lt_Some in Hi; lia).
  destruct (j - i)%nat as [|n] eqn:E; [lia|]. cbn in Hj.
  apply list_elem_of_lookup. eauto.
Qed.

(** X15: the rows of the daily table come in the order of their dates: the
    groups of line 67 are sorted, and the left join of line 89 keeps their
    order. *)
Theorem daily_rows_in_date_order (σ σ' : store) ls lo l (s o : frame) :
  σ !! ls = Some s → σ !! lo = Some o →
  compute_daily_channel_kpis ls lo σ = (Ok l, σ') →
  ∃ d, σ' !! l = Some d
    ∧ ∀ i j ri rj zi zj, (i < j)%nat →
        rows d !! i = Some ri → rows d !! j = Some rj →
        ri !!! "Date" = VDate zi → rj !!! "Date" = VDate zj → (zi ≤ zj)%Z.
Proof.
  intros Hs Ho Hrun.
  destruct (compute_daily_channel_kpis_returns _ _ _ _ _ _ _ Hs Ho Hrun)
    as (d & Hd & Hl & _).
  exists d. split; [done|].
  destruct (daily_keys _ _ _ Hd) as (c & _ & Hkeys).
  assert (StronglySorted (λ k k', (key_date k ≤ key_date k')%Z)
            (daily_key <$> rows d)) as Hsorted.
  { apply Sorted_key_dates; [|rewrite Hkeys; apply group_keys_sorted].
    apply Forall_forall. intros k (r & -> & Hr)%list_elem_of_fmap.
    destruct (daily_row_present _ _ _ _ Hd Hr) as [Hp (x & _ & Hx)].
    unfold present in Hp. rewrite <- Hx in Hp |- *. unfold session_key in *.
    apply Forall_cons in Hp as [Hdate _].
    destruct (date_cell_cases (x !!! "Date")) as [E|[z E]]; [done|].
    rewrite E. eauto. }
  intros i j ri rj zi zj Hij Hi Hj Hzi Hzj.
  assert ((daily_key <$> rows d) !! i = Some (daily_key ri)) as Hi'
    by by rewrite list_lookup_fmap, Hi.
  assert ((daily_key <$> rows d) !! j = Some (daily_key rj)) as Hj'
    by by rewrite list_lookup_fmap, Hj.
  pose proof (StronglySorted_lookup_lt _ _ _ _ _ _ Hsorted Hij Hi' Hj') as H.
  unfold daily_key, key_of in H. cbn [map] in H. by rewrite Hzi, Hzj in H.
Qed.

(** ** Totals are kept *)

Lemma qsum_zeros {A} (l : list A) : qsum ((λ _, 0) <$> l) = 0.
Proof.
  induction l as [|x l IH]; [done|]. cbn [fmap list_fmap].
  rewrite qsum_cons. cbn [fmap] in IH. rewrite IH. ring.
Qed.

Lemma qsum_fmap_plus {A} (g h : A → Qc) (l : list A) :
  qsum ((λ x, g x + h x) <$> l) = qsum (g <$> l) + qsum (h <$> l).
Proof.
  induction l as [|x l IH]; cbn [fmap list_fmap].
  - unfold qsum. cbn. ring.
  - rewrite !qsum_cons. cbn [fmap] in IH. rewrite IH. ring.
Qed.

Lemma qsum_indicator {A} `{EqDecision A} (x : A) (a : Qc) (l : list A) :
  NoDup l →
  qsum ((λ k, if decide (x = k) then a else 0) <$> l)
  = if decide (x ∈ l) then a else 0.
Proof.
  induction l as [|k l IH]; intros Hnd; cbn [fmap list_fmap].
  - rewrite decide_False; [done|]. apply not_elem_of_nil.
  - apply NoDup_cons in Hnd as [Hk Hnd]. rewrite qsum_cons.
    cbn [fmap] in IH. rewrite (IH Hnd).
    destruct (decide (x = k)) as [->|Hne].
    + rewrite (decide_True (P := k ∈ k :: l)) by left.
      rewrite decide_False by done. ring.
    + destruct (decide (x ∈ l)) as [Hin|Hin].
      * rewrite decide_True by by right. ring.
      * rewrite decide_False; [ring|]. rewrite elem_of_cons. tauto.
Qed.

Lemma qsum_Permutation (l l' : list Qc) : l ≡ₚ l' → qsum l = qsum l'.
Proof.
  induction 1 as [|x l l' _ IH|x y l|l l' l'' _ IH1 _ IH2].
  - done.
  - by rewrite !qsum_cons, IH.
  - rewrite !qsum_cons. ring.
  - by rewrite IH1.
Qed.

(** The sums of the groups add up to the sum over the rows that are in a
    group. *)
Lemma qsum_groups keys (f : row → Qc) (ks : list (list value)) (rs : list row) :
  NoDup ks →
  qsum ((λ k, qsum (f <$> group_rows keys k rs)) <$> ks)
  = qsum (f <$> filter (λ r, key_of keys r ∈ ks) rs).
Proof.
  intros Hnd. induction rs as [|r rs IH].
  - cbn. apply (qsum_zeros ks).
  - rewrite filter_cons.
    assert (qsum ((λ k, qsum (f <$> group_rows keys k (r :: rs))) <$> ks)
            = (if decide (key_of keys r ∈ ks) then f r else 0)
              + qsum ((λ k, qsum (f <$> group_rows keys k rs)) <$> ks)) as ->.
    { rewrite <- (qsum_indicator _ _ _ Hnd), <- qsum_fmap_plus.
      f_equal. apply list_fmap_ext. intros _ k _.
      unfold group_rows. rewrite filter_cons.
      destruct (decide (key_of keys r = k)); cbn [fmap list_fmap].
      - by rewrite qsum_cons.
      - ring. }
    rewrite IH. destruct (decide (key_of keys r ∈ ks)); cbn [fmap list_fmap].
    + by rewrite qsum_cons.
    + ring.
Qed.

Lemma filter_ext_elem {A} (P Q : A → Prop) `{∀ x, Decision (P x)}
    `{∀ x, Decision (Q x)} (l : list A) :
  (∀ x, x ∈ l → P x ↔ Q x) → filter P l = filter Q l.
Proof.
  induction l as [|x l IH]; intros HPQ; [done|].
  rewrite !filter_cons, IH by (intros; apply HPQ; by right).
  destruct (HPQ x) as [H1 H2]; [by left|].
  destruct (decide (P x)), (decide (Q x)); tauto.
Qed.

Lemma key_of_channel (r : row) : key_of ["Channel"] r = [r !!! "Channel"].
Proof. done. Qed.

Lemma channel_in_group_keys (d : frame) (r : row) :
  r ∈ rows d →
  key_of ["Channel"] r ∈ group_keys ["Channel"] (rows d) ↔ r !!! "Channel" ≠ VNaN.
Proof.
  intros Hr. rewrite elem_of_group_keys. split.
  - intros (x & _ & Hv & Hk). apply valid_key_present in Hv.
    rewrite Hk in Hv. unfold present in Hv. rewrite key_of_channel in Hv.
    by apply Forall_cons in Hv as [Hv _].
  - intros Hne. exists r. split; [done|]. split; [|done].
    apply valid_key_present. unfold present. rewrite key_of_channel.
    apply Forall_cons. split; [done|apply Forall_nil_2].
Qed.

(** X16: the summary keeps the totals: for each of the five counters, the
    total of the column over the summary is its total over the rows of the
    daily table that have a channel. *)
Theorem summary_conserves_totals (σ σ' : store) ld l (d : frame) c :
  σ !! ld = Some d → channel_summary ld σ = (Ok l, σ') →
  c ∈ ["Sessions"; "Clicks"; "Spend"; "Orders"; "Revenue"] →
  ∃ out q, σ' !! l = Some out
    ∧ column_total c (rows out) q
    ∧ column_total c (filter (λ r : row, r !!! "Channel" ≠ VNaN) (rows d)) q.
Proof.
  intros Hd Hrun Hc.
  destruct (channel_summary_returns _ _ _ _ _ Hd Hrun) as (out & Hs & Hl & _).
  destruct (summary_inv _ _ Hs) as (g & Hg & Hperm & _).
  destruct (summary_totals_ok _ _ Hg) as (_ & Hkeys & Hsum).
  set (f := λ x : row, num_of (x !!! c)).
  exists out, (qsum (f <$> filter (λ r : row, r !!! "Channel" ≠ VNaN) (rows d))).
  split; [done|].
  assert (∀ r, r ∈ rows g →
            r !!! c = VNum (qsum (f <$> group_rows ["Channel"]
                                          (key_of ["Channel"] r) (rows d)))) as Hcell.
  { intros r Hr. destruct (Hsum r c Hr Hc) as (q & Hq & ->). f_equal.
    pose proof (nansum_ok_numeric _ _ Hq) as Hnum.
    rewrite (nansum_eq _ Hnum) in Hq. injection Hq as <-.
    by rewrite <- list_fmap_compose. }
  assert ((λ r : row, r !!! c) <$> rows out ≡ₚ (λ r : row, r !!! c) <$> rows g)
    as Hcol.
  { rewrite Hperm, (map_fmap (with_ratios "CPC")), <- list_fmap_compose.
    rewrite (list_fmap_ext _ (λ r : row, r !!! c) (rows g)); [done|].
    intros _ r _. cbn. apply with_ratios_counter; [by left|].
    rewrite !elem_of_cons in Hc. rewrite !elem_of_cons. tauto. }
  split.
  - unfold column_total. rewrite nansum_eq.
    + f_equal. rewrite (qsum_Permutation _ _ (fmap_Permutation num_of _ _ Hcol)).
      rewrite <- list_fmap_compose.
      rewrite (list_fmap_ext _ (λ r : row, qsum (f <$> group_rows ["Channel"]
                                  (key_of ["Channel"] r) (rows d))) (rows g)).
      2: { intros _ r Hr%list_elem_of_lookup_2. cbn. by rewrite (Hcell r Hr). }
      assert ((λ r : row, qsum (f <$> group_rows ["Channel"]
                                         (key_of ["Channel"] r) (rows d))) <$> rows g
              = (λ k, qsum (f <$> group_rows ["Channel"] k (rows d)))
                  <$> (key_of ["Channel"] <$> rows g)) as ->
        by by rewrite <- list_fmap_compose.
      rewrite Hkeys.
      rewrite qsum_groups by apply NoDup_group_keys. f_equal. f_equal.
      apply filter_ext_elem. intros r Hr. by apply channel_in_group_keys.
    + intros v Hv. rewrite Hcol in Hv.
      apply list_elem_of_fmap in Hv as (r & -> & Hr). rewrite (Hcell r Hr). eauto.
  - unfold column_total. rewrite nansum_eq; [by rewrite <- list_fmap_compose|].
    intros v (r & -> & Hr)%list_elem_of_fmap.
    apply list_elem_of_filter in Hr as [Hne Hr].
    apply (channel_in_group_keys d r Hr) in Hne. rewrite <- Hkeys in Hne.
    apply list_elem_of_fmap in Hne as (gr & Hk & Hgr).
    destruct (Hsum gr c Hgr Hc) as (q & Hq & _).
    apply (nansum_ok_numeric _ _ Hq). apply list_elem_of_fmap. exists r.
    split; [done|]. apply elem_of_group_rows. by split.
Qed.

Global Instance present_dec (k : list value) : Decision (present k).
Proof. unfold present. apply _. Defined.

(** The totals of a table of group sums are the totals over the rows that
    are in a group. *)
Lemma grouped_total keys (c : string) (rs gs : list row) :
  key_of keys <$> gs = group_keys keys rs →
  (∀ g, g ∈ gs →
     ∃ q, nansum ((λ x : row, x !!! c) <$> group_rows keys (key_of keys g) rs) = Ok q
          ∧ g !!! c = VNum q) →
  ∃ q, column_total c gs q ∧ column_total c (filter (valid_key keys) rs) q.
Proof.
  intros Hkeys Hsum. set (f := λ x : row, num_of (x !!! c)).
  exists (qsum (f <$> filter (valid_key keys) rs)).
  assert (∀ g, g ∈ gs →
            g !!! c = VNum (qsum (f <$> group_rows keys (key_of keys g) rs)))
    as Hcell.
  { intros g Hg. destruct (Hsum g Hg) as (q & Hq & ->). f_equal.
    pose proof (nansum_ok_numeric _ _ Hq) as Hnum.
    rewrite (nansum_eq _ Hnum) in Hq. injection Hq as <-.
    by rewrite <- list_fmap_compose. }
  split.
  - unfold column_total. rewrite nansum_eq.
    + f_equal. rewrite <- list_fmap_compose.
      rewrite (list_fmap_ext _ (λ g : row, qsum (f <$> group_rows keys
                                  (key_of keys g) rs)) gs).
      2: { intros _ g Hg%list_elem_of_lookup_2. cbn. by rewrite (Hcell g Hg). }
      assert ((λ g : row, qsum (f <$> group_rows keys (key_of keys g) rs)) <$> gs
              = (λ k, qsum (f <$> group_rows keys k rs)) <$> (key_of keys <$> gs))
        as -> by by rewrite <- list_fmap_compose.
      rewrite Hkeys, qsum_groups by apply NoDup_group_keys. f_equal. f_equal.
      apply filter_ext_elem. intros r Hr. rewrite elem_of_group_keys. split.
      * intros (x & _ & Hv & Hk). unfold valid_key in *. by rewrite <- Hk.
      * intros Hv. eauto.
    + intros v (g & -> & Hg)%list_elem_of_fmap. rewrite (Hcell g Hg). eauto.
  - unfold column_total. rewrite nansum_eq; [by rewrite <- list_fmap_compose|].
    intros v (r & -> & Hr)%list_elem_of_fmap.
    apply list_elem_of_filter in Hr as [Hv Hr].
    assert (key_of keys r ∈ group_keys keys rs) as Hin
      by (apply elem_of_group_keys; eauto).
    rewrite <- Hkeys in Hin. apply list_elem_of_fmap in Hin as (g & Hk & Hg).
    destruct (Hsum g Hg) as (q & Hq & _).
    apply (nansum_ok_numeric _ _ Hq). apply list_elem_of_fmap. exists r.
    split; [done|]. apply elem_of_group_rows. by split.
Qed.

Lemma filter_fmap_pre {A B} (f : A → B) (P : B → Prop) `{∀ y, Decision (P y)}
    (l : list A) :
  filter P (f <$> l) = f <$> filter (λ x, P (f x)) l.
Proof.
  induction l as [|x l IH]; [done|].
  rewrite fmap_cons, !filter_cons. destruct (decide (P (f x))); by rewrite IH.
Qed.

(** X17: the daily table keeps the sessions and the clicks: the total of
    each of the two columns over the daily table is its total over the rows
    of the sessions table that have a date and a channel. *)
Theorem daily_conserves_sessions (σ σ' : store) ls lo l (s o : frame) c :
  σ !! ls = Some s → σ !! lo = Some o →
  compute_daily_channel_kpis ls lo σ = (Ok l, σ') →
  c ∈ ["Sessions"; "Clicks"] →
  ∃ d q, σ' !! l = Some d
    ∧ column_total c (rows d) q
    ∧ column_total c (filter (λ x : row, present (session_key x)) (rows s)) q.
Proof.
  intros Hs Ho Hrun Hc.
  destruct (compute_daily_channel_kpis_returns _ _ _ _ _ _ _ Hs Ho Hrun)
    as (d & Hd & Hl & _).
  destruct (daily_rows_structure _ _ _ Hd)
    as (sa & oa & c0 & Hsa & Hoa & Hc0 & Hrows & Hkeys).
  destruct (sessions_agg_ok _ _ Hsa) as (sp & Hsp & _ & _ & Hsum).
  destruct (sessions_prepared_ok _ _ Hsp) as (c1 & Hc1 & _ & _ & _ & Hrsp).
  rewrite Hc0 in Hc1. injection Hc1 as <-. rewrite map_fmap in Hrsp.
  assert (c ≠ "Date" ∧ c ≠ "Spend" ∧ c ≠ "Orders" ∧ c ≠ "Revenue") as (N1 & N2 & N3 & N4).
  { rewrite !elem_of_cons in Hc.
    destruct Hc as [->|[->|[]%elem_of_nil]]; by repeat split. }
  destruct (grouped_total ["Date"; "Channel"] c (rows sp) (rows sa)) as (q & Hq1 & Hq2).
  { rewrite Hrsp. exact Hkeys. }
  { intros g Hg. apply Hsum; [done|]. rewrite !elem_of_cons in Hc.
    rewrite !elem_of_cons. tauto. }
  exists d, q. split; [done|]. split.
  - unfold column_total in *. rewrite Hrows, <- list_fmap_compose.
    rewrite (list_fmap_ext _ (λ x : row, x !!! c) (rows sa)); [done|].
    intros _ lr _. unfold compose. cbn beta.
    rewrite with_ratios_counter; [|by right|].
    + rewrite merged_row_lookup. rewrite decide_False; [done|]. intros [?|?]; done.
    + rewrite !elem_of_cons in Hc. rewrite !elem_of_cons. tauto.
  - unfold column_total in *. rewrite Hrsp, filter_fmap_pre in Hq2.
    rewrite <- list_fmap_compose in Hq2.
    rewrite (list_fmap_ext _ (λ x : row, x !!! c) _) in Hq2.
    2: { intros _ x _. unfold compose, session_row. cbn beta.
         by rewrite !lookup_total_insert_ne. }
    rewrite <- Hq2. do 2 f_equal. apply filter_ext_elem. intros x _. unfold compose.
    by rewrite valid_key_present, session_row_key.
Qed.
End Toolkit.

(** * Examples

    A small data set: three days of channel "a" and one day of a channel "b"
    without clicks, spend or orders; an Order_id that comes twice on day 2. *)

Definition no_date (_ : value) : option Z := None.
Definition no_float (_ : value) : option Qc := None.
Definition repr_nan (_ : value) : string := "nan".

Definition session (d : Z) (ch : string) (sessions clicks spend : Z) : gmap string value :=
  list_to_map [("Date", VDate d); ("Channel", VStr ch);
               ("Sessions", VNum (qz sessions)); ("Clicks", VNum (qz clicks));
               ("Spend_gbp", VNum (qz spend))].

Definition order (d : Z) (ch : string) (id revenue : Z) : gmap string value :=
  list_to_map [("Order_date", VDate d); ("Channel_ft", VStr ch);
               ("Order_id", VNum (qz id)); ("Revenue_gbp", VNum (qz revenue))].

Definition ex_sessions : frame :=
  Frame ["Date"; "Channel"; "Sessions"; "Clicks"; "Spend_gbp"]
        [session 1 "a" 10 5 100; session 1 "b" 10 0 0;
         session 2 "a" 20 10 200; session 3 "a" 1 1 300].

Definition ex_orders : frame :=
  Frame ["Order_date"; "Channel_ft"; "Order_id"; "Revenue_gbp"]
        [order 1 "a" 1 150; order 2 "a" 2 100; order 2 "a" 2 150;
         order 3 "a" 3 350].

Definition ex_store : gmap positive frame :=
  <[1%positive := ex_sessions]> (<[2%positive := ex_orders]> ∅).

(** The store after the daily table of the example is computed, and after
    its summary. *)
Definition ex_daily_run : result positive * gmap positive frame :=
  compute_daily_channel_kpis no_date 1 2 ex_store.

Definition ex_daily : frame :=
  match ex_daily_run.1 with
  | Ok l => default (Frame [] []) (ex_daily_run.2 !! l)
  | Err _ => Frame [] []
  end.

Definition ex_summary_run : result positive * gmap positive frame :=
  channel_summary 3 (<[3%positive := ex_daily]> ∅).

(** A sessions table with both spend columns, whose only row has no adjusted
    spend and a raw spend of 100. *)
Definition ex_sessions_adj : frame :=
  Frame ["Date"; "Channel"; "Sessions"; "Clicks"; "Spend_gbp"; "Adj_spend_gbp"]
        [<["Adj_spend_gbp" := VNaN]> (session 1 "a" 10 5 100)].

Ltac by_compute := apply (bool_decide_unpack _); vm_compute; reflexivity.




(** ** The claims on the example *)

(** The sessions table of the example has no adjusted spend: the spend of a
    row is its raw spend. *)
Lemma effective_spend_by_column_example :
  spend_column ex_sessions = Some "Spend_gbp"
  ∧ effective_spend ex_sessions
    = Ok (map (λ r : gmap string value, fillna_value (VNum 0) (r !!! "Spend_gbp"))
              (rows ex_sessions)).
Proof.
  assert (spend_column ex_sessions = Some "Spend_gbp") as H by by_compute.
  split; [exact H|].
  exact (proj1 (proj2 (proj2 (effective_spend_by_column ex_sessions "Spend_gbp" H)))).
Defined.

(** With both spend columns, a row without adjusted spend gets the spend 0,
    where the raw spend of the row is 100. *)
Lemma effective_spend_not_by_row :
  coalesce_spend ex_sessions_adj <$> rows ex_sessions_adj = [VNum (qz 100)]
  ∧ effective_spend ex_sessions_adj = Ok [VNum 0]
  ∧ effective_spend ex_sessions_adj
    ≠ Ok (coalesce_spend ex_sessions_adj <$> rows ex_sessions_adj).
Proof. repeat split; by_compute. Qed.

Definition ex_merged : frame :=
  match merged no_date ex_sessions ex_orders with
  | Ok m => m
  | Err _ => Frame [] []
  end.

(** The ratios of the daily table and of the summary of the example are
    guarded. *)
Lemma ratios_guarded_example :
  ex_store !! 1%positive = Some ex_sessions
  ∧ ex_store !! 2%positive = Some ex_orders
  ∧ merged no_date ex_sessions ex_orders = Ok ex_merged
  ∧ ∃ (ld : loc) (σ1 : store) (d : frame),
      compute_daily_channel_kpis no_date 1 2 ex_store = (Ok ld, σ1)
      ∧ σ1 !! ld = Some d
      ∧ (∀ r, r ∈ rows d → kpi_row "CPC_calc" r)
      ∧ ∃ (lc : loc) (σ2 : store) (out : frame),
          channel_summary ld σ1 = (Ok lc, σ2)
          ∧ σ2 !! lc = Some out
          ∧ ∀ r, r ∈ rows out → kpi_row "CPC" r.
Proof.
  assert (ex_store !! 1%positive = Some ex_sessions) as H1 by by_compute.
  assert (ex_store !! 2%positive = Some ex_orders) as H2 by by_compute.
  assert (merged no_date ex_sessions ex_orders = Ok ex_merged) as H3 by by_compute.
  split; [exact H1|]. split; [exact H2|]. split; [exact H3|].
  exact (proj2 (ratios_guarded no_date ex_store 1 2 ex_sessions ex_orders
                  ex_merged H1 H2 H3)).
Defined.

(** The daily table of the example has one row for each date and channel of
    the sessions. *)
Lemma daily_rows_are_session_groups_example :
  ex_store !! 1%positive = Some ex_sessions
  ∧ ex_store !! 2%positive = Some ex_orders
  ∧ compute_daily_channel_kpis no_date 1 2 ex_store = (Ok 5%positive, ex_daily_run.2)
  ∧ ∃ d, ex_daily_run.2 !! 5%positive = Some d ∧ NoDup (daily_key <$> rows d).
Proof.
  assert (ex_store !! 1%positive = Some ex_sessions) as H1 by by_compute.
  assert (ex_store !! 2%positive = Some ex_orders) as H2 by by_compute.
  assert (compute_daily_channel_kpis no_date 1 2 ex_store
          = (Ok 5%positive, ex_daily_run.2)) as H3 by by_compute.
  split; [exact H1|]. split; [exact H2|]. split; [exact H3|].
  destruct (daily_rows_are_session_groups no_date no_float repr_nan _ _ _ _ _ _ _
              H1 H2 H3) as (d & Hd & Hnd & _).
  exists d. split; [exact Hd|exact Hnd].
Defined.

(** The orders of the example: day 2 of channel "a" has two order rows
    with one Order_id, which count once; the Orders column is 1, 0, 1, 1
    and the Revenue column 150, 0, 250, 350. *)
Lemma orders_count_distinct_example :
  ex_store !! 1%positive = Some ex_sessions
  ∧ ex_store !! 2%positive = Some ex_orders
  ∧ compute_daily_channel_kpis no_date 1 2 ex_store = (Ok 5%positive, ex_daily_run.2)
  ∧ ex_daily_run.2 !! 5%positive = Some ex_daily
  ∧ col ex_daily "Orders" = VNum <$> [qz 1; qz 0; qz 1; qz 1]
  ∧ col ex_daily "Revenue" = VNum <$> [qz 150; qz 0; qz 250; qz 350]
  ∧ length (filter (λ x, order_key no_date ex_orders x = [VDate 2; VStr "a"])
                   (rows ex_orders)) = 2%nat
  ∧ ∀ r, r ∈ rows ex_daily →
      ∀ ids : list value,
        NoDup ids →
        (∀ v, v ∈ ids ↔ v ≠ VNaN
                        ∧ ∃ x, x ∈ rows ex_orders
                               ∧ order_key no_date ex_orders x = daily_key r
                               ∧ x !!! "Order_id" = v) →
        r !!! "Orders" = VNum (qz (Z.of_nat (length ids))).
Proof.
  assert (ex_store !! 1%positive = Some ex_sessions) as H1 by by_compute.
  assert (ex_store !! 2%positive = Some ex_orders) as H2 by by_compute.
  assert (compute_daily_channel_kpis no_date 1 2 ex_store
          = (Ok 5%positive, ex_daily_run.2)) as H3 by by_compute.
  assert (ex_daily_run.2 !! 5%positive = Some ex_daily) as H4 by by_compute.
  split; [exact H1|]. split; [exact H2|]. split; [exact H3|]. split; [exact H4|].
  split; [by_compute|]. split; [by_compute|]. split; [by_compute|].
  destruct (orders_count_distinct no_date no_float repr_nan _ _ _ _ _ _ _
              H1 H2 H3) as (d & Hd & Hrows & _).
  assert (d = ex_daily) as Ed by congruence. rewrite Ed in Hrows.
  intros r Hr. exact (proj1 (proj2 (Hrows r Hr))).
Defined.

(** The summary of the example is sorted. *)
Lemma summary_sorted_by_roas_example :
  (<[3%positive := ex_daily]> ∅ : store) !! 3%positive = Some ex_daily
  ∧ channel_summary 3 (<[3%positive := ex_daily]> ∅) = (Ok 5%positive, ex_summary_run.2)
  ∧ ∃ out, ex_summary_run.2 !! 5%positive = Some out
      ∧ StronglySorted (desc_nan_last "ROAS") (rows out).
Proof.
  assert ((<[3%positive := ex_daily]> ∅ : store) !! 3%positive = Some ex_daily)
    as H1 by by_compute.
  assert (channel_summary 3 (<[3%positive := ex_daily]> ∅)
          = (Ok 5%positive, ex_summary_run.2)) as H2 by by_compute.
  split; [exact H1|]. split; [exact H2|].
  destruct (summary_sorted_by_roas _ _ _ _ _ H1 H2) as (out & Hout & Hs & _).
  exists out. split; [exact Hout|exact Hs].
Defined.

Definition ex_orders_agg : frame :=
  match orders_agg no_date ex_orders with
  | Ok oa => oa
  | Err _ => Frame [] []
  end.

(** The orders of the example are grouped by their "Channel_ft" column. *)
Lemma order_channel_resolution_example :
  orders_agg no_date ex_orders = Ok ex_orders_agg
  ∧ chan_col_of ex_orders = Some "Channel_ft"
  ∧ ∀ g, g ∈ rows ex_orders_agg →
      ∃ x, x ∈ rows ex_orders ∧ daily_key g = order_key no_date ex_orders x.
Proof.
  assert (orders_agg no_date ex_orders = Ok ex_orders_agg) as H by by_compute.
  split; [exact H|].
  destruct (order_channel_resolution no_date no_float repr_nan _ _ H)
    as (Hc & _ & Hg & _).
  split; [exact Hc|exact Hg].
Defined.

(** One day of one channel: the two tables are made, and there is no fit. *)
Definition ex_one_day : store :=
  <[1%positive := Frame ["Date"; "Channel"; "Sessions"; "Clicks"; "Spend_gbp"]
                        [session 1 "a" 10 5 100]]>
    (<[2%positive := Frame ["Order_date"; "Channel_ft"; "Order_id"; "Revenue_gbp"]
                           [order 1 "a" 1 150]]> ∅).

Definition ex_one_day_run : result (loc * loc) * store :=
  kpi_tables no_date no_float repr_nan 1 2 ex_one_day.

Definition ex_one_daily : frame :=
  default (Frame [] []) (ex_one_day_run.2 !! 7%positive).

Lemma degenerate_fit_is_undefined_example :
  kpi_tables no_date no_float repr_nan 1 2 ex_one_day
  = (Ok (7%positive, 9%positive), ex_one_day_run.2)
  ∧ main no_date no_float repr_nan 1 2 ex_one_day
    = (Ok (7%positive, 9%positive, None), ex_one_day_run.2).
Proof.
  assert (kpi_tables no_date no_float repr_nan 1 2 ex_one_day
          = (Ok (7%positive, 9%positive), ex_one_day_run.2)) as H by by_compute.
  split; [exact H|].
  destruct (degenerate_fit_is_undefined _ _ _ _ _ _ _ _ _ H)
    as (d & out & t & Hd & _ & Ht & Hdeg).
  apply Hdeg. left.
  assert (d = ex_one_daily) as Ed by (unfold ex_one_daily; by rewrite Hd).
  assert (length ∘ rows <$> date_totals ex_one_daily = Ok 1%nat) as Ht'
    by by_compute.
  rewrite <- Ed, Ht in Ht'. cbn in Ht'.
  assert (length (rows t) = 1%nat) as Hlen by congruence. rewrite Hlen. lia.
Defined.

(** The totals by date of the example are (100, 150), (200, 250) and
    (300, 350): the fit has the intercept 50 and the slope 1. *)
Definition ex_totals : frame :=
  match date_totals ex_daily with Ok t => t | Err _ => Frame [] [] end.

Lemma response_fit_least_squares_example :
  (<[3%positive := ex_daily]> ∅ : store) !! 3%positive = Some ex_daily
  ∧ date_totals ex_daily = Ok ex_totals
  ∧ (2 ≤ length (rows ex_totals))%nat
  ∧ column_total "Spend" (rows ex_totals) (qz 600)
  ∧ qz 600 ≠ 0
  ∧ simple_response_curve 3 (<[3%positive := ex_daily]> ∅)
    = (Ok (Some (qz 50, qz 1)), <[3%positive := ex_daily]> ∅).
Proof.
  assert ((<[3%positive := ex_daily]> ∅ : store) !! 3%positive = Some ex_daily)
    as H1 by by_compute.
  assert (date_totals ex_daily = Ok ex_totals) as H2 by by_compute.
  assert (2 ≤ length (rows ex_totals))%nat as H3 by by_compute.
  assert (column_total "Spend" (rows ex_totals) (qz 600)) as H4
    by (unfold column_total; by_compute).
  assert (qz 600 ≠ 0) as H5 by by_compute.
  split; [exact H1|]. split; [exact H2|]. split; [exact H3|].
  split; [exact H4|]. split; [exact H5|].
  destruct (response_fit_least_squares _ _ _ _ _ H1 H2 H3 H4 H5)
    as (a & b & xs & ys & Hx & Hy & Hrun & _ & Hex).
  assert (Inj (=) (=) VNum) as Hinj by (intros x y E; by injection E).
  assert (col ex_totals "Spend" = VNum <$> [qz 100; qz 200; qz 300]) as Ex
    by by_compute.
  assert (col ex_totals "Revenue" = VNum <$> [qz 150; qz 250; qz 350]) as Ey
    by by_compute.
  rewrite Ex in Hx. apply (inj (fmap VNum)) in Hx.
  rewrite Ey in Hy. apply (inj (fmap VNum)) in Hy.
  destruct (Hex (eq_sym Hx) (eq_sym Hy)) as [Ha Hb].
  rewrite Ha, Hb in Hrun. exact Hrun.
Defined.

(** The stages on the store of the example after its daily table is made. *)
Lemma stages_leave_inputs_unchanged_example :
  is_Some (ex_daily_run.2 !! 1%positive)
  ∧ is_Some (ex_daily_run.2 !! 2%positive)
  ∧ is_Some (ex_daily_run.2 !! 5%positive)
  ∧ wp (clean_sessions no_date no_float repr_nan 1) ex_daily_run.2
       (stage_post ex_daily_run.2)
  ∧ wp (clean_orders no_date no_float repr_nan 2) ex_daily_run.2
       (stage_post ex_daily_run.2)
  ∧ wp (compute_daily_channel_kpis no_date 1 2) ex_daily_run.2
       (stage_post ex_daily_run.2)
  ∧ wp (channel_summary 5) ex_daily_run.2 (stage_post ex_daily_run.2).
Proof.
  assert (is_Some (ex_daily_run.2 !! 1%positive)) as H1 by by_compute.
  assert (is_Some (ex_daily_run.2 !! 2%positive)) as H2 by by_compute.
  assert (is_Some (ex_daily_run.2 !! 5%positive)) as H3 by by_compute.
  split; [exact H1|]. split; [exact H2|]. split; [exact H3|].
  exact (stages_leave_inputs_unchanged no_date no_float repr_nan _ _ _ _ H1 H2 H3).
Defined.

(** ** The further properties on examples *)

(** Sheets as they may be read: a channel with white space around it, a
    cell of clicks that is no number. *)
Definition ex_sessions_raw : frame :=
  Frame ["Date"; "Channel"; "Sessions"; "Clicks"; "Spend_gbp"]
        [<["Channel" := VStr " a "]>
           (<["Clicks" := VStr "n/a"]> (session 1 "a" 10 5 100));
         session 2 "b" 20 10 200].

Definition ex_raw_store : gmap positive frame :=
  <[1%positive := ex_sessions_raw]> (<[2%positive := ex_orders]> ∅).

(** Sessions without a spend column, and sessions without dates. *)
Definition ex_sessions_no_spend : frame :=
  Frame ["Date"; "Channel"; "Sessions"; "Clicks"]
        [list_to_map [("Date", VDate 1); ("Channel", VStr "a");
                      ("Sessions", VNum (qz 10)); ("Clicks", VNum (qz 5))]].

Definition ex_sessions_no_date : frame :=
  Frame ["Channel"; "Sessions"; "Clicks"; "Spend_gbp"]
        [list_to_map [("Channel", VStr "a"); ("Sessions", VNum (qz 10));
                      ("Clicks", VNum (qz 5)); ("Spend_gbp", VNum (qz 100))]].

(** Orders without any date. *)
Definition ex_orders_no_date : frame :=
  Frame ["Channel_ft"; "Order_id"; "Revenue_gbp"]
        [list_to_map [("Channel_ft", VStr "a"); ("Order_id", VNum (qz 1));
                      ("Revenue_gbp", VNum (qz 150))]].

Definition ex_sessions_agg : frame :=
  match sessions_agg no_date ex_sessions with
  | Ok sa => sa
  | Err _ => Frame [] []
  end.

Lemma spend_column_required_example :
  (<[1%positive := ex_sessions_no_spend]> ∅ : gmap positive frame) !! 1%positive
  = Some ex_sessions_no_spend
  ∧ ("Adj_spend_gbp" ∉ columns ex_sessions_no_spend)
  ∧ ("Spend_gbp" ∉ columns ex_sessions_no_spend)
  ∧ (compute_daily_channel_kpis no_date 1 2 (<[1%positive := ex_sessions_no_spend]> ∅)).1
    = Err AttributeError.
Proof.
  assert ((<[1%positive := ex_sessions_no_spend]> ∅ : gmap positive frame)
            !! 1%positive = Some ex_sessions_no_spend) as H1 by by_compute.
  assert ("Adj_spend_gbp" ∉ columns ex_sessions_no_spend) as H2 by by_compute.
  assert ("Spend_gbp" ∉ columns ex_sessions_no_spend) as H3 by by_compute.
  split; [exact H1|]. split; [exact H2|]. split; [exact H3|].
  exact (spend_column_required no_date _ 1 2 _ H1 H2 H3).
Defined.

Lemma sessions_date_required_example :
  (<[1%positive := ex_sessions_no_date]> ∅ : gmap positive frame) !! 1%positive
  = Some ex_sessions_no_date
  ∧ ("Adj_spend_gbp" ∈ columns ex_sessions_no_date
     ∨ "Spend_gbp" ∈ columns ex_sessions_no_date)
  ∧ ("Date" ∉ columns ex_sessions_no_date)
  ∧ (compute_daily_channel_kpis no_date 1 2 (<[1%positive := ex_sessions_no_date]> ∅)).1
    = Err (KeyError "Date").
Proof.
  assert ((<[1%positive := ex_sessions_no_date]> ∅ : gmap positive frame)
            !! 1%positive = Some ex_sessions_no_date) as H1 by by_compute.
  assert ("Adj_spend_gbp" ∈ columns ex_sessions_no_date
          ∨ "Spend_gbp" ∈ columns ex_sessions_no_date) as H2 by (right; by_compute).
  assert ("Date" ∉ columns ex_sessions_no_date) as H3 by by_compute.
  split; [exact H1|]. split; [exact H2|]. split; [exact H3|].
  exact (sessions_date_required no_date _ 1 2 _ H1 H2 H3).
Defined.

Definition ex_store_no_date : gmap positive frame :=
  <[1%positive := ex_sessions]> (<[2%positive := ex_orders_no_date]> ∅).

Lemma orders_date_required_example :
  ex_store_no_date !! 1%positive = Some ex_sessions
  ∧ ex_store_no_date !! 2%positive = Some ex_orders_no_date
  ∧ sessions_agg no_date ex_sessions = Ok ex_sessions_agg
  ∧ ("Date" ∉ columns ex_orders_no_date)
  ∧ ("Order_date" ∉ columns ex_orders_no_date)
  ∧ (compute_daily_channel_kpis no_date 1 2 ex_store_no_date).1
    = Err (KeyError "Order_date").
Proof.
  assert (ex_store_no_date !! 1%positive = Some ex_sessions) as H1 by by_compute.
  assert (ex_store_no_date !! 2%positive = Some ex_orders_no_date) as H2
    by by_compute.
  assert (sessions_agg no_date ex_sessions = Ok ex_sessions_agg) as H3
    by by_compute.
  assert ("Date" ∉ columns ex_orders_no_date) as H4 by by_compute.
  assert ("Order_date" ∉ columns ex_orders_no_date) as H5 by by_compute.
  split; [exact H1|]. split; [exact H2|]. split; [exact H3|].
  split; [exact H4|]. split; [exact H5|].
  exact (orders_date_required no_date no_float repr_nan _ 1 2 _ _ _ H1 H2 H3 H4 H5).
Defined.

Lemma daily_table_shape_example :
  ex_store !! 1%positive = Some ex_sessions
  ∧ ex_store !! 2%positive = Some ex_orders
  ∧ compute_daily_channel_kpis no_date 1 2 ex_store = (Ok 5%positive, ex_daily_run.2)
  ∧ ∃ d, ex_daily_run.2 !! 5%positive = Some d
      ∧ columns d = ["Date"; "Channel"; "Sessions"; "Clicks"; "Spend"; "Orders";
                     "Revenue"; "CVR"; "CPC_calc"; "CAC"; "AOV"; "ROAS"].
Proof.
  assert (ex_store !! 1%positive = Some ex_sessions) as H1 by by_compute.
  assert (ex_store !! 2%positive = Some ex_orders) as H2 by by_compute.
  assert (compute_daily_channel_kpis no_date 1 2 ex_store
          = (Ok 5%positive, ex_daily_run.2)) as H3 by by_compute.
  split; [exact H1|]. split; [exact H2|]. split; [exact H3|].
  destruct (daily_table_shape no_date _ _ _ _ _ _ _ H1 H2 H3) as (d & Hd & Hc & _).
  exists d. split; [exact Hd|exact Hc].
Defined.

Lemma summary_table_shape_example :
  (<[3%positive := ex_daily]> ∅ : gmap positive frame) !! 3%positive = Some ex_daily
  ∧ channel_summary 3 (<[3%positive := ex_daily]> ∅) = (Ok 5%positive, ex_summary_run.2)
  ∧ ∃ out, ex_summary_run.2 !! 5%positive = Some out
      ∧ NoDup ((λ r : gmap string value, r !!! "Channel") <$> rows out).
Proof.
  assert ((<[3%positive := ex_daily]> ∅ : gmap positive frame) !! 3%positive
          = Some ex_daily) as H1 by by_compute.
  assert (channel_summary 3 (<[3%positive := ex_daily]> ∅)
          = (Ok 5%positive, ex_summary_run.2)) as H2 by by_compute.
  split; [exact H1|]. split; [exact H2|].
  destruct (summary_table_shape _ _ _ _ _ H1 H2) as (out & Hout & _ & Hnd & _).
  exists out. split; [exact Hout|exact Hnd].
Defined.

(** The summary of the daily table of the example, in the store the daily
    table was made in. *)
Definition ex_pipeline_summary_run : result positive * gmap positive frame :=
  channel_summary 5 ex_daily_run.2.

Lemma tables_never_grow_example :
  ex_store !! 1%positive = Some ex_sessions
  ∧ ex_store !! 2%positive = Some ex_orders
  ∧ compute_daily_channel_kpis no_date 1 2 ex_store = (Ok 5%positive, ex_daily_run.2)
  ∧ channel_summary 5 ex_daily_run.2 = (Ok 7%positive, ex_pipeline_summary_run.2)
  ∧ ∃ d out, ex_daily_run.2 !! 5%positive = Some d
      ∧ ex_pipeline_summary_run.2 !! 7%positive = Some out
      ∧ (length (rows out) ≤ length (rows d) ≤ length (rows ex_sessions))%nat.
Proof.
  assert (ex_store !! 1%positive = Some ex_sessions) as H1 by by_compute.
  assert (ex_store !! 2%positive = Some ex_orders) as H2 by by_compute.
  assert (compute_daily_channel_kpis no_date 1 2 ex_store
          = (Ok 5%positive, ex_daily_run.2)) as H3 by by_compute.
  assert (channel_summary 5 ex_daily_run.2
          = (Ok 7%positive, ex_pipeline_summary_run.2)) as H4 by by_compute.
  split; [exact H1|]. split; [exact H2|]. split; [exact H3|]. split; [exact H4|].
  exact (tables_never_grow no_date _ _ _ _ _ _ _ _ _ H1 H2 H3 H4).
Defined.

Lemma response_fit_exact_on_line_example :
  (<[3%positive := ex_daily]> ∅ : gmap positive frame) !! 3%positive = Some ex_daily
  ∧ date_totals ex_daily = Ok ex_totals
  ∧ col ex_totals "Spend" = VNum <$> [qz 100; qz 200; qz 300]
  ∧ col ex_totals "Revenue"
    = VNum <$> ((λ x, qz 50 + qz 1 * x) <$> [qz 100; qz 200; qz 300])
  ∧ qsum [qz 100; qz 200; qz 300] ≠ 0
  ∧ qz 100 ∈ [qz 100; qz 200; qz 300] ∧ qz 200 ∈ [qz 100; qz 200; qz 300]
  ∧ qz 100 ≠ qz 200
  ∧ simple_response_curve 3 (<[3%positive := ex_daily]> ∅)
    = (Ok (Some (qz 50, qz 1)), <[3%positive := ex_daily]> ∅).
Proof.
  assert ((<[3%positive := ex_daily]> ∅ : gmap positive frame) !! 3%positive
          = Some ex_daily) as H1 by by_compute.
  assert (date_totals ex_daily = Ok ex_totals) as H2 by by_compute.
  assert (col ex_totals "Spend" = VNum <$> [qz 100; qz 200; qz 300]) as H3
    by by_compute.
  assert (col ex_totals "Revenue"
          = VNum <$> ((λ x, qz 50 + qz 1 * x) <$> [qz 100; qz 200; qz 300])) as H4
    by by_compute.
  assert (qsum [qz 100; qz 200; qz 300] ≠ 0) as H5 by by_compute.
  assert (qz 100 ∈ [qz 100; qz 200; qz 300]) as H6 by by_compute.
  assert (qz 200 ∈ [qz 100; qz 200; qz 300]) as H7 by by_compute.
  assert (qz 100 ≠ qz 200) as H8 by by_compute.
  split; [exact H1|]. split; [exact H2|]. split; [exact H3|]. split; [exact H4|].
  split; [exact H5|]. split; [exact H6|]. split; [exact H7|]. split; [exact H8|].
  exact (response_fit_exact_on_line _ _ _ _ _ _ _ _ _ H1 H2 H3 H4 H5 H6 H7 H8).
Defined.

Definition ex_clean_sessions_run : result positive * gmap positive frame :=
  clean_sessions no_date no_float repr_nan 1 ex_raw_store.

Definition ex_clean_orders_run : result positive * gmap positive frame :=
  clean_orders no_date no_float repr_nan 2 ex_raw_store.

Lemma clean_sessions_typed_example :
  ex_raw_store !! 1%positive = Some ex_sessions_raw
  ∧ clean_sessions no_date no_float repr_nan 1 ex_raw_store
    = (Ok 3%positive, ex_clean_sessions_run.2)
  ∧ ∃ df', ex_clean_sessions_run.2 !! 3%positive = Some df'
      ∧ columns df' = columns ex_sessions_raw
      ∧ length (rows df') = length (rows ex_sessions_raw).
Proof.
  assert (ex_raw_store !! 1%positive = Some ex_sessions_raw) as H1 by by_compute.
  assert (clean_sessions no_date no_float repr_nan 1 ex_raw_store
          = (Ok 3%positive, ex_clean_sessions_run.2)) as H2 by by_compute.
  split; [exact H1|]. split; [exact H2|].
  destruct (clean_sessions_typed no_date no_float repr_nan _ _ _ _ _ H1 H2)
    as (df' & Hl & Hc & Hn & _).
  exists df'. split; [exact Hl|]. split; [exact Hc|exact Hn].
Defined.

Lemma clean_sessions_idempotent_example :
  ex_raw_store !! 1%positive = Some ex_sessions_raw
  ∧ clean_sessions no_date no_float repr_nan 1 ex_raw_store
    = (Ok 3%positive, ex_clean_sessions_run.2)
  ∧ ∃ df1 l2 σ2, ex_clean_sessions_run.2 !! 3%positive = Some df1
      ∧ clean_sessions no_date no_float repr_nan 3 ex_clean_sessions_run.2
        = (Ok l2, σ2)
      ∧ σ2 !! l2 = Some df1.
Proof.
  assert (ex_raw_store !! 1%positive = Some ex_sessions_raw) as H1 by by_compute.
  assert (clean_sessions no_date no_float repr_nan 1 ex_raw_store
          = (Ok 3%positive, ex_clean_sessions_run.2)) as H2 by by_compute.
  split; [exact H1|]. split; [exact H2|].
  exact (clean_sessions_idempotent no_date no_float repr_nan _ _ _ _ _ H1 H2).
Defined.

Lemma clean_sessions_raises_on_dates_only_example :
  ex_raw_store !! 1%positive = Some ex_sessions_raw
  ∧ ∀ e, (clean_sessions no_date no_float repr_nan 1 ex_raw_store).1 = Err e →
      e = ValueError.
Proof.
  assert (ex_raw_store !! 1%positive = Some ex_sessions_raw) as H1 by by_compute.
  split; [exact H1|]. intros e He.
  exact (proj1 (proj2 (clean_sessions_raises_on_dates_only no_date no_float
                         repr_nan _ _ _ H1) e He)).
Defined.

Lemma clean_orders_date_example :
  ex_raw_store !! 2%positive = Some ex_orders
  ∧ clean_orders no_date no_float repr_nan 2 ex_raw_store
    = (Ok 3%positive, ex_clean_orders_run.2)
  ∧ ∃ df', ex_clean_orders_run.2 !! 3%positive = Some df'
      ∧ length (rows df') = length (rows ex_orders).
Proof.
  assert (ex_raw_store !! 2%positive = Some ex_orders) as H1 by by_compute.
  assert (clean_orders no_date no_float repr_nan 2 ex_raw_store
          = (Ok 3%positive, ex_clean_orders_run.2)) as H2 by by_compute.
  split; [exact H1|]. split; [exact H2|].
  destruct (clean_orders_date no_date no_float repr_nan _ _ _ _ _ H1 H2)
    as (df' & Hl & Hn & _).
  exists df'. split; [exact Hl|exact Hn].
Defined.

Definition ex_tables_run : result (positive * positive) * gmap positive frame :=
  kpi_tables no_date no_float repr_nan 1 2 ex_raw_store.

Definition ex_sessions_cleaned : frame :=
  match sessions_cleaned no_date no_float repr_nan ex_sessions_raw with
  | Ok s => s
  | Err _ => Frame [] []
  end.

Definition ex_orders_cleaned : frame :=
  match orders_cleaned no_date no_float repr_nan ex_orders with
  | Ok o => o
  | Err _ => Frame [] []
  end.

Definition ex_cleaned_daily : frame :=
  match daily_kpis no_date ex_sessions_cleaned ex_orders_cleaned with
  | Ok d => d
  | Err _ => Frame [] []
  end.

Lemma kpi_tables_of_cleaned_example :
  ex_raw_store !! 1%positive = Some ex_sessions_raw
  ∧ ex_raw_store !! 2%positive = Some ex_orders
  ∧ kpi_tables no_date no_float repr_nan 1 2 ex_raw_store
    = (Ok (7%positive, 9%positive), ex_tables_run.2)
  ∧ ∃ s o d out,
      sessions_cleaned no_date no_float repr_nan ex_sessions_raw = Ok s
      ∧ orders_cleaned no_date no_float repr_nan ex_orders = Ok o
      ∧ daily_kpis no_date s o = Ok d ∧ summary d = Ok out
      ∧ ex_tables_run.2 !! 7%positive = Some d
      ∧ ex_tables_run.2 !! 9%positive = Some out
      ∧ ex_tables_run.2 !! 1%positive = Some ex_sessions_raw
      ∧ ex_tables_run.2 !! 2%positive = Some ex_orders.
Proof.
  assert (ex_raw_store !! 1%positive = Some ex_sessions_raw) as H1 by by_compute.
  assert (ex_raw_store !! 2%positive = Some ex_orders) as H2 by by_compute.
  assert (kpi_tables no_date no_float repr_nan 1 2 ex_raw_store
          = (Ok (7%positive, 9%positive), ex_tables_run.2)) as H3 by by_compute.
  split; [exact H1|]. split; [exact H2|]. split; [exact H3|].
  exact (kpi_tables_of_cleaned no_date no_float repr_nan _ _ _ _ _ _ _ _ H1 H2 H3).
Defined.

Lemma pipeline_succeeds_example :
  ex_raw_store !! 1%positive = Some ex_sessions_raw
  ∧ ex_raw_store !! 2%positive = Some ex_orders
  ∧ sessions_cleaned no_date no_float repr_nan ex_sessions_raw = Ok ex_sessions_cleaned
  ∧ orders_cleaned no_date no_float repr_nan ex_orders = Ok ex_orders_cleaned
  ∧ daily_kpis no_date ex_sessions_cleaned ex_orders_cleaned = Ok ex_cleaned_daily
  ∧ ∃ ld lc fit σ1,
      main no_date no_float repr_nan 1 2 ex_raw_store = (Ok (ld, lc, fit), σ1)
      ∧ σ1 !! ld = Some ex_cleaned_daily.
Proof.
  assert (ex_raw_store !! 1%positive = Some ex_sessions_raw) as H1 by by_compute.
  assert (ex_raw_store !! 2%positive = Some ex_orders) as H2 by by_compute.
  assert (sessions_cleaned no_date no_float repr_nan ex_sessions_raw
          = Ok ex_sessions_cleaned) as H3 by by_compute.
  assert (orders_cleaned no_date no_float repr_nan ex_orders
          = Ok ex_orders_cleaned) as H4 by by_compute.
  assert (daily_kpis no_date ex_sessions_cleaned ex_orders_cleaned
          = Ok ex_cleaned_daily) as H5 by by_compute.
  split; [exact H1|]. split; [exact H2|]. split; [exact H3|]. split; [exact H4|].
  split; [exact H5|].
  destruct (pipeline_succeeds no_date no_float repr_nan _ 1 2 _ _ _ _ _
              H1 H2 H3 H4 H5) as (ld & lc & fit & σ1 & out & Hm & Hd & _).
  exists ld, lc, fit, σ1. split; [exact Hm|exact Hd].
Defined.

Lemma daily_rows_in_date_order_example :
  ex_store !! 1%positive = Some ex_sessions
  ∧ ex_store !! 2%positive = Some ex_orders
  ∧ compute_daily_channel_kpis no_date 1 2 ex_store = (Ok 5%positive, ex_daily_run.2)
  ∧ ∃ d, ex_daily_run.2 !! 5%positive = Some d
      ∧ ∀ i j ri rj zi zj, (i < j)%nat →
          rows d !! i = Some ri → rows d !! j = Some rj →
          ri !!! "Date" = VDate zi → rj !!! "Date" = VDate zj → (zi ≤ zj)%Z.
Proof.
  assert (ex_store !! 1%positive = Some ex_sessions) as H1 by by_compute.
  assert (ex_store !! 2%positive = Some ex_orders) as H2 by by_compute.
  assert (compute_daily_channel_kpis no_date 1 2 ex_store
          = (Ok 5%positive, ex_daily_run.2)) as H3 by by_compute.
  split; [exact H1|]. split; [exact H2|]. split; [exact H3|].
  exact (daily_rows_in_date_order no_date _ _ _ _ _ _ _ H1 H2 H3).
Defined.

Lemma summary_conserves_totals_example :
  (<[3%positive := ex_daily]> ∅ : gmap positive frame) !! 3%positive = Some ex_daily
  ∧ channel_summary 3 (<[3%positive := ex_daily]> ∅) = (Ok 5%positive, ex_summary_run.2)
  ∧ "Spend" ∈ ["Sessions"; "Clicks"; "Spend"; "Orders"; "Revenue"]
  ∧ ∃ out q, ex_summary_run.2 !! 5%positive = Some out
      ∧ column_total "Spend" (rows out) q
      ∧ column_total "Spend"
          (filter (λ r : gmap string value, r !!! "Channel" ≠ VNaN) (rows ex_daily)) q.
Proof.
  assert ((<[3%positive := ex_daily]> ∅ : gmap positive frame) !! 3%positive
          = Some ex_daily) as H1 by by_compute.
  assert (channel_summary 3 (<[3%positive := ex_daily]> ∅)
          = (Ok 5%positive, ex_summary_run.2)) as H2 by by_compute.
  assert ("Spend" ∈ ["Sessions"; "Clicks"; "Spend"; "Orders"; "Revenue"]) as H3
    by by_compute.
  split; [exact H1|]. split; [exact H2|]. split; [exact H3|].
  exact (summary_conserves_totals _ _ _ _ _ _ H1 H2 H3).
Defined.

Lemma daily_conserves_sessions_example :
  ex_store !! 1%positive = Some ex_sessions
  ∧ ex_store !! 2%positive = Some ex_orders
  ∧ compute_daily_channel_kpis no_date 1 2 ex_store = (Ok 5%positive, ex_daily_run.2)
  ∧ "Clicks" ∈ ["Sessions"; "Clicks"]
  ∧ ∃ d q, ex_daily_run.2 !! 5%positive = Some d
      ∧ column_total "Clicks" (rows d) q
      ∧ column_total "Clicks"
          (filter (λ x : gmap string value, present (session_key no_date x))
                  (rows ex_sessions)) q.
Proof.
  assert (ex_store !! 1%positive = Some ex_sessions) as H1 by by_compute.
  assert (ex_store !! 2%positive = Some ex_orders) as H2 by by_compute.
  assert (compute_daily_channel_kpis no_date 1 2 ex_store
          = (Ok 5%positive, ex_daily_run.2)) as H3 by by_compute.
  assert ("Clicks" ∈ ["Sessions"; "Clicks"]) as H4 by by_compute.
  split; [exact H1|]. split; [exact H2|]. split; [exact H3|]. split; [exact H4|].
  exact (daily_conserves_sessions no_date _ _ _ _ _ _ _ _ H1 H2 H3 H4).
Defined.
